(** * gradient-bot: the per-account lifecycle of [main.py]

    A shallow embedding of the parts of [main.py] that decide the
    behaviour of one account worker ([ChromeProxyAutomation]) and of the
    fleet manager ([MultiAccountManager]): the input parsers, the
    six-stage setup pipeline, the health-poll bookkeeping with its retry
    decision, the retry protocol, the staggered launch and the fleet
    preconditions.

    Conventions of the model:
    - a Python [str] is a [string]; its characters are code points below
      256, which covers every literal the program compares against;
    - Python integers are unbounded, so counters are [nat];
    - the browser, the file system and the clock are collaborators: their
      answers are inputs of the model (an [env] of stage outcomes, a list
      of poll observations, the [teardown] answers met when resources
      are released, the lines of the two input files);
    - time is counted in the seconds the program sleeps; the executor of
      the fleet is modelled as a queue served by its threads ([Pool]);
    - console and log output is recorded as a list of [event]s, each
      message by its literal text (interpolated values are left out). *)

From Stdlib Require Import Bool Arith Lia List String Ascii.
Import ListNotations.
Open Scope string_scope.
Open Scope nat_scope.
Set Warnings "-abstract-large-number".

(* ================================================================== *)
(** * Python string primitives used by the program *)

Module PyStr.

(** [str.isspace] on one character: the ASCII white space of CPython
    (tab to carriage return, the four separators 28..31, blank) and the
    two Latin-1 ones (NEL, no-break space). *)
Definition isspace (c : ascii) : bool :=
  let n := nat_of_ascii c in
  ((9 <=? n) && (n <=? 13)) || ((28 <=? n) && (n <=? 32))
  || (n =? 133) || (n =? 160).

(** [s.lstrip()] *)
Fixpoint lstrip (s : string) : string :=
  match s with
  | EmptyString => EmptyString
  | String c r => if isspace c then lstrip r else s
  end.

(** [s.rstrip()]: a character is dropped when it is white space and
    everything after it was dropped too. *)
Fixpoint rstrip (s : string) : string :=
  match s with
  | EmptyString => EmptyString
  | String c r =>
      match rstrip r with
      | EmptyString => if isspace c then EmptyString else String c EmptyString
      | r' => String c r'
      end
  end.

(** [s.strip()] *)
Definition strip (s : string) : string := rstrip (lstrip s).

(** Truth value of a string in a condition: non-empty. *)
Definition truthy (s : string) : bool :=
  match s with EmptyString => false | String _ _ => true end.

(** [c in s] for a one-character [c]. *)
Fixpoint contains (c : ascii) (s : string) : bool :=
  match s with
  | EmptyString => false
  | String d r => Ascii.eqb c d || contains c r
  end.

(** [s.partition(c)]: the text before the first [c], whether [c] was
    found, and the text after it. *)
Fixpoint partition (c : ascii) (s : string) : string * bool * string :=
  match s with
  | EmptyString => (EmptyString, false, EmptyString)
  | String d r =>
      if Ascii.eqb c d then (EmptyString, true, r)
      else let '(a, f, b) := partition c r in (String d a, f, b)
  end.

(** [s.rpartition(c)]: split at the last [c]; when [c] is absent the
    whole text is the third component. *)
Fixpoint rpartition (c : ascii) (s : string) : string * bool * string :=
  match s with
  | EmptyString => (EmptyString, false, EmptyString)
  | String d r =>
      let '(a, f, b) := rpartition c r in
      if f then (String d a, true, b)
      else if Ascii.eqb c d then (EmptyString, true, r)
      else (EmptyString, false, String d b)
  end.

(** [str.lower] on one character: the ASCII capitals and the Latin-1
    capitals (192..222 but the multiplication sign 215). *)
Definition lower_char (c : ascii) : ascii :=
  let n := nat_of_ascii c in
  if ((65 <=? n) && (n <=? 90))
     || ((192 <=? n) && (n <=? 222) && negb (n =? 215))
  then ascii_of_nat (n + 32) else c.

(** [s.lower()] *)
Fixpoint lower (s : string) : string :=
  match s with
  | EmptyString => EmptyString
  | String c r => String (lower_char c) (lower r)
  end.

(** [c.isdigit()] for an ASCII character *)
Definition isdigit (c : ascii) : bool :=
  let n := nat_of_ascii c in (48 <=? n) && (n <=? 57).

Fixpoint all_chars (p : ascii -> bool) (s : string) : bool :=
  match s with
  | EmptyString => true
  | String c r => p c && all_chars p r
  end.

(** [int(s)] for a string of ASCII digits, most significant first. *)
Fixpoint int_of_digits (acc : nat) (s : string) : nat :=
  match s with
  | EmptyString => acc
  | String c r => int_of_digits (10 * acc + (nat_of_ascii c - 48)) r
  end.

(** [s.replace(c, "")] for a one-character [c]. *)
Fixpoint remove_char (c : ascii) (s : string) : string :=
  match s with
  | EmptyString => EmptyString
  | String d r =>
      if Ascii.eqb c d then remove_char c r else String d (remove_char c r)
  end.

(** [s[:n]] and [s[n:]] for a non-negative [n]. *)
Fixpoint take (n : nat) (s : string) : string :=
  match n, s with
  | S k, String c r => String c (take k r)
  | _, _ => EmptyString
  end.

Fixpoint drop (n : nat) (s : string) : string :=
  match n, s with
  | S k, String _ r => drop k r
  | _, _ => s
  end.

End PyStr.

(* ================================================================== *)
(** * The URL parser the program imports *)

Module Url.

(** Reading [parsed.port] gives [None], an integer, or raises
    [ValueError] (a port that is not a decimal number below 65536). *)
Inductive port_attr :=
| PortNone
| PortInt (n : nat)
| PortValueError.

(** The attributes of a parse result that the program reads. *)
Record ParseResult := {
  hostname : option string;
  port : port_attr;
  username : option string;
  password : option string
}.

(** [urllib.parse.urlparse] is library code: the program is stated over
    any parser of this shape.  [None] stands for a call that raises
    [ValueError]. *)
Class UrlLib := urlparse : string -> option ParseResult.

(** Truth value of [parsed.hostname] ([None] and the empty string are
    false; the library never returns the latter). *)
Definition hostname_truthy (h : option string) : bool :=
  match h with Some s => PyStr.truthy s | None => false end.

(** ** A model of CPython's parser

    The steps of [urlsplit] that decide the network location and of the
    properties [hostname], [port], [username] and [password], for lines
    of characters below 256.  Releases from 3.11.4 on also check that a
    host in square brackets is an IPv6 or IPvFuture literal and raise
    [ValueError] when it is not; that check is not modelled, so the model
    is the library's on lines without square brackets, and the closed
    lemmas below use only such lines. *)

Definition is_c0_or_space (c : ascii) : bool := nat_of_ascii c <=? 32.

Fixpoint lstrip_c0 (s : string) : string :=
  match s with
  | EmptyString => EmptyString
  | String c r => if is_c0_or_space c then lstrip_c0 r else s
  end.

Definition isalpha_ascii (c : ascii) : bool :=
  let n := nat_of_ascii c in
  ((65 <=? n) && (n <=? 90)) || ((97 <=? n) && (n <=? 122)).

(** [scheme_chars]: letters, digits and [+-.] *)
Definition is_scheme_char (c : ascii) : bool :=
  let n := nat_of_ascii c in
  isalpha_ascii c || PyStr.isdigit c || (n =? 43) || (n =? 45) || (n =? 46).

(** The text left once a leading [scheme:] is taken off. *)
Definition drop_scheme (url : string) : string :=
  let '(pre, found, post) := PyStr.partition ":" url in
  match pre with
  | String c _ =>
      if found && isalpha_ascii c && PyStr.all_chars is_scheme_char pre
      then post else url
  | EmptyString => url
  end.

(** [_splitnetloc(url, 2)]: the text up to the first of [/], [?], [#]. *)
Fixpoint until_delim (s : string) : string :=
  match s with
  | EmptyString => EmptyString
  | String c r =>
      if Ascii.eqb c "/" || Ascii.eqb c "?" || Ascii.eqb c "#"
      then EmptyString else String c (until_delim r)
  end.

(** The network location of a line, [None] when [urlsplit] raises
    because only one of the two square brackets is present. *)
Definition netloc_of (line : string) : option string :=
  let url := lstrip_c0 line in
  let url := PyStr.remove_char "009" url in
  let url := PyStr.remove_char "013" url in
  let url := PyStr.remove_char "010" url in
  let url := drop_scheme url in
  match url with
  | String "/" (String "/" rest) =>
      let netloc := until_delim rest in
      if xorb (PyStr.contains "[" netloc) (PyStr.contains "]" netloc)
      then None else Some netloc
  | _ => Some EmptyString
  end.

(** [_hostinfo]: host text and port text ([None] when empty). *)
Definition hostinfo_of (netloc : string) : string * option string :=
  let '(_, _, hostinfo) := PyStr.rpartition "@" netloc in
  let '(_, have_open_br, bracketed) := PyStr.partition "[" hostinfo in
  let '(host, port) :=
    if have_open_br then
      let '(host, _, after) := PyStr.partition "]" bracketed in
      let '(_, _, port) := PyStr.partition ":" after in (host, port)
    else
      let '(host, _, port) := PyStr.partition ":" hostinfo in (host, port)
  in
  (host, if PyStr.truthy port then Some port else None).

Definition hostname_of (netloc : string) : option string :=
  let host := fst (hostinfo_of netloc) in
  if PyStr.truthy host then
    let '(h, percent, zone) := PyStr.partition "%" host in
    Some (PyStr.lower h ++ (if percent then "%" else "") ++ zone)%string
  else None.

Definition port_of (netloc : string) : port_attr :=
  match snd (hostinfo_of netloc) with
  | None => PortNone
  | Some p =>
      if PyStr.all_chars PyStr.isdigit p then
        let n := PyStr.int_of_digits 0 p in
        if n <=? 65535 then PortInt n else PortValueError
      else PortValueError
  end.

(** [_userinfo] *)
Definition userinfo_of (netloc : string) : option string * option string :=
  let '(userinfo, have_info, _) := PyStr.rpartition "@" netloc in
  if have_info then
    let '(user, have_password, pw) := PyStr.partition ":" userinfo in
    (Some user, if have_password then Some pw else None)
  else (None, None).

Definition cpython_urlparse (line : string) : option ParseResult :=
  match netloc_of line with
  | None => None
  | Some netloc =>
      Some {| hostname := hostname_of netloc;
              port := port_of netloc;
              username := fst (userinfo_of netloc);
              password := snd (userinfo_of netloc) |}
  end.

End Url.

(* ================================================================== *)
(** * Output and collaborators *)

(** The six stages of the setup pipeline, named after the methods that
    implement them. *)
Inductive stage :=
| parse_proxy_data_stage
| create_temp_profile
| start_chrome
| setup_proxy
| connect_to_proxy
| setup_gradient_extension.

Definition stage_number (s : stage) : nat :=
  match s with
  | parse_proxy_data_stage => 1
  | create_temp_profile => 2
  | start_chrome => 3
  | setup_proxy => 4
  | connect_to_proxy => 5
  | setup_gradient_extension => 6
  end.

Inductive level := Success | Error | Warning | Info | Debug.

(** The threads a worker starts. *)
Inductive target := monitor_extension_health_thread | retry_setup_thread.

(** What a run leaves behind, oldest first. *)
Inductive event :=
| PrintStep (n total : nat)          (* print_step(n, total, ...) *)
| Print (l : level) (text : string)  (* print_success/error/warning/info, logger.* *)
| Call (s : stage)                   (* the stage's method is entered *)
| Sleep (seconds : nat)              (* time.sleep *)
| Start (t : target).                (* threading.Thread(...).start() *)

(** The answers of the browser and of the file system to one run of the
    pipeline: whether each collaborator-backed stage method returns
    [True].  Every such method catches its own exceptions and returns
    [False], so a Boolean is all the pipeline sees.
    [profile_path_assigned] says whether a failing [create_temp_profile]
    got as far as assigning [self.temp_profile_path]. *)
Record env := {
  create_temp_profile_ok : bool;
  profile_path_assigned : bool;
  start_chrome_ok : bool;
  setup_proxy_ok : bool;
  connect_to_proxy_ok : bool;
  setup_gradient_extension_ok : bool
}.

(** The answer to the health query of one poll: the text of the status
    element, [NoSuchElementException], or another exception. *)
Inductive health_query :=
| ElementText (text : string)
| NoSuchElement
| QueryRaises.

(** What [cleanup_for_retry] meets, should the iteration start a retry:
    whether [self.driver.quit()] returns rather than raises, and what
    [os.path.exists(self.temp_profile_path)] answers. *)
Record teardown := {
  quit_returns : bool;
  profile_exists : bool
}.

(** The teardown in which the browser quits and the profile directory is
    still on disk. *)
Definition orderly : teardown :=
  {| quit_returns := true; profile_exists := true |}.

(** One iteration of the poll loop: either the page refresh raises (the
    iteration's [except] branch runs) or the health label is read; [d]
    is what a retry started by this iteration meets on teardown. *)
Inductive observation :=
| RefreshRaises
| Polled (q : health_query) (d : teardown).

(* ================================================================== *)
(** * [ChromeProxyAutomation]: one account worker *)

Module Worker.

Record account := { email : string; password : string }.

(** [self.proxy_data]; the source stores the port as its decimal text,
    the model keeps the number. *)
Record proxy_dict := {
  host : option string;
  port : option nat;
  username : option string;
  proxy_password : option string
}.

Record automation := {
  account_id : nat;
  driver : bool;                        (* a browser handle is held *)
  temp_profile_path : bool;             (* a profile directory is held *)
  proxy_data : option proxy_dict;
  proxy_line : option string;
  gradient_data : option account;
  health_monitoring_active : bool;
  setup_complete : bool;
  was_good_before : bool;
  retry_count : nat;
  max_retries : nat;
  consecutive_disconnects : nat;
  max_consecutive_disconnects : nat
}.

(** [__init__] *)
Definition init (account_id : nat) (account_data : option account)
    (proxy_line : option string) : automation :=
  {| account_id := account_id;
     driver := false;
     temp_profile_path := false;
     proxy_data := None;
     proxy_line := proxy_line;
     gradient_data := account_data;
     health_monitoring_active := false;
     setup_complete := false;
     was_good_before := false;
     retry_count := 0;
     max_retries := 3;
     consecutive_disconnects := 0;
     max_consecutive_disconnects := 3 |}.

(** Field updates. *)
Definition set_driver (v : bool) (w : automation) : automation :=
  {| account_id := account_id w; driver := v;
     temp_profile_path := temp_profile_path w; proxy_data := proxy_data w;
     proxy_line := proxy_line w; gradient_data := gradient_data w;
     health_monitoring_active := health_monitoring_active w;
     setup_complete := setup_complete w;
     was_good_before := was_good_before w; retry_count := retry_count w;
     max_retries := max_retries w;
     consecutive_disconnects := consecutive_disconnects w;
     max_consecutive_disconnects := max_consecutive_disconnects w |}.

Definition set_temp_profile_path (v : bool) (w : automation) : automation :=
  {| account_id := account_id w; driver := driver w;
     temp_profile_path := v; proxy_data := proxy_data w;
     proxy_line := proxy_line w; gradient_data := gradient_data w;
     health_monitoring_active := health_monitoring_active w;
     setup_complete := setup_complete w;
     was_good_before := was_good_before w; retry_count := retry_count w;
     max_retries := max_retries w;
     consecutive_disconnects := consecutive_disconnects w;
     max_consecutive_disconnects := max_consecutive_disconnects w |}.

Definition set_proxy_data (v : option proxy_dict) (w : automation)
    : automation :=
  {| account_id := account_id w; driver := driver w;
     temp_profile_path := temp_profile_path w; proxy_data := v;
     proxy_line := proxy_line w; gradient_data := gradient_data w;
     health_monitoring_active := health_monitoring_active w;
     setup_complete := setup_complete w;
     was_good_before := was_good_before w; retry_count := retry_count w;
     max_retries := max_retries w;
     consecutive_disconnects := consecutive_disconnects w;
     max_consecutive_disconnects := max_consecutive_disconnects w |}.

Definition set_health_monitoring_active (v : bool) (w : automation)
    : automation :=
  {| account_id := account_id w; driver := driver w;
     temp_profile_path := temp_profile_path w; proxy_data := proxy_data w;
     proxy_line := proxy_line w; gradient_data := gradient_data w;
     health_monitoring_active := v;
     setup_complete := setup_complete w;
     was_good_before := was_good_before w; retry_count := retry_count w;
     max_retries := max_retries w;
     consecutive_disconnects := consecutive_disconnects w;
     max_consecutive_disconnects := max_consecutive_disconnects w |}.

Definition set_setup_complete (v : bool) (w : automation) : automation :=
  {| account_id := account_id w; driver := driver w;
     temp_profile_path := temp_profile_path w; proxy_data := proxy_data w;
     proxy_line := proxy_line w; gradient_data := gradient_data w;
     health_monitoring_active := health_monitoring_active w;
     setup_complete := v;
     was_good_before := was_good_before w; retry_count := retry_count w;
     max_retries := max_retries w;
     consecutive_disconnects := consecutive_disconnects w;
     max_consecutive_disconnects := max_consecutive_disconnects w |}.

Definition set_was_good_before (v : bool) (w : automation) : automation :=
  {| account_id := account_id w; driver := driver w;
     temp_profile_path := temp_profile_path w; proxy_data := proxy_data w;
     proxy_line := proxy_line w; gradient_data := gradient_data w;
     health_monitoring_active := health_monitoring_active w;
     setup_complete := setup_complete w;
     was_good_before := v; retry_count := retry_count w;
     max_retries := max_retries w;
     consecutive_disconnects := consecutive_disconnects w;
     max_consecutive_disconnects := max_consecutive_disconnects w |}.

Definition set_retry_count (v : nat) (w : automation) : automation :=
  {| account_id := account_id w; driver := driver w;
     temp_profile_path := temp_profile_path w; proxy_data := proxy_data w;
     proxy_line := proxy_line w; gradient_data := gradient_data w;
     health_monitoring_active := health_monitoring_active w;
     setup_complete := setup_complete w;
     was_good_before := was_good_before w; retry_count := v;
     max_retries := max_retries w;
     consecutive_disconnects := consecutive_disconnects w;
     max_consecutive_disconnects := max_consecutive_disconnects w |}.

Definition set_consecutive_disconnects (v : nat) (w : automation)
    : automation :=
  {| account_id := account_id w; driver := driver w;
     temp_profile_path := temp_profile_path w; proxy_data := proxy_data w;
     proxy_line := proxy_line w; gradient_data := gradient_data w;
     health_monitoring_active := health_monitoring_active w;
     setup_complete := setup_complete w;
     was_good_before := was_good_before w; retry_count := retry_count w;
     max_retries := max_retries w;
     consecutive_disconnects := v;
     max_consecutive_disconnects := max_consecutive_disconnects w |}.

(** ** Methods as state transformers

    A method reads and updates the worker's fields and appends to the
    output; [M A] is such a computation with a result of type [A]. *)
Definition M (A : Type) : Type :=
  automation -> list event -> A * automation * list event.

Definition ret {A : Type} (a : A) : M A := fun w t => (a, w, t).

Definition bind {A B : Type} (m : M A) (k : A -> M B) : M B :=
  fun w t => let '(a, w', t') := m w t in k a w' t'.

Definition emit (e : event) : M unit := fun w t => (tt, w, (t ++ [e])%list).

Definition get : M automation := fun w t => (w, w, t).

Definition modify (f : automation -> automation) : M unit :=
  fun w t => (tt, f w, t).

Notation "x <- m ;; k" := (bind m (fun x => k))
  (at level 61, m at next level, right associativity).
Notation "m ;;; k" := (bind m (fun _ => k))
  (at level 61, right associativity).

Definition result_of {A : Type} (r : A * automation * list event) : A :=
  fst (fst r).
Definition worker_of {A : Type} (r : A * automation * list event)
    : automation := snd (fst r).
Definition output_of {A : Type} (r : A * automation * list event)
    : list event := snd r.

Section Pipeline.
Context {U : Url.UrlLib}.

(** [parse_proxy_data]: fails only when the parser, or reading the
    port, raises. *)
Definition parse_proxy_data (line : string) : M bool :=
  emit (Call parse_proxy_data_stage) ;;;
  emit (Print Debug "Parsing proxy line") ;;;
  match Url.urlparse line with
  | None => emit (Print Error "Error parsing proxy data") ;;; ret false
  | Some parsed =>
      match Url.port parsed with
      | Url.PortValueError =>
          emit (Print Error "Error parsing proxy data") ;;; ret false
      | p =>
          modify (set_proxy_data
                    (Some {| host := Url.hostname parsed;
                             port := match p with
                                     | Url.PortInt n => Some n
                                     | _ => None
                                     end;
                             username := Url.username parsed;
                             proxy_password := Url.password parsed |})) ;;;
          emit (Print Info "Parsed proxy data") ;;;
          ret true
      end
  end.

(** The five collaborator-backed stage methods.  Each returns what the
    environment answers.

    [create_temp_profile] assigns [self.temp_profile_path] in the middle
    of its body: a run that succeeds has assigned it, and a run that
    fails has assigned it or not according to where it failed, which
    [profile_path_assigned] tells.  [start_chrome] assigns [self.driver]
    with the last statement that can fail, so only a successful run
    does. *)
Definition create_temp_profile_m (e : env) : M bool :=
  emit (Call create_temp_profile) ;;;
  (if create_temp_profile_ok e || profile_path_assigned e
   then modify (set_temp_profile_path true) else ret tt) ;;;
  ret (create_temp_profile_ok e).

Definition start_chrome_m (e : env) : M bool :=
  emit (Call start_chrome) ;;;
  (if start_chrome_ok e then modify (set_driver true) else ret tt) ;;;
  ret (start_chrome_ok e).

Definition setup_proxy_m (e : env) : M bool :=
  emit (Call setup_proxy) ;;; ret (setup_proxy_ok e).

Definition connect_to_proxy_m (e : env) : M bool :=
  emit (Call connect_to_proxy) ;;; ret (connect_to_proxy_ok e).

Definition setup_gradient_extension_m (e : env) : M bool :=
  emit (Call setup_gradient_extension) ;;;
  ret (setup_gradient_extension_ok e).

(** [run_account_setup_internal], from its sixth step to its end. *)
Definition setup_from_step6 (e : env) : M bool :=
  emit (PrintStep 6 6) ;;;
  ok <- setup_gradient_extension_m e ;;
  if negb ok then
    emit (Print Error "Failed to setup gradient extension") ;;; ret false
  else
    emit (Print Success "Gradient extension configured successfully") ;;;
    modify (set_setup_complete true) ;;;
    ret true.

Definition setup_from_step5 (e : env) : M bool :=
  emit (PrintStep 5 6) ;;;
  ok <- connect_to_proxy_m e ;;
  (if negb ok then
     emit (Print Warning
             "Failed to connect to proxy, continuing without connection")
   else emit (Print Success "Connected to proxy server")) ;;;
  setup_from_step6 e.

Definition setup_from_step4 (e : env) : M bool :=
  emit (PrintStep 4 6) ;;;
  ok <- setup_proxy_m e ;;
  (if negb ok then
     emit (Print Warning "Failed to setup proxy, continuing without proxy")
   else emit (Print Success "Proxy settings configured")) ;;;
  setup_from_step5 e.

Definition setup_from_step3 (e : env) : M bool :=
  emit (PrintStep 3 6) ;;;
  ok <- start_chrome_m e ;;
  if negb ok then
    emit (Print Error "Failed to start Chrome") ;;; ret false
  else
    emit (Print Success "Chrome browser started in headless mode") ;;;
    setup_from_step4 e.

Definition setup_from_step2 (e : env) : M bool :=
  emit (PrintStep 2 6) ;;;
  ok <- create_temp_profile_m e ;;
  if negb ok then
    emit (Print Error "Failed to create temporary profile") ;;; ret false
  else
    emit (Print Success "Temporary profile created") ;;;
    setup_from_step3 e.

(** [run_account_setup_internal] *)
Definition run_account_setup_internal (e : env) : M bool :=
  emit (PrintStep 1 6) ;;;
  w <- get ;;
  match proxy_line w with
  | Some line =>
      if PyStr.truthy line then
        ok <- parse_proxy_data line ;;
        if negb ok then
          emit (Print Error "Failed to parse proxy data") ;;; ret false
        else
          emit (Print Info "Proxy") ;;;
          emit (Print Success "Proxy configuration loaded") ;;;
          setup_from_step2 e
      else
        emit (Print Error "No proxy assigned to this account") ;;;
        ret false
  | None =>
      emit (Print Error "No proxy assigned to this account") ;;; ret false
  end.

(** [run_account_setup]: the pipeline, then the poll loop's thread on
    success. *)
Definition run_account_setup (e : env) : M bool :=
  w <- get ;;
  match gradient_data w with
  | None =>
      (* the header reads the e-mail: [None] raises, caught below *)
      emit (Print Error "Unexpected error during setup") ;;; ret false
  | Some _ =>
      emit (Print Info "ACCOUNT") ;;;
      success <- run_account_setup_internal e ;;
      if success then
        emit (Print Success "Setup completed") ;;;
        emit (Start monitor_extension_health_thread) ;;;
        ret true
      else ret false
  end.

End Pipeline.

(** ** Health polling and the retry protocol *)

(** [get_extension_health] *)
Definition get_extension_health (q : health_query) : string :=
  match q with
  | ElementText text => text
  | NoSuchElement => "Unknown"
  | QueryRaises => "Error"
  end.

(** [is_good = health_status.lower() == "good"] *)
Definition is_good (health_status : string) : bool :=
  String.eqb (PyStr.lower health_status) "good".

(** "Track status changes": the bookkeeping of one observation. *)
Definition track_status (good : bool) (w : automation) : automation :=
  if good then set_consecutive_disconnects 0 (set_was_good_before true w)
  else set_consecutive_disconnects (consecutive_disconnects w + 1) w.

(** The condition under which the poll loop starts a retry, read after
    the bookkeeping. *)
Definition should_retry (w : automation) (good : bool) : bool :=
  was_good_before w && negb good
  && (max_consecutive_disconnects w <=? consecutive_disconnects w)
  && (retry_count w <? max_retries w).

(** [cleanup_for_retry].  The browser handle is dropped in a [finally]
    clause, whether [quit()] returns or raises; the profile path is
    dropped only inside the branch guarded by
    [self.temp_profile_path and os.path.exists(self.temp_profile_path)],
    so a path whose directory is gone stays in the field. *)
Definition cleanup_for_retry (d : teardown) : M unit :=
  emit (Print Info "Cleaning up for retry") ;;;
  modify (set_health_monitoring_active false) ;;;
  w <- get ;;
  (if driver w then
     (if quit_returns d then emit (Print Info "Browser closed")
      else emit (Print Warning "Browser cleanup issue")) ;;;
     modify (set_driver false)
   else ret tt) ;;;
  w <- get ;;
  (if temp_profile_path w && profile_exists d then
     emit (Print Info "Temp profile deleted") ;;;
     modify (set_temp_profile_path false)
   else ret tt) ;;;
  modify (set_proxy_data None) ;;;
  emit (Print Success "Cleanup completed for retry").

(** [initiate_retry] *)
Definition initiate_retry (d : teardown) : M unit :=
  w <- get ;;
  modify (set_retry_count (retry_count w + 1)) ;;;
  emit (Print Warning "Starting retry attempt") ;;;
  modify (set_health_monitoring_active false) ;;;
  cleanup_for_retry d ;;;
  emit (Print Info "Waiting 30 seconds before retry") ;;;
  emit (Sleep 30) ;;;
  modify (set_consecutive_disconnects 0) ;;;
  modify (set_setup_complete false) ;;;
  emit (Start retry_setup_thread).

(** How the poll loop stands after some observations: still looping,
    returned after starting a retry, or ended because the flag
    [health_monitoring_active] was found cleared. *)
Inductive loop_exit := Running | RetryInitiated | Deactivated.

(** The body of the [while] loop for one observation; [true] when it
    takes the [return] after [initiate_retry]. *)
Definition monitor_iteration (o : observation) : M bool :=
  match o with
  | RefreshRaises =>
      emit (Print Error "Health check error") ;;;
      emit (Sleep 60) ;;;
      ret false
  | Polled q d =>
      emit (Sleep 5) ;;;
      let health_status := get_extension_health q in
      let good := is_good health_status in
      modify (track_status good) ;;;
      emit (Print Info "Health") ;;;
      w <- get ;;
      if should_retry w good then
        emit (Print Warning
                "Account was good but now disconnected. Initiating retry...") ;;;
        initiate_retry d ;;;
        ret true
      else
        emit (Sleep 60) ;;; ret false
  end.

(** The [while] loop over the observations of successive iterations,
    with the [finally] clause on the way out. *)
Fixpoint monitor_loop (obs : list observation) : M loop_exit :=
  match obs with
  | [] => ret Running
  | o :: rest =>
      w <- get ;;
      if health_monitoring_active w then
        returned <- monitor_iteration o ;;
        if returned then
          modify (set_health_monitoring_active false) ;;;
          ret RetryInitiated
        else monitor_loop rest
      else
        modify (set_health_monitoring_active false) ;;;
        ret Deactivated
  end.

(** [monitor_extension_health], run over the observations [obs]. *)
Definition monitor_extension_health (obs : list observation) : M loop_exit :=
  modify (set_health_monitoring_active true) ;;;
  emit (Print Info "Health monitoring started (60s intervals)") ;;;
  monitor_loop obs.

Section Retry.
Context {U : Url.UrlLib}.

(** [retry_setup] *)
Definition retry_setup (e : env) : M bool :=
  w <- get ;;
  match gradient_data w with
  | None => emit (Print Error "Error during retry setup") ;;; ret false
  | Some _ =>
      emit (Print Warning "RETRY") ;;;
      emit (Print Info "Attempting full reconnection") ;;;
      success <- run_account_setup_internal e ;;
      if success then
        emit (Print Success "Retry successful! Account reconnected.") ;;;
        emit (Start monitor_extension_health_thread) ;;;
        ret true
      else
        emit (Print Error "Retry failed") ;;;
        w <- get ;;
        (if retry_count w <? max_retries w then
           emit (Print Info "Will attempt retry if disconnected again")
         else
           emit (Print Error "Max retries reached. Account disabled.")) ;;;
        ret false
  end.

(** ** The life of one worker

    A worker has at most one thread of its own at a time: the setup
    task, then the poll loop, then (after [initiate_retry]) the retry
    thread, which hands over to a new poll loop.  [phase] is the
    thread that is running; the inputs are what that thread meets. *)
Inductive phase := Created | Monitoring | Retrying | Stopped.

Record session := {
  current : phase;
  worker : automation;
  output : list event
}.

Inductive input :=
| Setup (e : env)          (* the collaborators' answers to a pipeline run *)
| Poll (o : observation).  (* one iteration of the poll loop *)

Definition start (w : automation) : session :=
  {| current := Created; worker := w; output := [] |}.

(** The poll loop's thread starts: the prologue of
    [monitor_extension_health]. *)
Definition enter_monitoring (w : automation) (t : list event) : session :=
  let r := monitor_extension_health [] w t in
  {| current := Monitoring; worker := worker_of r; output := output_of r |}.

Definition step (s : session) (i : input) : session :=
  match current s, i with
  | Created, Setup e =>
      let r := run_account_setup e (worker s) (output s) in
      if result_of r then enter_monitoring (worker_of r) (output_of r)
      else {| current := Stopped; worker := worker_of r;
              output := output_of r |}
  | Retrying, Setup e =>
      let r := retry_setup e (worker s) (output s) in
      if result_of r then enter_monitoring (worker_of r) (output_of r)
      else {| current := Stopped; worker := worker_of r;
              output := output_of r |}
  | Monitoring, Poll o =>
      let r := monitor_loop [o] (worker s) (output s) in
      {| current := match result_of r with
                    | Running => Monitoring
                    | RetryInitiated => Retrying
                    | Deactivated => Stopped
                    end;
         worker := worker_of r; output := output_of r |}
  | _, _ => s
  end.

Definition run (s : session) (inputs : list input) : session :=
  fold_left step inputs s.

End Retry.

End Worker.

(* ================================================================== *)
(** * The input parsers *)

Module Parsing.
Import Worker.

(** What the parsers write to the log; [i] is the 1-based line number. *)
Inductive parse_log :=
| Parsed (i : nat)                          (* debug: "Parsed account/proxy i" *)
| InvalidFormat (i : nat) (line : string)   (* warning: "Invalid ... format on line i" *)
| ErrorParsing (i : nat)                    (* warning: "Error parsing proxy on line i" *)
| ParsedCount (n : nat)                     (* info: "Parsed n ... from ... file" *)
| FileError.                                (* error: "Error parsing ... file" *)

(** The body of the [for] loop of [parse_all_accounts] from line number
    [i] on. *)
Fixpoint accounts_loop (i : nat) (lines : list string)
    (accounts : list account) (log : list parse_log)
    : list account * list parse_log :=
  match lines with
  | [] => (accounts, log)
  | raw :: rest =>
      let line := PyStr.strip raw in
      if PyStr.truthy line && PyStr.contains ":" line then
        let '(email, _, password) := PyStr.partition ":" line in
        let account_data := {| email := PyStr.strip email;
                               password := PyStr.strip password |} in
        accounts_loop (S i) rest (accounts ++ [account_data])%list
                      (log ++ [Parsed i])%list
      else if PyStr.truthy line then
        accounts_loop (S i) rest accounts (log ++ [InvalidFormat i line])%list
      else accounts_loop (S i) rest accounts log
  end.

(** [parse_all_accounts]; the argument is the result of [readlines()],
    [None] when opening or reading the file raises. *)
Definition parse_all_accounts (file : option (list string))
    : list account * list parse_log :=
  match file with
  | None => ([], [FileError])
  | Some lines =>
      let '(accounts, log) := accounts_loop 1 lines [] [] in
      (accounts, (log ++ [ParsedCount (List.length accounts)])%list)
  end.

Section Proxies.
Context {U : Url.UrlLib}.

(** What [parse_all_proxies] does with one stripped, non-blank line:
    [if parsed.hostname and parsed.port] reads the port only when the
    host name is true, and an exception of the parser or of the port
    is caught by the [except] of the line. *)
Inductive verdict := Accept | Invalid | Raised.

Definition validate (line : string) : verdict :=
  match Url.urlparse line with
  | None => Raised
  | Some parsed =>
      if Url.hostname_truthy (Url.hostname parsed) then
        match Url.port parsed with
        | Url.PortValueError => Raised
        | Url.PortNone => Invalid
        | Url.PortInt n => if n =? 0 then Invalid else Accept
        end
      else Invalid
  end.

Fixpoint proxies_loop (i : nat) (lines : list string)
    (proxies : list string) (log : list parse_log)
    : list string * list parse_log :=
  match lines with
  | [] => (proxies, log)
  | raw :: rest =>
      let line := PyStr.strip raw in
      if PyStr.truthy line then
        match validate line with
        | Accept =>
            proxies_loop (S i) rest (proxies ++ [line])%list
                         (log ++ [Parsed i])%list
        | Invalid =>
            proxies_loop (S i) rest proxies
                         (log ++ [InvalidFormat i line])%list
        | Raised =>
            proxies_loop (S i) rest proxies (log ++ [ErrorParsing i])%list
        end
      else proxies_loop (S i) rest proxies log
  end.

(** [parse_all_proxies] *)
Definition parse_all_proxies (file : option (list string))
    : list string * list parse_log :=
  match file with
  | None => ([], [FileError])
  | Some lines =>
      let '(proxies, log) := proxies_loop 1 lines [] [] in
      (proxies, (log ++ [ParsedCount (List.length proxies)])%list)
  end.

End Proxies.

End Parsing.

(* ================================================================== *)
(** * The executor

    [concurrent.futures.ThreadPoolExecutor]: submitted tasks wait in a
    queue, first in first out, and each is taken by the thread that is
    free first.  Time is counted in seconds from the submission of the
    tasks, which itself takes none. *)
Module Pool.




End Pool.

(* ================================================================== *)
(** * [MultiAccountManager]: the fleet *)

Module Manager.
Import Worker.



(** Seconds slept in an output. *)
Fixpoint slept (t : list event) : nat :=
  match t with
  | [] => 0
  | Sleep n :: r => n + slept r
  | _ :: r => slept r
  end.



(** One task handed to the executor:
    [executor.submit(self.setup_account_with_delay, automation, i-1)]. *)
Record task := { automation_of : automation; account_index : nat }.

Section Fleet.
Context {U : Url.UrlLib}.



(** The [for i, account_data in enumerate(accounts_data, 1)] loop from
    [i] on: one worker and one task per account. *)
Fixpoint submit_all (i : nat) (accounts_data : list account)
    (proxies_data : list string) : list task :=
  match accounts_data with
  | [] => []
  | account_data :: rest =>
      let proxy_line := nth_error proxies_data (i - 1) in
      let automation := Worker.init i (Some account_data) proxy_line in
      {| automation_of := automation; account_index := i - 1 |}
        :: submit_all (S i) rest proxies_data
  end.

(** What [run_all_accounts] has done by the time it either returns
    from a failed precondition or has submitted every task. *)
Record fleet_run := {
  printed : list event;
  parse_logs : list Parsing.parse_log;
  max_workers : option nat;   (* the executor's size, once it is created *)
  submitted : list task;
  returned : option bool      (* [Some false]: the method returned [False] *)
}.

Definition banner : list event :=
  [Print Info "MULTI-ACCOUNT CHROME PROXY AUTOMATION";
   Print Info "Initializing automated setup for multiple accounts..."].

(** [run_all_accounts], up to the submission of the tasks; the two
    arguments are the contents of [data.txt] and [proxy.txt]. *)
Definition run_all_accounts (data proxy : option (list string))
    : fleet_run :=
  let '(accounts_data, alog) := Parsing.parse_all_accounts data in
  match accounts_data with
  | [] =>
      {| printed := banner ++ [Print Error "No valid accounts found in data.txt"];
         parse_logs := alog; max_workers := None; submitted := [];
         returned := Some false |}
  | _ :: _ =>
      let '(proxies_data, plog) := Parsing.parse_all_proxies proxy in
      match proxies_data with
      | [] =>
          {| printed := banner ++ [Print Error "No valid proxies found in proxy.txt"];
             parse_logs := alog ++ plog; max_workers := None;
             submitted := []; returned := Some false |}
      | _ :: _ =>
          if List.length proxies_data <? List.length accounts_data then
            {| printed := banner ++
                 [Print Error "Insufficient proxies!";
                  Print Info "Each account requires its own proxy. Please add more proxies to proxy.txt"];
               parse_logs := alog ++ plog; max_workers := None;
               submitted := []; returned := Some false |}
          else
            {| printed := banner ++
                 [Print Info "SETUP SUMMARY"; Print Info "DEPLOYMENT STATUS"];
               parse_logs := alog ++ plog;
               max_workers := Some (List.length accounts_data);
               submitted := submit_all 1 accounts_data proxies_data;
               returned := None |}
      end
  end%list.


(** The script's entry point: [manager.run_all_accounts()] as a
    statement.  Its value is dropped and nothing calls [sys.exit], so
    when the method returns the interpreter ends with status 0. *)
Definition main (data proxy : option (list string)) : fleet_run * nat :=
  (run_all_accounts data proxy, 0).

End Fleet.

End Manager.

(* ================================================================== *)
(** * The specification's own notions *)

Module Spec.
Import Worker.

(** The retry decision as the specification words it (section 4.2):
    was ever healthy, the unhealthy streak has reached the threshold,
    and the budget is not used up. *)
Definition shouldRetry (wasEverHealthy : bool)
    (consecutiveUnhealthyChecks unhealthyThreshold retryCount maxRetries : nat)
    : bool :=
  wasEverHealthy
  && (unhealthyThreshold <=? consecutiveUnhealthyChecks)
  && (retryCount <? maxRetries).

(** A label that equals "good" up to the case of its letters. *)
Definition case_insensitive_good (label : string) : Prop :=
  exists c1 c2 c3 c4 : ascii,
    label = String c1 (String c2 (String c3 (String c4 EmptyString)))
    /\ (c1 = "g" \/ c1 = "G")%char /\ (c2 = "o" \/ c2 = "O")%char
    /\ (c3 = "o" \/ c3 = "O")%char /\ (c4 = "d" \/ c4 = "D")%char.

(** Whether a poll observation classifies as healthy. *)
Definition healthy (o : observation) : bool :=
  match o with
  | RefreshRaises => false
  | Polled q _ => is_good (get_extension_health q)
  end.

Definition unhealthy_input (i : input) : Prop :=
  match i with
  | Poll o => healthy o = false
  | Setup _ => True
  end.

(** The pipeline's stages in their order, and the two best-effort
    ones. *)
Definition all_stages : list stage :=
  [parse_proxy_data_stage; create_temp_profile; start_chrome;
   setup_proxy; connect_to_proxy; setup_gradient_extension].

Definition mandatory (s : stage) : bool :=
  match s with
  | setup_proxy | connect_to_proxy => false
  | _ => true
  end.

Section Stages.
Context {U : Url.UrlLib}.

(** Stage 1 succeeds when a proxy line is bound and it parses. *)
Definition bind_proxy_ok (w : automation) : bool :=
  match proxy_line w with
  | Some line =>
      PyStr.truthy line &&
      match Url.urlparse line with
      | Some parsed =>
          match Url.port parsed with
          | Url.PortValueError => false
          | _ => true
          end
      | None => false
      end
  | None => false
  end.

(** A non-empty proxy line is bound to the worker. *)
Definition proxy_bound (w : automation) : bool :=
  match proxy_line w with
  | Some line => PyStr.truthy line
  | None => false
  end.

Definition stage_ok (e : env) (w : automation) (s : stage) : bool :=
  match s with
  | parse_proxy_data_stage => bind_proxy_ok w
  | create_temp_profile => create_temp_profile_ok e
  | start_chrome => start_chrome_ok e
  | setup_proxy => setup_proxy_ok e
  | connect_to_proxy => connect_to_proxy_ok e
  | setup_gradient_extension => setup_gradient_extension_ok e
  end.

(** The stages that run when the stages [l] are taken in order and the
    first failing mandatory one ends the run. *)
Fixpoint stages_run (e : env) (w : automation) (l : list stage)
    : list stage :=
  match l with
  | [] => []
  | s :: r =>
      if mandatory s && negb (stage_ok e w s) then [s]
      else s :: stages_run e w r
  end.

(** Every mandatory stage succeeds. *)
Definition mandatory_ok (e : env) (w : automation) : bool :=
  forallb (fun s => negb (mandatory s) || stage_ok e w s) all_stages.

End Stages.

(** The step numbers announced in an output, in order. *)
Fixpoint steps_printed (t : list event) : list nat :=
  match t with
  | [] => []
  | PrintStep n _ :: r => n :: steps_printed r
  | _ :: r => steps_printed r
  end.

(** The stage methods entered in an output, in order. *)
Fixpoint calls (t : list event) : list stage :=
  match t with
  | [] => []
  | Call s :: r => s :: calls r
  | _ :: r => calls r
  end.

(** The threads started in an output, in order. *)
Fixpoint started (t : list event) : list target :=
  match t with
  | [] => []
  | Start x :: r => x :: started r
  | _ :: r => started r
  end.

(** The error messages printed in an output. *)
Fixpoint errors (t : list event) : list string :=
  match t with
  | [] => []
  | Print Error text :: r => text :: errors r
  | _ :: r => errors r
  end.

(** The specification's statements that the program does not meet as
    worded; each is stated here to be compared with the program. *)
Section Worded.
Context {U : Url.UrlLib}.

(** Section 4.3: failed fleet preconditions are reported, launch no
    worker and end the process with a non-zero status. *)
Definition precondition_failure_exits_nonzero
    (data proxy : option (list string)) : Prop :=
  let accounts := fst (Parsing.parse_all_accounts data) in
  let proxies := fst (Parsing.parse_all_proxies proxy) in
  accounts = [] \/ proxies = [] \/ List.length proxies < List.length accounts ->
  let '(r, status) := Manager.main data proxy in
  errors (Manager.printed r) <> [] /\ Manager.submitted r = []
  /\ status <> 0.

(** Section 3: a proxy line with both a host name and a port is
    accepted. *)
Definition host_and_port_accepted (raw : string) : Prop :=
  forall parsed h n,
    Url.urlparse (PyStr.strip raw) = Some parsed ->
    Url.hostname parsed = Some h ->
    Url.port parsed = Url.PortInt n ->
    fst (Parsing.parse_all_proxies (Some [raw])) = [PyStr.strip raw].

End Worded.

End Spec.

(* ================================================================== *)
(** * Further methods of the worker and of the manager *)

Module Click.
Import Worker.

(** How one attempt of [robust_click] ends: the wait for a clickable
    element (or the scroll) raises, [TimeoutException] or another
    exception; the click works; the click raises and the JavaScript click
    works; both raise. *)
Inductive attempt_outcome :=
| NotClickable (timeout : bool)
| Clicked
| JsClicked
| JsFails (timeout : bool).

Definition clicks (o : attempt_outcome) : bool :=
  match o with
  | Clicked | JsClicked => true
  | NotClickable _ | JsFails _ => false
  end.

(** The handlers of a failed attempt: wait and go on unless it was the
    last attempt. *)
Definition after_failure (timeout : bool) (attempt max_attempts wait_time : nat)
    (next : M bool) : M bool :=
  if attempt <? max_attempts - 1 then
    (if timeout then emit (Print Info "not ready, waiting")
     else emit (Print Warning "failed, retrying")) ;;;
    emit (Sleep wait_time) ;;;
    next
  else
    (if timeout then emit (Print Warning "not found after all attempts")
     else emit (Print Warning "failed after all attempts")) ;;;
    ret false.

(** The [for attempt in range(max_attempts)] loop of [robust_click] with
    [left] iterations to go; [outcome k] is how attempt [k] ends. *)
Fixpoint attempts (left attempt max_attempts wait_time : nat)
    (outcome : nat -> attempt_outcome) : M bool :=
  match left with
  | 0 => ret false
  | S left' =>
      let next := attempts left' (S attempt) max_attempts wait_time outcome in
      match outcome attempt with
      | NotClickable timeout =>
          after_failure timeout attempt max_attempts wait_time next
      | Clicked =>
          emit (Sleep 1) ;;; emit (Print Info "clicked") ;;; ret true
      | JsClicked =>
          emit (Sleep 1) ;;;
          emit (Print Info "Retrying with JS click") ;;;
          emit (Print Info "clicked via JS") ;;;
          ret true
      | JsFails timeout =>
          emit (Sleep 1) ;;;
          emit (Print Info "Retrying with JS click") ;;;
          after_failure timeout attempt max_attempts wait_time next
      end
  end.

(** [robust_click] *)
Definition robust_click (max_attempts wait_time : nat)
    (outcome : nat -> attempt_outcome) : M bool :=
  attempts max_attempts 0 max_attempts wait_time outcome.

End Click.

Module Shutdown.
Import Worker.

(** [cleanup]: the flag is cleared and the resources are released, but the
    fields that name them are left as they are.  [d] is what the browser
    and the file system answer. *)
Definition cleanup (d : teardown) : M unit :=
  modify (set_health_monitoring_active false) ;;;
  w <- get ;;
  (if driver w then
     emit (Print Debug "Closing Chrome driver") ;;;
     (if quit_returns d then ret tt
      else emit (Print Warning "Error closing driver"))
   else ret tt) ;;;
  (if temp_profile_path w && profile_exists d then
     emit (Print Debug "Removing temporary profile") ;;;
     emit (Print Debug "Successfully removed temp profile")
   else ret tt) ;;;
  emit (Print Info "Cleanup completed").

(** The loop of [cleanup_all] over the roster; [answers] gives the
    teardown answers by position in the roster. *)
Fixpoint cleanup_all (answers : nat -> teardown)
    (active_automations : list automation)
    : list automation * list event :=
  match active_automations with
  | [] => ([], [])
  | automation :: rest =>
      let r := cleanup (answers 0) automation [] in
      let '(rest', out) := cleanup_all (fun i => answers (S i)) rest in
      (worker_of r :: rest',
       (output_of r ++ Print Success "Cleaned up successfully" :: out)%list)
  end.

(** [sum(1 for auto in self.active_automations if auto.health_monitoring_active)] *)
Definition active_count (active_automations : list automation) : nat :=
  List.length (filter health_monitoring_active active_automations).

(** How [keep_alive] stands: still in its loop, or out of it. *)
Inductive liveness := Watching | Exited.

(** The [while True] loop of [keep_alive]; each element of [checks] is the
    roster as it is found at one check, a minute after the one before. *)
Fixpoint keep_alive (checks : list (list automation))
    : liveness * list event :=
  match checks with
  | [] => (Watching, [])
  | roster :: rest =>
      if active_count roster =? 0 then
        (Exited,
         [Sleep 60; Print Info "All health monitoring stopped. Exiting..."])
      else
        let '(l, out) := keep_alive rest in (l, Sleep 60 :: out)
  end.

End Shutdown.

(** The session a poll loop leaves: its phase is read off how the loop
    stands. *)
Definition session_after_loop
    (r : Worker.loop_exit * Worker.automation * list event) : Worker.session :=
  {| Worker.current := match Worker.result_of r with
                       | Worker.Running => Worker.Monitoring
                       | Worker.RetryInitiated => Worker.Retrying
                       | Worker.Deactivated => Worker.Stopped
                       end;
     Worker.worker := Worker.worker_of r;
     Worker.output := Worker.output_of r |}.

(** An observation whose label is read and is not healthy. *)
Definition unhealthy_label (o : observation) : Prop :=
  match o with
  | Polled q _ => Worker.is_good (Worker.get_extension_health q) = false
  | RefreshRaises => False
  end.

(** A poll whose page refresh raises. *)
Definition is_refresh_error (i : Worker.input) : bool :=
  match i with
  | Worker.Poll RefreshRaises => true
  | _ => false
  end.

(** The retry threads among the threads started. *)
Fixpoint retry_threads (l : list target) : nat :=
  match l with
  | [] => 0
  | retry_setup_thread :: r => S (retry_threads r)
  | monitor_extension_health_thread :: r => retry_threads r
  end.

(** What each phase of a worker's life means for its fields. *)
Definition phase_fields (s : Worker.session) : Prop :=
  let w := Worker.worker s in
  match Worker.current s with
  | Worker.Created =>
      Worker.health_monitoring_active w = false
  | Worker.Monitoring =>
      Worker.health_monitoring_active w = true
      /\ Worker.driver w = true /\ Worker.temp_profile_path w = true
      /\ Worker.setup_complete w = true /\ Worker.proxy_data w <> None
  | Worker.Retrying =>
      Worker.health_monitoring_active w = false
      /\ Worker.driver w = false
      /\ Worker.setup_complete w = false /\ Worker.proxy_data w = None
      /\ Worker.consecutive_disconnects w = 0
  | Worker.Stopped =>
      Worker.health_monitoring_active w = false
  end.

(** The output lines that are neither an accepted entry nor a count. *)
Fixpoint rejected (log : list Parsing.parse_log) : nat :=
  match log with
  | [] => 0
  | Parsing.InvalidFormat _ _ :: r => S (rejected r)
  | Parsing.ErrorParsing _ :: r => S (rejected r)
  | _ :: r => rejected r
  end.

(** The lines of a file that are not blank. *)
Definition non_blank (lines : list string) : list string :=
  filter (fun raw => PyStr.truthy (PyStr.strip raw)) lines.

(** An account as [parse_all_accounts] makes them: both parts stripped,
    no colon in the e-mail. *)
Definition clean_account (a : Worker.account) : Prop :=
  PyStr.strip (Worker.email a) = Worker.email a
  /\ PyStr.strip (Worker.password a) = Worker.password a
  /\ PyStr.contains ":" (Worker.email a) = false.

(** A proxy line as [parse_all_proxies] keeps them: stripped, not empty,
    with a host name and a port other than 0. *)
Definition valid_proxy {U : Url.UrlLib} (line : string) : Prop :=
  line <> "" /\ PyStr.strip line = line
  /\ exists parsed h n,
       Url.urlparse line = Some parsed
       /\ Url.hostname parsed = Some h /\ h <> ""
       /\ Url.port parsed = Url.PortInt n /\ n <> 0.

(** Two states of a worker that agree on everything the retry policy and
    the pipeline's first stage read: a pipeline run changes only the
    resources held, the parsed proxy and [setup_complete]. *)
Definition same_policy (w w' : Worker.automation) : Prop :=
  Worker.was_good_before w' = Worker.was_good_before w
  /\ Worker.retry_count w' = Worker.retry_count w
  /\ Worker.max_retries w' = Worker.max_retries w
  /\ Worker.consecutive_disconnects w' = Worker.consecutive_disconnects w
  /\ Worker.max_consecutive_disconnects w' = Worker.max_consecutive_disconnects w
  /\ Worker.health_monitoring_active w' = Worker.health_monitoring_active w
  /\ Worker.gradient_data w' = Worker.gradient_data w
  /\ Worker.proxy_line w' = Worker.proxy_line w.

(** What an input [i] may do to a worker, from [s] to [s']: the retry
    budget is fixed; either the retry count stays, no retry is entered and
    a poll starts no thread, or an unhealthy poll of a worker that was
    healthy before and has budget left adds one to the count; without a
    healthy label [was_good_before] stays. *)
Definition step_effect (s s' : Worker.session) (i : Worker.input) : Prop :=
  Worker.max_retries (Worker.worker s') = Worker.max_retries (Worker.worker s)
  /\ ((Worker.retry_count (Worker.worker s')
         = Worker.retry_count (Worker.worker s)
       /\ (Worker.current s' = Worker.Retrying ->
           Worker.current s = Worker.Retrying)
       /\ (forall o, i = Worker.Poll o ->
           Spec.started (Worker.output s') = Spec.started (Worker.output s))
       /\ (forall x, In x (Spec.started (Worker.output s')) ->
           In x (Spec.started (Worker.output s))
           \/ x = monitor_extension_health_thread))
      \/ (Worker.retry_count (Worker.worker s')
            = Worker.retry_count (Worker.worker s) + 1
          /\ Worker.retry_count (Worker.worker s)
             < Worker.max_retries (Worker.worker s)
          /\ Worker.was_good_before (Worker.worker s) = true
          /\ exists o, i = Worker.Poll o /\ Spec.healthy o = false))
  /\ (Spec.unhealthy_input i ->
      Worker.was_good_before (Worker.worker s')
      = Worker.was_good_before (Worker.worker s)).

(** CPython's parser as the program's URL library. *)
#[export] Instance cpython : Url.UrlLib := Url.cpython_urlparse.

(* ================================================================== *)
(** * Health classification and the retry decision *)

Module HealthFacts.
Import Worker Spec.

Example good_any_case : is_good "Good" = true /\ is_good "GOOD" = true
                        /\ is_good "good" = true /\ is_good "gOoD" = true.
Proof. repeat split; reflexivity. Qed.

Example not_good : is_good "Bad" = false /\ is_good "goods" = false
                   /\ is_good "" = false /\ is_good " good" = false.
Proof. repeat split; reflexivity. Qed.

(** Only a letter and its capital are lowered to that letter. *)
Ltac by_all_chars c :=
  destruct c as [[] [] [] [] [] [] [] []]; vm_compute;
  let H := fresh "H" in
  intro H; first [discriminate H | now left | now right].

Lemma lower_char_g (c : ascii) :
  PyStr.lower_char c = "g"%char -> (c = "g" \/ c = "G")%char.
Proof. by_all_chars c. Qed.

Lemma lower_char_o (c : ascii) :
  PyStr.lower_char c = "o"%char -> (c = "o" \/ c = "O")%char.
Proof. by_all_chars c. Qed.

Lemma lower_char_d (c : ascii) :
  PyStr.lower_char c = "d"%char -> (c = "d" \/ c = "D")%char.
Proof. by_all_chars c. Qed.

Lemma is_good_iff (label : string) :
  is_good label = true <-> case_insensitive_good label.
Proof.
  unfold is_good, case_insensitive_good. split.
  - intro H. apply String.eqb_eq in H.
    destruct label as [|c1 [|c2 [|c3 [|c4 [|c5 rest]]]]];
      simpl in H; try discriminate H.
    injection H as H1 H2 H3 H4.
    exists c1, c2, c3, c4. split; [reflexivity|].
    repeat split;
      auto using lower_char_g, lower_char_o, lower_char_d.
  - intros (c1 & c2 & c3 & c4 & -> & H1 & H2 & H3 & H4).
    destruct H1 as [-> | ->], H2 as [-> | ->],
             H3 as [-> | ->], H4 as [-> | ->]; reflexivity.
Qed.

Lemma should_retry_true_iff (w : automation) (good : bool) :
  should_retry w good = true <->
  was_good_before w = true /\ good = false
  /\ max_consecutive_disconnects w <= consecutive_disconnects w
  /\ retry_count w < max_retries w.
Proof.
  unfold should_retry.
  rewrite !andb_true_iff, negb_true_iff, Nat.leb_le, Nat.ltb_lt. tauto.
Qed.

(** A healthy observation never starts a retry. *)
Lemma should_retry_healthy (w : automation) : should_retry w true = false.
Proof. unfold should_retry. destruct (was_good_before w); reflexivity. Qed.

(** What the bookkeeping of one observation changes. *)
Lemma track_status_fields (good : bool) (w : automation) :
  let w' := track_status good w in
  was_good_before w' = (good || was_good_before w)
  /\ consecutive_disconnects w' =
     (if good then 0 else consecutive_disconnects w + 1)
  /\ retry_count w' = retry_count w
  /\ max_retries w' = max_retries w
  /\ max_consecutive_disconnects w' = max_consecutive_disconnects w
  /\ health_monitoring_active w' = health_monitoring_active w.
Proof. destruct good; simpl; repeat split; reflexivity. Qed.

End HealthFacts.

(** C6.  A label classifies as healthy exactly when it is "good" up to
    letter case; the labels "Unknown" and "Error", which stand for an
    unreadable element and a failed query, classify as unhealthy; the
    iteration that observes a healthy label sets [was_good_before] and
    puts the streak back to 0 without starting a retry; an unhealthy
    label adds 1 to the streak, and that is the worker's state after the
    iteration unless the iteration starts a retry. *)
Theorem C6_health_classification (q : health_query) (d : teardown)
    (w : Worker.automation) (t : list event) :
  let label := Worker.get_extension_health q in
  let good := Worker.is_good label in
  let r := Worker.monitor_iteration (Polled q d) w t in
  (good = true <-> Spec.case_insensitive_good label)
  /\ Worker.get_extension_health NoSuchElement = "Unknown"
  /\ Worker.get_extension_health QueryRaises = "Error"
  /\ Worker.is_good "Unknown" = false
  /\ Worker.is_good "Error" = false
  /\ (good = true ->
      Worker.result_of r = false
      /\ Worker.was_good_before (Worker.worker_of r) = true
      /\ Worker.consecutive_disconnects (Worker.worker_of r) = 0)
  /\ (good = false ->
      Worker.consecutive_disconnects (Worker.track_status good w)
        = Worker.consecutive_disconnects w + 1
      /\ Worker.was_good_before (Worker.track_status good w)
         = Worker.was_good_before w
      /\ (Worker.should_retry (Worker.track_status good w) good = false ->
          Worker.worker_of r = Worker.track_status good w)).
Proof.
  intros label good r.
  split; [apply HealthFacts.is_good_iff|].
  repeat (split; [reflexivity|]).
  split; intro Hg.
  - subst r. unfold Worker.monitor_iteration, Worker.bind, Worker.emit,
      Worker.modify, Worker.get, Worker.ret,
      Worker.result_of, Worker.worker_of. cbn.
    fold label. fold good. rewrite Hg.
    rewrite HealthFacts.should_retry_healthy.
    repeat split; reflexivity.
  - rewrite Hg. repeat split; try reflexivity.
    intro Hno. subst r.
    unfold Worker.monitor_iteration, Worker.bind, Worker.emit,
      Worker.modify, Worker.get, Worker.ret, Worker.worker_of. cbn.
    fold label. fold good. rewrite Hg. rewrite Hno. reflexivity.
Qed.

(** An observed "Bad" on a fresh worker: the streak becomes 1. *)
Lemma C6_health_classification_witness :
  Worker.consecutive_disconnects
    (Worker.worker_of
       (Worker.monitor_iteration (Polled (ElementText "Bad") orderly)
          (Worker.init 1 None None) [])) = 1
  /\ Worker.was_good_before
       (Worker.worker_of
          (Worker.monitor_iteration (Polled (ElementText "Good") orderly)
             (Worker.init 1 None None) [])) = true.
Proof.
  split.
  - destruct (C6_health_classification (ElementText "Bad") orderly
                (Worker.init 1 None None) [])
      as (_ & _ & _ & _ & _ & _ & Hbad).
    destruct (Hbad eq_refl) as (Hc & _ & Hw).
    rewrite (Hw eq_refl). exact Hc.
  - destruct (C6_health_classification (ElementText "Good") orderly
                (Worker.init 1 None None) [])
      as (_ & _ & _ & _ & _ & Hgood & _).
    destruct (Hgood eq_refl) as (_ & Hw & _). exact Hw.
Defined.

(* ================================================================== *)
(** * The setup pipeline *)

Module PipelineFacts.
Import Worker Spec.

Lemma steps_printed_app (a b : list event) :
  steps_printed (a ++ b) = (steps_printed a ++ steps_printed b)%list.
Proof.
  induction a as [|x a IH]; simpl; [reflexivity|].
  destruct x; simpl; rewrite IH; reflexivity.
Qed.

Lemma calls_app (a b : list event) :
  calls (a ++ b) = (calls a ++ calls b)%list.
Proof.
  induction a as [|x a IH]; simpl; [reflexivity|].
  destruct x; simpl; rewrite IH; reflexivity.
Qed.

Lemma started_app (a b : list event) :
  started (a ++ b) = (started a ++ started b)%list.
Proof.
  induction a as [|x a IH]; simpl; [reflexivity|].
  destruct x; simpl; rewrite IH; reflexivity.
Qed.

(** Replace every message text of the goal by a variable: the proofs
    below do not look inside the texts. *)
Ltac seal_messages :=
  repeat match goal with
         | |- context [Print ?l (String ?c ?r)] =>
             let m := fresh "msg" in generalize (String c r); intro m
         end.

(** Unfold a pipeline run down to its case analysis. *)
Ltac unfold_pipeline :=
  unfold run_account_setup, run_account_setup_internal, retry_setup,
    setup_from_step2, setup_from_step3, setup_from_step4, setup_from_step5,
    setup_from_step6, parse_proxy_data, create_temp_profile_m,
    start_chrome_m, setup_proxy_m, connect_to_proxy_m,
    setup_gradient_extension_m, bind, emit, get, modify, ret,
    result_of, worker_of, output_of;
  seal_messages.

(** Reduce the run itself, leaving the messages alone. *)
Ltac reduce_run :=
  cbv beta iota zeta
      delta [fst snd negb andb orb
             create_temp_profile_ok profile_path_assigned
             start_chrome_ok setup_proxy_ok
             connect_to_proxy_ok setup_gradient_extension_ok].

(** Split on everything a pipeline run of worker [w] in [e] looks at. *)
Ltac pipeline_cases e w :=
  let line := fresh "line" in
  let parsed := fresh "parsed" in
  destruct e as [[] [] [] [] [] []]; reduce_run;
  (destruct (proxy_line w) as [line|] eqn:?;
   [ reduce_run;
     (destruct (PyStr.truthy line) eqn:?;
      [ reduce_run;
        (destruct (Url.urlparse line) as [parsed|] eqn:?;
         [ reduce_run; destruct (Url.port parsed) eqn:?; reduce_run
         | reduce_run ])
      | reduce_run ])
   | reduce_run ]).

Section WithUrlLib.
Context {U : Url.UrlLib}.

Lemma run_account_setup_internal_frame (e : env) (w : automation)
    (t : list event) :
  same_policy w (worker_of (run_account_setup_internal e w t)).
Proof.
  unfold same_policy. unfold_pipeline.
  pipeline_cases e w; repeat split; cbn; congruence.
Qed.

Lemma run_account_setup_internal_result (e : env) (w : automation)
    (t : list event) :
  result_of (run_account_setup_internal e w t) = mandatory_ok e w.
Proof.
  unfold mandatory_ok, all_stages, stage_ok, bind_proxy_ok. unfold_pipeline.
  pipeline_cases e w; reflexivity.
Qed.

Lemma run_account_setup_internal_steps (e : env) (w : automation)
    (t : list event) :
  steps_printed (output_of (run_account_setup_internal e w t))
  = (steps_printed t ++ map stage_number (stages_run e w all_stages))%list.
Proof.
  unfold all_stages, stages_run, stage_ok, bind_proxy_ok. unfold_pipeline.
  pipeline_cases e w;
    rewrite ?steps_printed_app; cbn [steps_printed map stage_number];
    rewrite ?app_nil_r, <- ?app_assoc; reflexivity.
Qed.

Lemma run_account_setup_internal_calls (e : env) (w : automation)
    (t : list event) :
  calls (output_of (run_account_setup_internal e w t))
  = (calls t ++ if proxy_bound w then stages_run e w all_stages else [])%list.
Proof.
  unfold all_stages, stages_run, stage_ok, bind_proxy_ok, proxy_bound.
  unfold_pipeline.
  pipeline_cases e w;
    rewrite ?calls_app; cbn [calls];
    rewrite ?app_nil_r, <- ?app_assoc; reflexivity.
Qed.

(** A failing best-effort stage leaves its warning in the output. *)
Lemma best_effort_warnings (e : env) (w : automation) (t : list event) :
  bind_proxy_ok w && create_temp_profile_ok e && start_chrome_ok e = true ->
  let out := output_of (run_account_setup_internal e w t) in
  (setup_proxy_ok e = false ->
   In (Print Warning "Failed to setup proxy, continuing without proxy") out)
  /\ (connect_to_proxy_ok e = false ->
      In (Print Warning
            "Failed to connect to proxy, continuing without connection") out).
Proof.
  unfold bind_proxy_ok. unfold_pipeline.
  pipeline_cases e w; intros H; try discriminate H;
    (split; intros H'; try discriminate H');
    rewrite ?in_app_iff; simpl; tauto.
Qed.

(** The stages that run are an initial segment of the six. *)
Lemma stages_run_prefix (e : env) (w : automation) :
  exists k, stages_run e w all_stages = firstn k all_stages.
Proof.
  unfold all_stages, stages_run, stage_ok.
  destruct e as [[] [] [] [] [] []]; destruct (bind_proxy_ok w); simpl;
    first [ now exists 1 | now exists 2 | now exists 3 | now exists 6 ].
Qed.

Lemma stages_run_all (e : env) (w : automation) :
  bind_proxy_ok w && create_temp_profile_ok e && start_chrome_ok e = true ->
  stages_run e w all_stages = all_stages.
Proof.
  unfold all_stages, stages_run, stage_ok.
  destruct e as [[] [] [] [] [] []]; destruct (bind_proxy_ok w); simpl;
    intro H; try discriminate H; reflexivity.
Qed.

(** A mandatory stage that runs and fails is the last one to run. *)
Lemma stages_run_abort (e : env) (w : automation) (s : stage) :
  mandatory s = true -> In s (stages_run e w all_stages) ->
  stage_ok e w s = false ->
  mandatory_ok e w = false
  /\ stages_run e w all_stages = firstn (stage_number s) all_stages.
Proof.
  unfold mandatory_ok, all_stages, stages_run, stage_ok.
  destruct s; simpl; intros Hm Hin Hs; try discriminate Hm;
    rewrite ?Hs in *;
    destruct e as [[] [] [] [] [] []]; destruct (bind_proxy_ok w); simpl in *;
    try discriminate Hs; try (split; reflexivity);
    intuition discriminate.
Qed.

End WithUrlLib.
End PipelineFacts.

(** C5.  The pipeline announces and enters its stages in the order 1 to
    6, as an initial segment of the six; its result is success exactly
    when the four mandatory stages succeed; once stages 1 to 3 have
    succeeded all six stages run, and a failure of stage 4 or of stage 5
    only leaves a warning; a mandatory stage that fails is the last stage
    to run and the pipeline returns failure. *)
Theorem C5_pipeline_stages {U : Url.UrlLib} (e : env)
    (w : Worker.automation) (t : list event) :
  let r := Worker.run_account_setup_internal e w t in
  let ran := Spec.stages_run e w Spec.all_stages in
  Spec.steps_printed (Worker.output_of r)
    = (Spec.steps_printed t ++ map stage_number ran)%list
  /\ Spec.calls (Worker.output_of r)
     = (Spec.calls t ++ if Spec.proxy_bound w then ran else [])%list
  /\ (exists k, ran = firstn k Spec.all_stages)
  /\ Worker.result_of r = Spec.mandatory_ok e w
  /\ (Spec.bind_proxy_ok w && create_temp_profile_ok e && start_chrome_ok e
      = true ->
      ran = Spec.all_stages
      /\ (setup_proxy_ok e = false ->
          In (Print Warning "Failed to setup proxy, continuing without proxy")
             (Worker.output_of r))
      /\ (connect_to_proxy_ok e = false ->
          In (Print Warning
                "Failed to connect to proxy, continuing without connection")
             (Worker.output_of r)))
  /\ (forall s, Spec.mandatory s = true -> In s ran ->
      Spec.stage_ok e w s = false ->
      Worker.result_of r = false
      /\ ran = firstn (stage_number s) Spec.all_stages).
Proof.
  intros r ran. subst r ran.
  split; [apply PipelineFacts.run_account_setup_internal_steps|].
  split; [apply PipelineFacts.run_account_setup_internal_calls|].
  split; [apply PipelineFacts.stages_run_prefix|].
  split; [apply PipelineFacts.run_account_setup_internal_result|].
  split.
  - intro H. split; [now apply PipelineFacts.stages_run_all|].
    now apply PipelineFacts.best_effort_warnings.
  - intros s Hm Hin Hs.
    rewrite PipelineFacts.run_account_setup_internal_result.
    now apply PipelineFacts.stages_run_abort.
Qed.

(** A run whose proxy configuration fails in stage 4, and one whose
    browser does not start in stage 3. *)
Lemma C5_pipeline_stages_witness :
  let w := Worker.init 1 (Some {| Worker.email := "a@x.com";
                                  Worker.password := "p1" |})
                       (Some "http://u1:pw1@h1:1000") in
  let e4 := {| create_temp_profile_ok := true;
               profile_path_assigned := true; start_chrome_ok := true;
               setup_proxy_ok := false; connect_to_proxy_ok := true;
               setup_gradient_extension_ok := true |} in
  let e3 := {| create_temp_profile_ok := true;
               profile_path_assigned := true; start_chrome_ok := false;
               setup_proxy_ok := true; connect_to_proxy_ok := true;
               setup_gradient_extension_ok := true |} in
  (Worker.result_of (Worker.run_account_setup_internal e4 w []) = true
   /\ In (Print Warning "Failed to setup proxy, continuing without proxy")
         (Worker.output_of (Worker.run_account_setup_internal e4 w [])))
  /\ (Worker.result_of (Worker.run_account_setup_internal e3 w []) = false
      /\ Spec.stages_run e3 w Spec.all_stages
         = [parse_proxy_data_stage; create_temp_profile; start_chrome]).
Proof.
  intros w e4 e3. split.
  - destruct (C5_pipeline_stages e4 w []) as (_ & _ & _ & Hr & Hbest & _).
    split; [rewrite Hr; reflexivity|].
    destruct (Hbest eq_refl) as (_ & H4 & _). exact (H4 eq_refl).
  - destruct (C5_pipeline_stages e3 w []) as (_ & _ & _ & _ & _ & Habort).
    exact (Habort start_chrome eq_refl
                  ltac:(vm_compute; tauto) eq_refl).
Defined.

(* ================================================================== *)
(** * The life of a worker *)

Module SessionFacts.
Import Worker Spec PipelineFacts.

#[local] Arguments should_retry : simpl never.

Ltac unfold_monitor :=
  unfold monitor_extension_health, monitor_loop, monitor_iteration,
    initiate_retry, cleanup_for_retry, bind, emit, get, modify, ret,
    result_of, worker_of, output_of.

(** One iteration of the poll loop: what it can do to the budget. *)
Lemma monitor_loop_single (o : observation) (w : automation)
    (t : list event) :
  let r := monitor_loop [o] w t in
  max_retries (worker_of r) = max_retries w
  /\ (result_of r = RetryInitiated ->
      healthy o = false /\ was_good_before w = true
      /\ retry_count w < max_retries w
      /\ retry_count (worker_of r) = retry_count w + 1)
  /\ (result_of r <> RetryInitiated ->
      retry_count (worker_of r) = retry_count w
      /\ started (output_of r) = started t)
  /\ (healthy o = false -> was_good_before (worker_of r) = was_good_before w).
Proof.
  unfold_monitor.
  destruct (health_monitoring_active w) eqn:Ha; cbn;
    [|repeat split; intros; try reflexivity; congruence].
  destruct o as [|q d]; cbn.
  - repeat split; intros; try reflexivity; try congruence.
    rewrite !started_app; simpl; now rewrite !app_nil_r.
  - destruct (is_good (get_extension_health q)) eqn:Hg; cbn.
    + rewrite HealthFacts.should_retry_healthy. cbn.
      repeat split; intros; try reflexivity; try congruence.
      rewrite !started_app; simpl; now rewrite !app_nil_r.
    + match goal with
      | |- context [should_retry ?x false] =>
          destruct (should_retry x false) eqn:Hs
      end.
      * apply HealthFacts.should_retry_true_iff in Hs.
        destruct Hs as (Hw & _ & _ & Hr). cbn in Hw, Hr.
        cbn. destruct d as [[] []]; destruct (driver w); cbn; destruct (temp_profile_path w); cbn;
          repeat split; intros; try reflexivity; try congruence; lia.
      * cbn. repeat split; intros; try reflexivity; try congruence.
        rewrite !started_app; simpl; now rewrite !app_nil_r.
Qed.

Section WithUrlLib.
Context {U : Url.UrlLib}.

(** The pipeline starts no thread. *)
Lemma run_account_setup_internal_started (e : env) (w : automation)
    (t : list event) :
  started (output_of (run_account_setup_internal e w t)) = started t.
Proof.
  unfold_pipeline.
  pipeline_cases e w;
    rewrite ?started_app; cbn [started]; rewrite ?app_nil_r; reflexivity.
Qed.

(** The initial setup: it leaves the retry policy's fields alone, succeeds
    exactly when the mandatory stages do, and starts the poll loop's
    thread only then. *)
Lemma run_account_setup_facts (e : env) (w : automation) (t : list event) :
  let r := run_account_setup e w t in
  same_policy w (worker_of r)
  /\ result_of r = match gradient_data w with
                   | Some _ => mandatory_ok e w
                   | None => false
                   end
  /\ started (output_of r)
     = (started t ++ if result_of r then [monitor_extension_health_thread]
                     else [])%list.
Proof.
  unfold run_account_setup.
  cbv beta iota zeta delta [bind get emit ret].
  destruct (gradient_data w) as [a|] eqn:Hgd.
  - set (t1 := (t ++ [Print Info "ACCOUNT"])%list).
    pose proof (run_account_setup_internal_frame e w t1) as Hf.
    pose proof (run_account_setup_internal_result e w t1) as Hr.
    pose proof (run_account_setup_internal_started e w t1) as Hs.
    unfold result_of, worker_of, output_of in *.
    destruct (run_account_setup_internal e w t1) as [[b w'] t'].
    simpl in Hf, Hr, Hs. subst b.
    assert (Ht1 : started t1 = started t)
      by (unfold t1; rewrite started_app; simpl; apply app_nil_r).
    destruct (mandatory_ok e w); cbv beta iota zeta delta [fst snd];
      (split; [exact Hf|split; [reflexivity|]]).
    + rewrite !started_app, Hs, Ht1. cbn [started].
      now rewrite app_nil_r.
    + rewrite Hs, Ht1, app_nil_r. reflexivity.
  - cbv beta iota zeta delta [fst snd result_of worker_of output_of].
    split; [unfold same_policy; tauto|]. split; [reflexivity|].
    rewrite started_app. reflexivity.
Qed.

(** The same for the pipeline run of a retry. *)
Lemma retry_setup_facts (e : env) (w : automation) (t : list event) :
  let r := retry_setup e w t in
  same_policy w (worker_of r)
  /\ result_of r = match gradient_data w with
                   | Some _ => mandatory_ok e w
                   | None => false
                   end
  /\ started (output_of r)
     = (started t ++ if result_of r then [monitor_extension_health_thread]
                     else [])%list.
Proof.
  unfold retry_setup.
  cbv beta iota zeta delta [bind get emit ret].
  destruct (gradient_data w) as [a|] eqn:Hgd.
  - set (t1 := ((t ++ [Print Warning "RETRY"])
                  ++ [Print Info "Attempting full reconnection"])%list).
    pose proof (run_account_setup_internal_frame e w t1) as Hf.
    pose proof (run_account_setup_internal_result e w t1) as Hr.
    pose proof (run_account_setup_internal_started e w t1) as Hs.
    unfold result_of, worker_of, output_of in *.
    destruct (run_account_setup_internal e w t1) as [[b w'] t'].
    simpl in Hf, Hr, Hs. subst b.
    assert (Ht1 : started t1 = started t)
      by (unfold t1; rewrite !started_app; simpl; now rewrite !app_nil_r).
    destruct (mandatory_ok e w); cbv beta iota zeta delta [fst snd].
    + split; [exact Hf|split; [reflexivity|]].
      rewrite !started_app, Hs, Ht1. cbn [started].
      now rewrite app_nil_r.
    + destruct (retry_count w' <? max_retries w');
        cbv beta iota zeta delta [fst snd];
        (split; [exact Hf|split; [reflexivity|]]);
        rewrite !started_app, Hs, Ht1; cbn [started app];
        now rewrite !app_nil_r.
  - cbv beta iota zeta delta [fst snd result_of worker_of output_of].
    split; [unfold same_policy; tauto|]. split; [reflexivity|].
    rewrite started_app. reflexivity.
Qed.

Lemma enter_monitoring_worker (w : automation) (t : list event) :
  worker (enter_monitoring w t) = set_health_monitoring_active true w
  /\ current (enter_monitoring w t) = Monitoring
  /\ started (output (enter_monitoring w t)) = started t.
Proof.
  unfold enter_monitoring. unfold_monitor. cbn.
  repeat split. rewrite started_app. simpl. now rewrite app_nil_r.
Qed.

Lemma step_effect_refl (s : session) (i : input) : step_effect s s i.
Proof.
  unfold step_effect.
  split; [reflexivity|]. split; [|reflexivity].
  left. repeat split; auto.
Qed.

(** A pipeline run that hands over to the poll loop on success. *)
Lemma setup_effect (s : session) (e : env)
    (r : bool * automation * list event) :
  same_policy (worker s) (worker_of r) ->
  started (output_of r)
    = (started (output s) ++ if result_of r
                             then [monitor_extension_health_thread]
                             else [])%list ->
  step_effect s
    (if result_of r then enter_monitoring (worker_of r) (output_of r)
     else {| current := Stopped; worker := worker_of r;
             output := output_of r |})
    (Setup e).
Proof.
  intros (Hw & Hrc & Hmx & _) Hst. unfold step_effect.
  destruct (result_of r).
  - destruct (enter_monitoring_worker (worker_of r) (output_of r))
      as (Hew & Hec & Hes).
    rewrite Hew, Hec, Hes, Hst.
    cbn [retry_count max_retries was_good_before
         set_health_monitoring_active].
    split; [exact Hmx|]. split; [|intros _; exact Hw].
    left. split; [exact Hrc|]. split; [discriminate|].
    split; [discriminate|].
    intros x Hx. apply in_app_or in Hx. destruct Hx as [Hx|[<-|[]]]; auto.
  - cbn [worker output current]. rewrite Hst, app_nil_r.
    split; [exact Hmx|]. split; [|intros _; exact Hw].
    left. split; [exact Hrc|]. split; [discriminate|].
    split; [discriminate|]. auto.
Qed.

Lemma step_facts (s : session) (i : input) : step_effect s (step s i) i.
Proof.
  unfold step.
  destruct (current s) eqn:Hc; destruct i as [e|o];
    try apply step_effect_refl.
  - destruct (run_account_setup_facts e (worker s) (output s))
      as (Hf & _ & Hs).
    exact (setup_effect s e _ Hf Hs).
  - pose proof (monitor_loop_single o (worker s) (output s)) as Hm.
    cbv zeta in Hm. destruct Hm as (Hmx & Hretry & Hno & Hwas).
    unfold step_effect. cbn [worker output current].
    split; [exact Hmx|]. split; [|exact Hwas].
    destruct (result_of (monitor_loop [o] (worker s) (output s))) eqn:Hres.
    + left. destruct Hno as (Hrc & Hst); [discriminate|].
      split; [exact Hrc|]. split; [discriminate|].
      split; [intros; exact Hst|]. rewrite Hst. auto.
    + right. destruct (Hretry eq_refl) as (Hh & Hw & Hlt & Hrc).
      split; [exact Hrc|]. split; [exact Hlt|]. split; [exact Hw|].
      exists o. split; [reflexivity|exact Hh].
    + left. destruct Hno as (Hrc & Hst); [discriminate|].
      split; [exact Hrc|]. split; [discriminate|].
      split; [intros; exact Hst|]. rewrite Hst. auto.
  - destruct (retry_setup_facts e (worker s) (output s)) as (Hf & _ & Hs).
    destruct (setup_effect s e _ Hf Hs) as (Hmx & Hcase & Hwas).
    split; [exact Hmx|]. split; [|exact Hwas].
    destruct Hcase as [(Hrc & _ & Hp & Hx)|Hr]; [left|right; exact Hr].
    split; [exact Hrc|]. split; [intros _; exact Hc|]. split; assumption.
Qed.

(** Nothing happens to a worker without a thread. *)
Lemma run_stopped (s : session) (inputs : list input) :
  current s = Stopped -> run s inputs = s.
Proof.
  intro Hc. unfold run. induction inputs as [|i inputs IH]; [reflexivity|].
  simpl. replace (step s i) with s; [exact IH|].
  unfold step. rewrite Hc. destruct i; reflexivity.
Qed.

(** The retry count never decreases and stays within the budget. *)
Lemma run_budget (inputs : list input) (s : session) :
  retry_count (worker s) <= max_retries (worker s) ->
  let s' := run s inputs in
  max_retries (worker s') = max_retries (worker s)
  /\ retry_count (worker s) <= retry_count (worker s')
  /\ retry_count (worker s') <= max_retries (worker s').
Proof.
  unfold run. revert s.
  induction inputs as [|i inputs IH]; intros s Hle; simpl.
  - repeat split; auto.
  - destruct (step_facts s i) as (Hmx & Hcase & _).
    assert (Hle' : retry_count (worker (step s i))
                   <= max_retries (worker (step s i))).
    { rewrite Hmx. destruct Hcase as [(Hrc & _)|(Hrc & Hlt & _)]; lia. }
    destruct (IH (step s i) Hle') as (Hmx' & Hmono & Hbound).
    split; [congruence|]. split; [|exact Hbound].
    destruct Hcase as [(Hrc & _)|(Hrc & _)]; lia.
Qed.

(** A worker that never sees a healthy label keeps its retry count and
    never enters a retry. *)
Lemma run_never_healthy (inputs : list input) (s : session) :
  Forall unhealthy_input inputs ->
  was_good_before (worker s) = false ->
  current s <> Retrying ->
  let s' := run s inputs in
  retry_count (worker s') = retry_count (worker s)
  /\ was_good_before (worker s') = false
  /\ current s' <> Retrying
  /\ (forall x, In x (started (output s')) ->
      In x (started (output s)) \/ x = monitor_extension_health_thread).
Proof.
  unfold run. revert s.
  induction inputs as [|i inputs IH]; intros s Hall Hw Hc; simpl.
  - repeat split; auto.
  - inversion Hall as [|? ? Hi Hrest]; subst.
    destruct (step_facts s i) as (_ & Hcase & Hwas).
    destruct Hcase as [(Hrc & Hcur & _ & Hst)|(_ & _ & Hgood & _)];
      [|congruence].
    destruct (IH (step s i) Hrest) as (Hrc' & Hw' & Hc' & Hst').
    + rewrite (Hwas Hi). exact Hw.
    + intro H. apply Hc, Hcur, H.
    + split; [congruence|]. split; [exact Hw'|]. split; [exact Hc'|].
      intros x Hx. destruct (Hst' x Hx) as [H|H]; auto.
Qed.

End WithUrlLib.
End SessionFacts.

(** C8.  When the initial pipeline of a freshly constructed worker fails
    on a mandatory stage, the worker is left without any thread: no poll
    loop (and no retry) is started then or later, the monitoring flag
    stays cleared, and the retry count stays 0. *)
Theorem C8_initial_setup_failure {U : Url.UrlLib} (account_id : nat)
    (account_data : option Worker.account) (proxy_line : option string)
    (e : env) :
  let w := Worker.init account_id account_data proxy_line in
  Spec.mandatory_ok e w = false ->
  let s := Worker.step (Worker.start w) (Worker.Setup e) in
  Worker.result_of (Worker.run_account_setup e w []) = false
  /\ Worker.current s = Worker.Stopped
  /\ Spec.started (Worker.output s) = []
  /\ Worker.retry_count (Worker.worker s) = 0
  /\ Worker.health_monitoring_active (Worker.worker s) = false
  /\ (forall inputs, Worker.run s inputs = s).
Proof.
  intros w Hfail s.
  destruct (SessionFacts.run_account_setup_facts e w [])
    as ((_ & Hrc & _ & _ & _ & Hact & _) & Hres & Hst).
  assert (Hfalse : Worker.result_of (Worker.run_account_setup e w []) = false).
  { rewrite Hres. destruct (Worker.gradient_data w); [exact Hfail|reflexivity]. }
  assert (Hs : s = {| Worker.current := Worker.Stopped;
                      Worker.worker :=
                        Worker.worker_of (Worker.run_account_setup e w []);
                      Worker.output :=
                        Worker.output_of (Worker.run_account_setup e w []) |}).
  { subst s. unfold Worker.step, Worker.start.
    cbn [Worker.current Worker.worker Worker.output].
    rewrite Hfalse. reflexivity. }
  split; [exact Hfalse|].
  rewrite Hs. cbn [Worker.current Worker.worker Worker.output].
  split; [reflexivity|].
  split; [rewrite Hst, Hfalse; reflexivity|].
  split; [rewrite Hrc; reflexivity|].
  split; [rewrite Hact; reflexivity|].
  intro inputs. apply SessionFacts.run_stopped. reflexivity.
Qed.

(** C2.  From a worker whose retry count is within its budget, every
    sequence of pipeline runs and poll observations leads to a state in
    which the count is still within the budget; and once the count
    equals the budget, a further poll leaves the count as it is, starts
    no thread and enters no retry, and the count stays at the budget
    whatever follows. *)
Theorem C2_retry_budget_bounded {U : Url.UrlLib} (w0 : Worker.automation)
    (inputs : list Worker.input) :
  Worker.retry_count w0 <= Worker.max_retries w0 ->
  let s := Worker.run (Worker.start w0) inputs in
  Worker.retry_count (Worker.worker s) <= Worker.max_retries (Worker.worker s)
  /\ Worker.max_retries (Worker.worker s) = Worker.max_retries w0
  /\ (Worker.retry_count (Worker.worker s)
      = Worker.max_retries (Worker.worker s) ->
      (forall o,
          let s' := Worker.step s (Worker.Poll o) in
          Worker.retry_count (Worker.worker s')
          = Worker.retry_count (Worker.worker s)
          /\ Spec.started (Worker.output s') = Spec.started (Worker.output s)
          /\ (Worker.current s' = Worker.Retrying ->
              Worker.current s = Worker.Retrying))
      /\ (forall more,
             Worker.retry_count (Worker.worker (Worker.run s more))
             = Worker.max_retries w0)).
Proof.
  intros H0 s.
  destruct (SessionFacts.run_budget inputs (Worker.start w0) H0)
    as (Hmx & _ & Hle).
  fold s in Hmx, Hle. cbn [Worker.start Worker.worker] in Hmx.
  split; [exact Hle|]. split; [exact Hmx|].
  intro Hfull. split.
  - intros o s'. subst s'.
    destruct (SessionFacts.step_facts s (Worker.Poll o))
      as (_ & [(Hrc & Hcur & Hst & _)|(_ & Hlt & _)] & _); [|lia].
    split; [exact Hrc|]. split; [exact (Hst o eq_refl)|exact Hcur].
  - intro more.
    destruct (SessionFacts.run_budget more s Hle) as (Hmx' & Hmono & Hle').
    cbv zeta in Hmx', Hmono, Hle'. lia.
Qed.

(** C4.  A freshly constructed worker whose polls never classify as
    healthy, however many there are and whatever pipeline runs come in
    between, keeps [was_good_before] false and its retry count 0, enters
    no retry and starts no retry thread. *)
Theorem C4_never_healthy_never_retries {U : Url.UrlLib} (account_id : nat)
    (account_data : option Worker.account) (proxy_line : option string)
    (inputs : list Worker.input) :
  Forall Spec.unhealthy_input inputs ->
  let s := Worker.run
             (Worker.start (Worker.init account_id account_data proxy_line))
             inputs in
  Worker.retry_count (Worker.worker s) = 0
  /\ Worker.was_good_before (Worker.worker s) = false
  /\ Worker.current s <> Worker.Retrying
  /\ ~ In retry_setup_thread (Spec.started (Worker.output s)).
Proof.
  intros Hall s.
  destruct (SessionFacts.run_never_healthy inputs
              (Worker.start (Worker.init account_id account_data proxy_line))
              Hall eq_refl ltac:(discriminate))
    as (Hrc & Hw & Hc & Hst).
  fold s in Hrc, Hw, Hc, Hst.
  split; [exact Hrc|]. split; [exact Hw|]. split; [exact Hc|].
  intro Hin. destruct (Hst _ Hin) as [[]|H]. discriminate H.
Qed.

(** A worker whose extension login fails in the initial setup. *)
Lemma C8_initial_setup_failure_witness :
  let w := Worker.init 1 (Some {| Worker.email := "a@x.com";
                                  Worker.password := "p1" |})
                       (Some "http://u1:pw1@h1:1000") in
  let e := {| create_temp_profile_ok := true;
              profile_path_assigned := true; start_chrome_ok := true;
              setup_proxy_ok := true; connect_to_proxy_ok := true;
              setup_gradient_extension_ok := false |} in
  Spec.mandatory_ok e w = false
  /\ Worker.current (Worker.step (Worker.start w) (Worker.Setup e))
     = Worker.Stopped
  /\ Worker.retry_count
       (Worker.worker (Worker.step (Worker.start w) (Worker.Setup e))) = 0.
Proof.
  intros w e.
  assert (H : Spec.mandatory_ok e w = false) by (vm_compute; reflexivity).
  split; [exact H|].
  destruct (C8_initial_setup_failure 1 (Worker.gradient_data w)
              (Worker.proxy_line w) e H) as (_ & Hc & _ & Hr & _).
  split; [exact Hc|exact Hr].
Defined.

(** Three retries use up the default budget; the next sustained
    degradation is only watched. *)
Lemma C2_retry_budget_bounded_witness :
  let w0 := Worker.init 1 (Some {| Worker.email := "a@x.com";
                                   Worker.password := "p1" |})
                        (Some "http://u1:pw1@h1:1000") in
  let ok := Worker.Setup
              {| create_temp_profile_ok := true;
                 profile_path_assigned := true; start_chrome_ok := true;
                 setup_proxy_ok := true; connect_to_proxy_ok := true;
                 setup_gradient_extension_ok := true |} in
  let good := Worker.Poll (Polled (ElementText "Good") orderly) in
  let bad := Worker.Poll (Polled (ElementText "Bad") orderly) in
  let inputs := [ok; good; bad; bad; bad; ok; bad; bad; bad;
                 ok; bad; bad; bad; ok; bad; bad] in
  let s := Worker.run (Worker.start w0) inputs in
  Worker.retry_count (Worker.worker s) = 3
  /\ Worker.current s = Worker.Monitoring
  /\ Worker.retry_count
       (Worker.worker (Worker.step s (Worker.Poll (Polled (ElementText "Bad") orderly))))
     = 3.
Proof.
  intros w0 ok good bad inputs s.
  assert (H0 : Worker.retry_count w0 <= Worker.max_retries w0)
    by (simpl; lia).
  assert (H3 : Worker.retry_count (Worker.worker s) = 3)
    by (vm_compute; reflexivity).
  assert (Hfull : Worker.retry_count (Worker.worker s)
                  = Worker.max_retries (Worker.worker s))
    by (vm_compute; reflexivity).
  split; [exact H3|]. split; [vm_compute; reflexivity|].
  destruct (C2_retry_budget_bounded w0 inputs H0) as (_ & _ & Hstay).
  destruct (Hstay Hfull) as (Hpoll & _).
  destruct (Hpoll (Polled (ElementText "Bad") orderly)) as (Hrc & _).
  exact (eq_trans Hrc H3).
Defined.

(** Five unhealthy polls and a failed refresh after a successful setup. *)
Lemma C4_never_healthy_never_retries_witness :
  let ok := Worker.Setup
              {| create_temp_profile_ok := true;
                 profile_path_assigned := true; start_chrome_ok := true;
                 setup_proxy_ok := true; connect_to_proxy_ok := true;
                 setup_gradient_extension_ok := true |} in
  let bad := Worker.Poll (Polled (ElementText "Disconnected") orderly) in
  let inputs := [ok; bad; bad; bad; Worker.Poll RefreshRaises; bad;
                 Worker.Poll (Polled NoSuchElement orderly); bad] in
  let s := Worker.run
             (Worker.start
                (Worker.init 1 (Some {| Worker.email := "a@x.com";
                                        Worker.password := "p1" |})
                             (Some "http://u1:pw1@h1:1000")))
             inputs in
  Worker.consecutive_disconnects (Worker.worker s) = 6
  /\ Worker.retry_count (Worker.worker s) = 0.
Proof.
  intros ok bad inputs s.
  split; [vm_compute; reflexivity|].
  assert (Hall : Forall Spec.unhealthy_input inputs)
    by (repeat constructor).
  exact (proj1 (C4_never_healthy_never_retries
                  1 (Some {| Worker.email := "a@x.com";
                             Worker.password := "p1" |})
                  (Some "http://u1:pw1@h1:1000") inputs Hall)).
Defined.

(* ================================================================== *)
(** * The input parsers *)

Module StringFacts.

Lemma truthy_false (s : string) : PyStr.truthy s = false <-> s = "".
Proof. destruct s; simpl; split; congruence. Qed.

Lemma contains_app (c : ascii) (a b : string) :
  PyStr.contains c (a ++ b)
  = PyStr.contains c a || PyStr.contains c b.
Proof.
  induction a as [|d a IH]; simpl; [reflexivity|].
  rewrite IH. apply orb_assoc.
Qed.

(** [partition] splits at the first occurrence. *)
Lemma partition_first (c : ascii) (pre post : string) :
  PyStr.contains c pre = false ->
  PyStr.partition c (pre ++ String c post) = (pre, true, post).
Proof.
  induction pre as [|d pre IH]; simpl; intro H.
  - rewrite Ascii.eqb_refl. reflexivity.
  - apply orb_false_iff in H. destruct H as [Hd Hpre].
    rewrite Hd, (IH Hpre). reflexivity.
Qed.

(** A string that contains [c] splits around its first [c]. *)
Lemma contains_split (c : ascii) (s : string) :
  PyStr.contains c s = true ->
  exists pre post,
    s = (pre ++ String c post)%string /\ PyStr.contains c pre = false.
Proof.
  induction s as [|d s IH]; simpl; intro H; [discriminate|].
  destruct (Ascii.eqb c d) eqn:Hd.
  - apply Ascii.eqb_eq in Hd. subst d.
    exists "", s. split; reflexivity.
  - destruct (IH H) as (pre & post & -> & Hpre).
    exists (String d pre), post. simpl. rewrite Hd, Hpre.
    split; reflexivity.
Qed.

End StringFacts.

Module ParsingFacts.
Import Worker Parsing.

(** A loop over two pieces of a file is the loop over the second piece
    started from what the first one left. *)
Lemma accounts_loop_app (l1 l2 : list string) :
  forall i accounts log,
    accounts_loop i (l1 ++ l2) accounts log
    = accounts_loop (i + List.length l1) l2
        (fst (accounts_loop i l1 accounts log))
        (snd (accounts_loop i l1 accounts log)).
Proof.
  induction l1 as [|raw l1 IH]; intros i accounts log; simpl.
  - rewrite Nat.add_0_r. reflexivity.
  - rewrite <- Nat.add_succ_comm.
    destruct (PyStr.truthy (PyStr.strip raw)
              && PyStr.contains ":" (PyStr.strip raw)).
    + destruct (PyStr.partition ":" (PyStr.strip raw)) as [[em ?] pw].
      apply IH.
    + destruct (PyStr.truthy (PyStr.strip raw)); apply IH.
Qed.

(** The accounts found do not depend on the numbering and extend what
    was there; the log only grows. *)
Lemma accounts_loop_acc (lines : list string) :
  forall i j accounts log,
    fst (accounts_loop i lines accounts log)
    = (accounts ++ fst (accounts_loop j lines [] []))%list
    /\ exists more,
         snd (accounts_loop i lines accounts log) = (log ++ more)%list.
Proof.
  induction lines as [|raw lines IH]; intros i j accounts log; simpl.
  - rewrite app_nil_r. split; [reflexivity|]. exists []. now rewrite app_nil_r.
  - destruct (PyStr.truthy (PyStr.strip raw)
              && PyStr.contains ":" (PyStr.strip raw)).
    + destruct (PyStr.partition ":" (PyStr.strip raw)) as [[em ?] pw].
      destruct (IH (S i) (S j) (accounts ++ [{| email := PyStr.strip em;
                                               password := PyStr.strip pw |}])%list
                  (log ++ [Parsed i])%list) as (Ha & more & Hl).
      destruct (IH (S j) (S j) [{| email := PyStr.strip em;
                                   password := PyStr.strip pw |}]
                  [Parsed j]) as (Hb & _).
      rewrite Ha, Hb, Hl, <- !app_assoc. split; [reflexivity|].
      eexists. reflexivity.
    + destruct (PyStr.truthy (PyStr.strip raw)).
      * destruct (IH (S i) (S j) accounts
                    (log ++ [InvalidFormat i (PyStr.strip raw)])%list)
          as (Ha & more & Hl).
        destruct (IH (S j) (S j) [] [InvalidFormat j (PyStr.strip raw)])
          as (Hb & _).
        rewrite Ha, Hb, Hl, <- !app_assoc. split; [reflexivity|].
        eexists. reflexivity.
      * destruct (IH (S i) (S j) accounts log) as (Ha & more & Hl).
        destruct (IH (S j) (S j) [] []) as (Hb & _).
        rewrite Ha, Hb, Hl. split; [reflexivity|]. eexists. reflexivity.
Qed.

Lemma parse_all_accounts_fst (lines : list string) :
  fst (parse_all_accounts (Some lines))
  = fst (accounts_loop 1 lines [] []).
Proof.
  unfold parse_all_accounts.
  destruct (accounts_loop 1 lines [] []). reflexivity.
Qed.

Lemma parse_all_accounts_snd (lines : list string) :
  snd (parse_all_accounts (Some lines))
  = (snd (accounts_loop 1 lines [] [])
       ++ [ParsedCount (List.length (fst (accounts_loop 1 lines [] [])))])%list.
Proof.
  unfold parse_all_accounts.
  destruct (accounts_loop 1 lines [] []). reflexivity.
Qed.

(** The accounts of a file around one of its lines: those before it,
    what the line gives from their state, those after it. *)
Lemma accounts_around (before after : list string) (raw : string) :
  let r := accounts_loop 1 before [] [] in
  let r1 := accounts_loop (S (List.length before)) [raw] (fst r) (snd r) in
  fst (parse_all_accounts (Some (before ++ raw :: after)%list))
  = (fst r1 ++ fst (parse_all_accounts (Some after)))%list
  /\ fst r = fst (parse_all_accounts (Some before))
  /\ forall x, In x (snd r1) ->
       In x (snd (parse_all_accounts (Some (before ++ raw :: after)%list))).
Proof.
  intros r r1.
  rewrite !parse_all_accounts_fst, parse_all_accounts_snd.
  change (raw :: after) with ([raw] ++ after)%list.
  rewrite accounts_loop_app. fold r.
  rewrite (accounts_loop_app [raw] after).
  change (1 + List.length before) with (S (List.length before)). fold r1.
  destruct (accounts_loop_acc after (S (List.length before) + List.length [raw])
              1 (fst r1) (snd r1)) as (Ha & more & Hl).
  rewrite Ha, Hl. split; [reflexivity|]. split; [reflexivity|].
  intros x Hx. rewrite !in_app_iff. auto.
Qed.

End ParsingFacts.

(** C10.  An account line whose stripped text is [pre:post] with no colon
    in [pre] gives the account with e-mail [pre] and secret [post], both
    stripped, at the line's place among the accounts of the file, so
    colons inside the secret are kept; every stripped line containing a
    colon has this form; a non-blank line without a colon adds no account
    and is reported with its line number. *)
Theorem C10_account_line_split (before after : list string) (raw : string) :
  let line := PyStr.strip raw in
  let accounts := fun l => fst (Parsing.parse_all_accounts (Some l)) in
  (forall pre post,
      line = (pre ++ String ":" post)%string ->
      PyStr.contains ":" pre = false ->
      accounts (before ++ raw :: after)%list
      = (accounts before
           ++ [{| Worker.email := PyStr.strip pre;
                  Worker.password := PyStr.strip post |}]
           ++ accounts after)%list)
  /\ (PyStr.contains ":" line = true ->
      exists pre post,
        line = (pre ++ String ":" post)%string
        /\ PyStr.contains ":" pre = false)
  /\ (line <> "" -> PyStr.contains ":" line = false ->
      accounts (before ++ raw :: after)%list
      = (accounts before ++ accounts after)%list
      /\ In (Parsing.InvalidFormat (S (List.length before)) line)
            (snd (Parsing.parse_all_accounts
                    (Some (before ++ raw :: after)%list)))).
Proof.
  intros line accounts. subst accounts. cbv beta.
  destruct (ParsingFacts.accounts_around before after raw)
    as (Hall & Hbefore & Hlog).
  cbv zeta in Hall, Hbefore, Hlog. rewrite Hall. clear Hall.
  split; [|split].
  - intros pre post Hline Hpre.
    cbn [Parsing.accounts_loop]. fold line. rewrite Hline.
    rewrite StringFacts.contains_app, Hpre.
    rewrite (StringFacts.partition_first ":" pre post Hpre).
    replace (PyStr.truthy (pre ++ String ":" post)) with true
      by (destruct pre; reflexivity).
    cbn.
    rewrite Hbefore, <- app_assoc. reflexivity.
  - apply StringFacts.contains_split.
  - intros Hne Hno.
    assert (Ht : PyStr.truthy line = true)
      by (destruct line; [congruence|reflexivity]).
    revert Hlog. cbn [Parsing.accounts_loop]. fold line.
    rewrite Ht, Hno. cbn. intro Hlog.
    rewrite Hbefore. split; [reflexivity|].
    apply Hlog. rewrite in_app_iff. right. left. reflexivity.
Qed.

(** The line [ a@x.com : p:1 ] between two well-formed lines. *)
Lemma C10_account_line_split_witness :
  fst (Parsing.parse_all_accounts
         (Some ["b@x.com:p2"; " a@x.com : p:1 "; "c@x.com:p3"]))
  = [{| Worker.email := "b@x.com"; Worker.password := "p2" |};
     {| Worker.email := "a@x.com"; Worker.password := "p:1" |};
     {| Worker.email := "c@x.com"; Worker.password := "p3" |}]
  /\ In (Parsing.InvalidFormat 2 "no colon here")
        (snd (Parsing.parse_all_accounts
                (Some ["b@x.com:p2"; "  no colon here"; "c@x.com:p3"]))).
Proof.
  split.
  - exact (proj1 (C10_account_line_split ["b@x.com:p2"] ["c@x.com:p3"]
                    " a@x.com : p:1 ")
                 "a@x.com " " p:1" eq_refl eq_refl).
  - exact (proj2 (proj2 (proj2 (C10_account_line_split
                                  ["b@x.com:p2"] ["c@x.com:p3"]
                                  "  no colon here"))
                          ltac:(discriminate) eq_refl)).
Defined.

Module ProxyFacts.
Import Parsing.

Section WithUrlLib.
Context {U : Url.UrlLib}.

Lemma proxies_loop_app (l1 l2 : list string) :
  forall i proxies log,
    proxies_loop i (l1 ++ l2) proxies log
    = proxies_loop (i + List.length l1) l2
        (fst (proxies_loop i l1 proxies log))
        (snd (proxies_loop i l1 proxies log)).
Proof.
  induction l1 as [|raw l1 IH]; intros i proxies log; simpl.
  - rewrite Nat.add_0_r. reflexivity.
  - rewrite <- Nat.add_succ_comm.
    destruct (PyStr.truthy (PyStr.strip raw)); [|apply IH].
    destruct (validate (PyStr.strip raw)); apply IH.
Qed.

Lemma proxies_loop_acc (lines : list string) :
  forall i j proxies log,
    fst (proxies_loop i lines proxies log)
    = (proxies ++ fst (proxies_loop j lines [] []))%list
    /\ exists more,
         snd (proxies_loop i lines proxies log) = (log ++ more)%list.
Proof.
  induction lines as [|raw lines IH]; intros i j proxies log; simpl.
  - rewrite app_nil_r. split; [reflexivity|]. exists []. now rewrite app_nil_r.
  - destruct (PyStr.truthy (PyStr.strip raw)).
    + destruct (validate (PyStr.strip raw)).
      * destruct (IH (S i) (S j) (proxies ++ [PyStr.strip raw])%list
                    (log ++ [Parsed i])%list) as (Ha & more & Hl).
        destruct (IH (S j) (S j) [PyStr.strip raw] [Parsed j]) as (Hb & _).
        rewrite Ha, Hb, Hl, <- !app_assoc. split; [reflexivity|].
        eexists. reflexivity.
      * destruct (IH (S i) (S j) proxies
                    (log ++ [InvalidFormat i (PyStr.strip raw)])%list)
          as (Ha & more & Hl).
        destruct (IH (S j) (S j) [] [InvalidFormat j (PyStr.strip raw)])
          as (Hb & _).
        rewrite Ha, Hb, Hl, <- !app_assoc. split; [reflexivity|].
        eexists. reflexivity.
      * destruct (IH (S i) (S j) proxies (log ++ [ErrorParsing i])%list)
          as (Ha & more & Hl).
        destruct (IH (S j) (S j) [] [ErrorParsing j]) as (Hb & _).
        rewrite Ha, Hb, Hl, <- !app_assoc. split; [reflexivity|].
        eexists. reflexivity.
    + destruct (IH (S i) (S j) proxies log) as (Ha & more & Hl).
      destruct (IH (S j) (S j) [] []) as (Hb & _).
      rewrite Ha, Hb, Hl. split; [reflexivity|]. eexists. reflexivity.
Qed.

Lemma parse_all_proxies_fst (lines : list string) :
  fst (parse_all_proxies (Some lines)) = fst (proxies_loop 1 lines [] []).
Proof.
  unfold parse_all_proxies.
  destruct (proxies_loop 1 lines [] []). reflexivity.
Qed.

Lemma parse_all_proxies_snd (lines : list string) :
  snd (parse_all_proxies (Some lines))
  = (snd (proxies_loop 1 lines [] [])
       ++ [ParsedCount (List.length (fst (proxies_loop 1 lines [] [])))])%list.
Proof.
  unfold parse_all_proxies.
  destruct (proxies_loop 1 lines [] []). reflexivity.
Qed.

(** The proxies of a file around one of its lines. *)
Lemma proxies_around (before after : list string) (raw : string) :
  let r := proxies_loop 1 before [] [] in
  let r1 := proxies_loop (S (List.length before)) [raw] (fst r) (snd r) in
  fst (parse_all_proxies (Some (before ++ raw :: after)%list))
  = (fst r1 ++ fst (parse_all_proxies (Some after)))%list
  /\ fst r = fst (parse_all_proxies (Some before))
  /\ forall x, In x (snd r1) ->
       In x (snd (parse_all_proxies (Some (before ++ raw :: after)%list))).
Proof.
  intros r r1.
  rewrite !parse_all_proxies_fst, parse_all_proxies_snd.
  change (raw :: after) with ([raw] ++ after)%list.
  rewrite proxies_loop_app. fold r.
  rewrite (proxies_loop_app [raw] after).
  change (1 + List.length before) with (S (List.length before)). fold r1.
  destruct (proxies_loop_acc after (S (List.length before) + List.length [raw])
              1 (fst r1) (snd r1)) as (Ha & more & Hl).
  rewrite Ha, Hl. split; [reflexivity|]. split; [reflexivity|].
  intros x Hx. rewrite !in_app_iff. auto.
Qed.

End WithUrlLib.
End ProxyFacts.

(** C9 (as amended).  In the proxy file a blank line adds nothing; a
    non-blank line for which the parser finds neither host name nor port
    adds no proxy, is reported as invalid with its line number, and the
    lines after it are parsed as they would be without it; a line with a
    host name and a port other than 0 adds its stripped text at its
    place in file order. *)
Theorem C9_proxy_line_validation {U : Url.UrlLib}
    (before after : list string) (raw : string) :
  let line := PyStr.strip raw in
  let proxies := fun l => fst (Parsing.parse_all_proxies (Some l)) in
  (line = "" ->
   proxies (before ++ raw :: after)%list
   = (proxies before ++ proxies after)%list)
  /\ (forall parsed,
      line <> "" -> Url.urlparse line = Some parsed ->
      Url.hostname parsed = None -> Url.port parsed = Url.PortNone ->
      proxies (before ++ raw :: after)%list
      = (proxies before ++ proxies after)%list
      /\ In (Parsing.InvalidFormat (S (List.length before)) line)
            (snd (Parsing.parse_all_proxies
                    (Some (before ++ raw :: after)%list))))
  /\ (forall parsed h n,
      line <> "" -> Url.urlparse line = Some parsed ->
      Url.hostname parsed = Some h -> h <> "" ->
      Url.port parsed = Url.PortInt n -> n <> 0 ->
      proxies (before ++ raw :: after)%list
      = (proxies before ++ [line] ++ proxies after)%list).
Proof.
  intros line proxies. subst proxies. cbv beta.
  destruct (ProxyFacts.proxies_around before after raw)
    as (Hall & Hbefore & Hlog).
  cbv zeta in Hall, Hbefore, Hlog. rewrite Hall. clear Hall.
  split; [|split].
  - intro Hblank. cbn [Parsing.proxies_loop]. fold line. rewrite Hblank.
    cbn. rewrite Hbefore. reflexivity.
  - intros parsed Hne Hp Hh Hport.
    assert (Ht : PyStr.truthy line = true)
      by (destruct line; [congruence|reflexivity]).
    revert Hlog. cbn [Parsing.proxies_loop]. fold line.
    unfold Parsing.validate. rewrite Ht, Hp, Hh. cbn. intro Hlog.
    rewrite Hbefore. split; [reflexivity|].
    apply Hlog. rewrite in_app_iff. right. left. reflexivity.
  - intros parsed h n Hne Hp Hh Hhne Hport Hn.
    assert (Ht : PyStr.truthy line = true)
      by (destruct line; [congruence|reflexivity]).
    cbn [Parsing.proxies_loop]. fold line.
    unfold Parsing.validate. rewrite Ht, Hp, Hh, Hport.
    replace (Url.hostname_truthy (Some h)) with true
      by (destruct h; [congruence|reflexivity]).
    replace (n =? 0) with false by (symmetry; apply Nat.eqb_neq; exact Hn).
    cbn. rewrite Hbefore, <- app_assoc. reflexivity.
Qed.

(** The line [http://h1:0] has the host name [h1] and the port 0, and is
    not accepted. *)
Lemma C9_proxy_line_validation_counterexample :
  ~ Spec.host_and_port_accepted (U := cpython) "http://h1:0".
Proof.
  unfold Spec.host_and_port_accepted. intro H.
  specialize (H {| Url.hostname := Some "h1"; Url.port := Url.PortInt 0;
                   Url.username := None; Url.password := None |}
                "h1" 0 eq_refl eq_refl eq_refl).
  vm_compute in H. discriminate H.
Qed.

(** A file with a blank line, a line that is no URL and two proxies. *)
Lemma C9_proxy_line_validation_witness :
  fst (Parsing.parse_all_proxies
         (Some ["http://u1:pw1@h1:1000"; "not a proxy";
                " http://u2:pw2@h2:2000 "]))
  = ["http://u1:pw1@h1:1000"; "http://u2:pw2@h2:2000"]
  /\ In (Parsing.InvalidFormat 2 "not a proxy")
        (snd (Parsing.parse_all_proxies
                (Some ["http://u1:pw1@h1:1000"; "not a proxy";
                       " http://u2:pw2@h2:2000 "])))
  /\ fst (Parsing.parse_all_proxies
            (Some ["http://u1:pw1@h1:1000"; "   ";
                   " http://u2:pw2@h2:2000 "]))
     = ["http://u1:pw1@h1:1000"; "http://u2:pw2@h2:2000"]
  /\ fst (Parsing.parse_all_proxies
            (Some ["http://u1:pw1@h1:1000"; " http://u2:pw2@h2:2000 "]))
     = ["http://u1:pw1@h1:1000"; "http://u2:pw2@h2:2000"].
Proof.
  split; [|split; [|split]].
  - exact (proj1 (proj1 (proj2 (C9_proxy_line_validation
                                  ["http://u1:pw1@h1:1000"]
                                  [" http://u2:pw2@h2:2000 "] "not a proxy"))
                        {| Url.hostname := None; Url.port := Url.PortNone;
                           Url.username := None; Url.password := None |}
                        ltac:(discriminate) eq_refl eq_refl eq_refl)).
  - exact (proj2 (proj1 (proj2 (C9_proxy_line_validation
                                  ["http://u1:pw1@h1:1000"]
                                  [" http://u2:pw2@h2:2000 "] "not a proxy"))
                        {| Url.hostname := None; Url.port := Url.PortNone;
                           Url.username := None; Url.password := None |}
                        ltac:(discriminate) eq_refl eq_refl eq_refl)).
  - exact (proj1 (C9_proxy_line_validation
                    ["http://u1:pw1@h1:1000"]
                    [" http://u2:pw2@h2:2000 "] "   ") eq_refl).
  - exact (proj2 (proj2 (C9_proxy_line_validation
                           ["http://u1:pw1@h1:1000"] []
                           " http://u2:pw2@h2:2000 "))
                 {| Url.hostname := Some "h2"; Url.port := Url.PortInt 2000;
                    Url.username := Some "u2"; Url.password := Some "pw2" |}
                 "h2" 2000 ltac:(discriminate) eq_refl eq_refl
                 ltac:(discriminate) eq_refl ltac:(discriminate)).
Defined.

(* ================================================================== *)
(** * The fleet *)

Module FleetFacts.
Import Worker Manager.

Lemma slept_app (a b : list event) : slept (a ++ b) = slept a + slept b.
Proof.
  induction a as [|x a IH]; simpl; [reflexivity|].
  destruct x; simpl; rewrite IH; lia.
Qed.


Section WithUrlLib.
Context {U : Url.UrlLib}.

(** The tasks are numbered in the order of the accounts. *)
Lemma submit_all_nth (accounts_data : list account)
    (proxies_data : list string) :
  forall i k tk,
    1 <= i ->
    nth_error (submit_all i accounts_data proxies_data) k = Some tk ->
    account_index tk = i - 1 + k
    /\ account_id (automation_of tk) = i + k
    /\ gradient_data (automation_of tk) = nth_error accounts_data k
    /\ proxy_line (automation_of tk) = nth_error proxies_data (i - 1 + k).
Proof.
  induction accounts_data as [|a rest IH]; intros i k tk Hi Hk.
  - destruct k; discriminate Hk.
  - destruct k as [|k]; simpl in Hk.
    + injection Hk as <-. simpl. rewrite !Nat.add_0_r.
      repeat split; reflexivity.
    + destruct (IH (S i) k tk ltac:(lia) Hk) as (H1 & H2 & H3 & H4).
      replace (i - 1 + S k) with (S i - 1 + k) by lia.
      replace (i + S k) with (S i + k) by lia.
      repeat split; assumption.
Qed.

Lemma submit_all_length (accounts_data : list account)
    (proxies_data : list string) (i : nat) :
  List.length (submit_all i accounts_data proxies_data)
  = List.length accounts_data.
Proof.
  revert i. induction accounts_data as [|a rest IH]; intro i; simpl;
    [reflexivity|]. now rewrite IH.
Qed.

(** What [run_all_accounts] submits: nothing, or one task per account. *)
Lemma run_all_accounts_submitted (data proxy : option (list string)) :
  let accounts := fst (Parsing.parse_all_accounts data) in
  let proxies := fst (Parsing.parse_all_proxies proxy) in
  let r := run_all_accounts data proxy in
  (accounts = [] \/ proxies = []
   \/ List.length proxies < List.length accounts ->
   submitted r = [] /\ returned r = Some false
   /\ Spec.errors (printed r) <> [])
  /\ (accounts <> [] -> proxies <> [] ->
      List.length accounts <= List.length proxies ->
      submitted r = submit_all 1 accounts proxies /\ returned r = None
      /\ Spec.errors (printed r) = []).
Proof.
  unfold run_all_accounts.
  destruct (Parsing.parse_all_accounts data) as [accounts alog].
  destruct (Parsing.parse_all_proxies proxy) as [proxies plog].
  cbn [fst].
  destruct accounts as [|a accounts].
  - split; [intros _|intros H; congruence].
    repeat split; vm_compute; discriminate.
  - destruct proxies as [|p proxies].
    + split; [intros _|intros _ H; congruence].
      repeat split; vm_compute; discriminate.
    + destruct (List.length (p :: proxies) <? List.length (a :: accounts))
        eqn:Hlt.
      * apply Nat.ltb_lt in Hlt.
        split; [intros _|intros _ _ H; lia].
        repeat split; vm_compute; discriminate.
      * apply Nat.ltb_ge in Hlt.
        split; [intros [H|[H|H]]; [discriminate H|discriminate H|lia]|].
        intros _ _ _. repeat split.
Qed.

End WithUrlLib.
End FleetFacts.

(** C3 (as amended).  When no account is parsed, or no proxy, or fewer
    proxies than accounts, [run_all_accounts] prints an error, submits no
    worker task and returns [False]; the entry point drops that value, so
    the process ends with status 0. *)
Theorem C3_fleet_preconditions {U : Url.UrlLib}
    (data proxy : option (list string)) :
  let accounts := fst (Parsing.parse_all_accounts data) in
  let proxies := fst (Parsing.parse_all_proxies proxy) in
  accounts = [] \/ proxies = []
  \/ List.length proxies < List.length accounts ->
  let r := fst (Manager.main data proxy) in
  let status := snd (Manager.main data proxy) in
  Spec.errors (Manager.printed r) <> []
  /\ Manager.submitted r = []
  /\ Manager.returned r = Some false
  /\ status = 0.
Proof.
  intros accounts proxies Hfail r status.
  destruct (FleetFacts.run_all_accounts_submitted data proxy) as (H & _).
  destruct (H Hfail) as (Hs & Hr & He).
  repeat split; assumption.
Qed.

(** With both files empty the preconditions fail and the status is 0. *)
Lemma C3_fleet_preconditions_counterexample :
  ~ Spec.precondition_failure_exits_nonzero (U := cpython)
      (Some []) (Some []).
Proof.
  unfold Spec.precondition_failure_exits_nonzero. intro H.
  specialize (H (or_introl eq_refl)).
  destruct H as (_ & _ & H). apply H. reflexivity.
Qed.

(** Two accounts and one proxy. *)
Lemma C3_fleet_preconditions_witness :
  let data := Some ["a@x.com:p1"; "b@x.com:p2"] in
  let proxy := Some ["http://u1:pw1@h1:1000"] in
  Manager.submitted (fst (Manager.main data proxy)) = []
  /\ Manager.returned (fst (Manager.main data proxy)) = Some false
  /\ snd (Manager.main data proxy) = 0.
Proof.
  intros data proxy.
  destruct (C3_fleet_preconditions data proxy
              ltac:(right; right; vm_compute; lia))
    as (_ & Hs & Hr & Hz).
  repeat split; assumption.
Defined.

(* ================================================================== *)
(** * Clicking with retries *)

Module ClickFacts.
Import Worker Click.

Ltac unfold_click :=
  unfold after_failure, bind, emit, ret, result_of, worker_of, output_of.

(** What the handlers of a failed attempt amount to. *)
Lemma after_failure_eq (timeout : bool) (attempt max_attempts wait_time : nat)
    (next : M bool) (w : automation) (t : list event) :
  after_failure timeout attempt max_attempts wait_time next w t
  = if attempt <? max_attempts - 1 then
      next w ((t ++ [if timeout then Print Info "not ready, waiting"
                     else Print Warning "failed, retrying"])
                ++ [Sleep wait_time])%list
    else
      (false, w,
       (t ++ [if timeout then Print Warning "not found after all attempts"
              else Print Warning "failed after all attempts"])%list).
Proof.
  unfold after_failure, bind, emit, ret.
  destruct (attempt <? max_attempts - 1), timeout; reflexivity.
Qed.

Lemma slept_note (t : list event) (l : level) (text : string) :
  Manager.slept (t ++ [Print l text]) = Manager.slept t.
Proof. rewrite FleetFacts.slept_app. simpl. lia. Qed.

Lemma slept_note_if (t : list event) (b : bool) (l1 l2 : level)
    (x1 x2 : string) :
  Manager.slept (t ++ [if b then Print l1 x1 else Print l2 x2])
  = Manager.slept t.
Proof. destruct b; apply slept_note. Qed.

Lemma slept_sleep (t : list event) (n : nat) :
  Manager.slept (t ++ [Sleep n]) = Manager.slept t + n.
Proof. rewrite FleetFacts.slept_app. simpl. lia. Qed.

(** The loop from attempt [attempt] on, [left] attempts from the end. *)
Lemma attempts_spec (outcome : nat -> attempt_outcome)
    (max_attempts wait_time : nat) :
  forall left attempt w t,
    attempt + left = max_attempts ->
    let r := attempts left attempt max_attempts wait_time outcome w t in
    (result_of r = true <->
       exists k, attempt <= k < max_attempts /\ clicks (outcome k) = true)
    /\ worker_of r = w
    /\ Manager.slept (output_of r)
       <= Manager.slept t + left + (left - 1) * wait_time.
Proof.
  induction left as [|left IH]; intros attempt w t Hsum.
  - cbn. split; [|split; [reflexivity|lia]].
    split; [discriminate|]. intros (k & Hk & _). lia.
  - assert (Hfail : clicks (outcome attempt) = false ->
      forall timeout t',
        Manager.slept t' <= Manager.slept t + 1 ->
        let r := after_failure timeout attempt max_attempts wait_time
                   (attempts left (S attempt) max_attempts wait_time outcome)
                   w t' in
        (result_of r = true <->
           exists k, attempt <= k < max_attempts /\ clicks (outcome k) = true)
        /\ worker_of r = w
        /\ Manager.slept (output_of r)
           <= Manager.slept t + S left + (S left - 1) * wait_time).
    { intros Hno timeout t' Ht'. cbv zeta. rewrite after_failure_eq.
      destruct left as [|left].
      - replace (attempt <? max_attempts - 1) with false
          by (symmetry; apply Nat.ltb_ge; lia).
        unfold result_of, worker_of, output_of. cbn [fst snd].
        split; [|split; [reflexivity|rewrite slept_note_if; lia]].
        split; [discriminate|]. intros (k & Hk & Hc).
        assert (k = attempt) by lia. subst k. congruence.
      - replace (attempt <? max_attempts - 1) with true
          by (symmetry; apply Nat.ltb_lt; lia).
        destruct (IH (S attempt) w
                    ((t' ++ [if timeout
                             then Print Info "not ready, waiting"
                             else Print Warning "failed, retrying"])
                       ++ [Sleep wait_time])%list
                    ltac:(lia)) as (Hres & Hw & Hs).
        split; [|split; [exact Hw|]].
        + rewrite Hres. split; intros (k & Hk & Hc); exists k;
            (split; [|exact Hc]); [lia|].
          destruct (Nat.eq_dec k attempt) as [->|]; [congruence|lia].
        + rewrite slept_sleep, slept_note_if in Hs. simpl in Hs |- *. lia. }
    cbn [attempts]. cbv zeta.
    assert (Hpos : 1 <= S left + (S left - 1) * wait_time)
      by (apply Nat.le_trans with (S left); [lia|apply Nat.le_add_r]).
    destruct (outcome attempt) as [b| | |b] eqn:Ho.
    + apply (Hfail eq_refl b t). lia.
    + unfold_click. cbn [fst snd].
      split; [|split; [reflexivity|]].
      * split; [|reflexivity]. intros _. exists attempt.
        rewrite Ho. split; [lia|reflexivity].
      * rewrite slept_note, slept_sleep. lia.
    + unfold_click. cbn [fst snd].
      split; [|split; [reflexivity|]].
      * split; [|reflexivity]. intros _. exists attempt.
        rewrite Ho. split; [lia|reflexivity].
      * rewrite !slept_note, slept_sleep. lia.
    + unfold bind at 1 2. unfold emit at 1 2.
      apply (Hfail eq_refl b).
      rewrite slept_note, slept_sleep. lia.
Qed.

(** The outcomes after the first click are not looked at. *)
Lemma attempts_local (outcome outcome' : nat -> attempt_outcome)
    (max_attempts wait_time k : nat) :
  clicks (outcome k) = true ->
  (forall j, j <= k -> outcome' j = outcome j) ->
  forall left attempt w t,
    attempt <= k ->
    attempts left attempt max_attempts wait_time outcome' w t
    = attempts left attempt max_attempts wait_time outcome w t.
Proof.
  intros Hk Hsame.
  induction left as [|left IH]; intros attempt w t Hle; [reflexivity|].
  cbn [attempts]. rewrite (Hsame attempt Hle).
  destruct (Nat.eq_dec attempt k) as [->|Hne].
  - destruct (outcome k); try discriminate Hk; reflexivity.
  - assert (Hnext : forall w' t',
      attempts left (S attempt) max_attempts wait_time outcome' w' t'
      = attempts left (S attempt) max_attempts wait_time outcome w' t')
      by (intros; apply IH; lia).
    destruct (outcome attempt); try reflexivity.
    + rewrite !after_failure_eq, Hnext. reflexivity.
    + unfold bind, emit. cbv beta iota zeta.
      rewrite !after_failure_eq, Hnext. reflexivity.
Qed.

End ClickFacts.

(** [robust_click] reports a click exactly when one of its
    [max_attempts] attempts ends in one; it leaves the worker's fields
    alone; and it sleeps at most one second per attempt plus [wait_time]
    between attempts. *)
Theorem robust_click_result (max_attempts wait_time : nat)
    (outcome : nat -> Click.attempt_outcome) (w : Worker.automation)
    (t : list event) :
  let r := Click.robust_click max_attempts wait_time outcome w t in
  (Worker.result_of r = true <->
     exists k, k < max_attempts /\ Click.clicks (outcome k) = true)
  /\ Worker.worker_of r = w
  /\ Manager.slept (Worker.output_of r)
     <= Manager.slept t + max_attempts + (max_attempts - 1) * wait_time.
Proof.
  destruct (ClickFacts.attempts_spec outcome max_attempts wait_time
              max_attempts 0 w t eq_refl) as (Hres & Hw & Hs).
  split; [|split; [exact Hw|exact Hs]].
  unfold Click.robust_click. rewrite Hres.
  split; intros (k & Hk & Hc); exists k; (split; [lia|exact Hc]).
Qed.

(** Once an attempt of [robust_click] clicks, what later attempts would
    meet plays no part: result, worker and output are those of any run
    that agrees up to that attempt. *)
Theorem robust_click_stops_at_click (max_attempts wait_time k : nat)
    (outcome outcome' : nat -> Click.attempt_outcome)
    (w : Worker.automation) (t : list event) :
  Click.clicks (outcome k) = true ->
  (forall j, j <= k -> outcome' j = outcome j) ->
  Click.robust_click max_attempts wait_time outcome' w t
  = Click.robust_click max_attempts wait_time outcome w t.
Proof.
  intros Hk Hsame. unfold Click.robust_click.
  apply (ClickFacts.attempts_local outcome outcome' max_attempts wait_time k
           Hk Hsame). lia.
Qed.

(** Second attempt clicks through JavaScript; the third is never made. *)
Lemma robust_click_stops_at_click_witness :
  let outcome := fun k => match k with
                          | 0 => Click.NotClickable true
                          | 1 => Click.JsClicked
                          | _ => Click.JsFails false
                          end in
  let outcome' := fun k => match k with
                           | 0 => Click.NotClickable true
                           | 1 => Click.JsClicked
                           | _ => Click.Clicked
                           end in
  Click.robust_click 3 2 outcome' (Worker.init 1 None None) []
  = Click.robust_click 3 2 outcome (Worker.init 1 None None) [].
Proof.
  intros outcome outcome'.
  apply (robust_click_stops_at_click 3 2 1 outcome outcome').
  - reflexivity.
  - intros [|[|j]] Hj; [reflexivity|reflexivity|lia].
Defined.

(* ================================================================== *)
(** * Resources and threads over a worker's life *)

Module LifeFacts.
Import Worker Spec PipelineFacts SessionFacts.

#[local] Arguments should_retry : simpl never.

Section WithUrlLib.
Context {U : Url.UrlLib}.

(** A successful pipeline run holds a browser and a profile, is marked
    complete, and has parsed the bound proxy line afresh. *)
Lemma pipeline_success_fields (e : env) (w : automation) (t : list event) :
  let r := run_account_setup_internal e w t in
  result_of r = true ->
  driver (worker_of r) = true
  /\ temp_profile_path (worker_of r) = true
  /\ setup_complete (worker_of r) = true
  /\ exists line parsed,
       proxy_line w = Some line /\ Url.urlparse line = Some parsed
       /\ proxy_data (worker_of r)
          = Some {| host := Url.hostname parsed;
                    port := match Url.port parsed with
                            | Url.PortInt n => Some n
                            | _ => None
                            end;
                    username := Url.username parsed;
                    proxy_password := Url.password parsed |}.
Proof.
  unfold_pipeline.
  pipeline_cases e w; intro H; try discriminate H;
    (split; [reflexivity|split; [reflexivity|split; [reflexivity|]]]);
    eexists; eexists; (split; [reflexivity|split; [eassumption|]]);
    match goal with
    | Hp : Url.port _ = _ |- _ => rewrite Hp
    end; reflexivity.
Qed.

(** A pipeline run that fails at the extension login keeps the browser
    and the profile it has acquired. *)
Lemma pipeline_late_failure_fields (e : env) (w : automation)
    (t : list event) :
  let r := run_account_setup_internal e w t in
  bind_proxy_ok w = true -> create_temp_profile_ok e = true ->
  start_chrome_ok e = true -> setup_gradient_extension_ok e = false ->
  result_of r = false
  /\ driver (worker_of r) = true
  /\ temp_profile_path (worker_of r) = true
  /\ setup_complete (worker_of r) = setup_complete w.
Proof.
  unfold bind_proxy_ok. unfold_pipeline.
  pipeline_cases e w; intros H1 H2 H3 H4;
    try discriminate H1; try discriminate H2; try discriminate H3;
    try discriminate H4; repeat split.
Qed.

End WithUrlLib.

(** One iteration of the poll loop of a monitored worker: either it goes
    on with the resources untouched, or it starts a retry, having
    released them. *)
Lemma monitor_loop_resources (o : observation) (w : automation)
    (t : list event) :
  health_monitoring_active w = true ->
  let r := monitor_loop [o] w t in
  let w' := worker_of r in
  result_of r <> Deactivated
  /\ max_consecutive_disconnects w' = max_consecutive_disconnects w
  /\ gradient_data w' = gradient_data w
  /\ proxy_line w' = proxy_line w
  /\ account_id w' = account_id w
  /\ (was_good_before w = true -> was_good_before w' = true)
  /\ (result_of r = Running ->
      health_monitoring_active w' = true
      /\ driver w' = driver w /\ temp_profile_path w' = temp_profile_path w
      /\ setup_complete w' = setup_complete w
      /\ proxy_data w' = proxy_data w)
  /\ (result_of r = RetryInitiated ->
      health_monitoring_active w' = false
      /\ driver w' = false
      /\ setup_complete w' = false /\ proxy_data w' = None
      /\ consecutive_disconnects w' = 0
      /\ started (output_of r) = (started t ++ [retry_setup_thread])%list).
Proof.
  intro Ha. unfold_monitor. rewrite Ha.
  destruct o as [|q d]; cbn.
  - repeat split; intros; try reflexivity; try congruence.
  - destruct (is_good (get_extension_health q)) eqn:Hg; cbn.
    + rewrite HealthFacts.should_retry_healthy. cbn.
      repeat split; intros; try reflexivity; try congruence.
    + match goal with
      | |- context [should_retry ?x false] =>
          destruct (should_retry x false) eqn:Hs
      end.
      * cbn. destruct d as [[] []]; destruct (driver w) eqn:Hd; cbn;
          destruct (temp_profile_path w) eqn:Ht; cbn;
          repeat split; intros; try reflexivity; try congruence;
          rewrite !started_app; cbn [started app];
          rewrite ?app_nil_r; reflexivity.
      * cbn. repeat split; intros; try reflexivity; try congruence.
Qed.

(** The profile path after the iteration that starts a retry: dropped
    when the directory was found on disk, kept when it was not. *)
Lemma monitor_loop_profile_path (q : health_query) (d : teardown)
    (w : automation) (t : list event) :
  health_monitoring_active w = true ->
  let r := monitor_loop [Polled q d] w t in
  result_of r = RetryInitiated ->
  temp_profile_path (worker_of r)
  = temp_profile_path w && negb (profile_exists d).
Proof.
  intro Ha. unfold_monitor. rewrite Ha. cbn.
  destruct (is_good (get_extension_health q)) eqn:Hg; cbn.
  - rewrite HealthFacts.should_retry_healthy. cbn. discriminate.
  - match goal with
    | |- context [should_retry ?x false] =>
        destruct (should_retry x false) eqn:Hs
    end.
    + cbn. intros _.
      destruct d as [[] []]; destruct (driver w) eqn:Hd; cbn;
        destruct (temp_profile_path w) eqn:Ht; cbn; rewrite ?Ht; cbn;
        rewrite ?Ht; reflexivity.
    + cbn. discriminate.
Qed.

Lemma retry_threads_app (a b : list target) :
  retry_threads (a ++ b) = retry_threads a + retry_threads b.
Proof.
  induction a as [|x a IH]; simpl; [reflexivity|].
  destruct x; simpl; rewrite IH; reflexivity.
Qed.

Section Life.
Context {U : Url.UrlLib}.

(** The worker and the result of a pipeline run do not depend on what
    was printed before. *)
Lemma run_account_setup_internal_output_free (e : env) (w : automation)
    (t t' : list event) :
  result_of (run_account_setup_internal e w t)
  = result_of (run_account_setup_internal e w t')
  /\ worker_of (run_account_setup_internal e w t)
     = worker_of (run_account_setup_internal e w t').
Proof.
  unfold_pipeline. pipeline_cases e w; split; reflexivity.
Qed.

(** [run_account_setup] and [retry_setup] are the pipeline when the
    worker has account data, and fail at once when it has none. *)
Lemma setup_as_pipeline (e : env) (w : automation) (t : list event) :
  (result_of (run_account_setup e w t)
   = match gradient_data w with
     | Some _ => result_of (run_account_setup_internal e w [])
     | None => false
     end
   /\ worker_of (run_account_setup e w t)
      = match gradient_data w with
        | Some _ => worker_of (run_account_setup_internal e w [])
        | None => w
        end)
  /\ (result_of (retry_setup e w t)
      = match gradient_data w with
        | Some _ => result_of (run_account_setup_internal e w [])
        | None => false
        end
      /\ worker_of (retry_setup e w t)
         = match gradient_data w with
           | Some _ => worker_of (run_account_setup_internal e w [])
           | None => w
           end).
Proof.
  split.
  - unfold run_account_setup.
    cbv beta iota zeta delta [bind get emit ret].
    destruct (gradient_data w); [|split; reflexivity].
    destruct (run_account_setup_internal_output_free e w
                (t ++ [Print Info "ACCOUNT"])%list []) as (Hr & Hw).
    unfold result_of, worker_of in *.
    destruct (run_account_setup_internal e w
                (t ++ [Print Info "ACCOUNT"])%list) as [[b w1] t1].
    cbn [fst snd] in Hr, Hw. rewrite <- Hr, <- Hw.
    destruct b; split; reflexivity.
  - unfold retry_setup.
    cbv beta iota zeta delta [bind get emit ret].
    destruct (gradient_data w); [|split; reflexivity].
    destruct (run_account_setup_internal_output_free e w
                ((t ++ [Print Warning "RETRY"])
                   ++ [Print Info "Attempting full reconnection"])%list [])
      as (Hr & Hw).
    unfold result_of, worker_of in *.
    destruct (run_account_setup_internal e w
                ((t ++ [Print Warning "RETRY"])
                   ++ [Print Info "Attempting full reconnection"])%list)
      as [[b w1] t1].
    cbn [fst snd] in Hr, Hw. rewrite <- Hr, <- Hw.
    destruct b; [split; reflexivity|].
    destruct (retry_count w1 <? max_retries w1); split; reflexivity.
Qed.

(** A successful setup, initial or retried, leaves the worker ready to be
    monitored. *)
Lemma setup_success_ready (e : env) (w : automation) (w' : automation)
    (b : bool) :
  b = match gradient_data w with
      | Some _ => result_of (run_account_setup_internal e w [])
      | None => false
      end ->
  w' = match gradient_data w with
       | Some _ => worker_of (run_account_setup_internal e w [])
       | None => w
       end ->
  b = true ->
  driver w' = true /\ temp_profile_path w' = true
  /\ setup_complete w' = true /\ proxy_data w' <> None.
Proof.
  intros -> -> Hb. destruct (gradient_data w); [|discriminate Hb].
  destruct (pipeline_success_fields e w [] Hb)
    as (Hd & Ht & Hc & line & parsed & _ & _ & Hp).
  rewrite Hp. repeat split; try assumption. discriminate.
Qed.

(** The meaning of the phases is kept by every input. *)
Lemma step_phase_fields (s : session) (i : input) :
  phase_fields s -> phase_fields (step s i).
Proof.
  assert (Hsetup : forall e (r : bool * automation * list event),
    health_monitoring_active (worker s) = false ->
    same_policy (worker s) (worker_of r) ->
    result_of r = match gradient_data (worker s) with
                  | Some _ => result_of
                                (run_account_setup_internal e (worker s) [])
                  | None => false
                  end ->
    worker_of r = match gradient_data (worker s) with
                  | Some _ => worker_of
                                (run_account_setup_internal e (worker s) [])
                  | None => worker s
                  end ->
    phase_fields
      (if result_of r then enter_monitoring (worker_of r) (output_of r)
       else {| current := Stopped; worker := worker_of r;
               output := output_of r |})).
  { intros e r Hflag (_ & _ & _ & _ & _ & Hact & _) Hres Hw.
    destruct (result_of r) eqn:Hb.
    - destruct (enter_monitoring_worker (worker_of r) (output_of r))
        as (Hew & Hec & _).
      unfold phase_fields. rewrite Hec, Hew.
      destruct (setup_success_ready e (worker s) (worker_of r) true
                  Hres Hw eq_refl) as (Hd & Ht & Hc & Hp).
      cbn [health_monitoring_active driver temp_profile_path setup_complete
           proxy_data set_health_monitoring_active].
      repeat split; assumption.
    - unfold phase_fields. cbn [current worker]. congruence. }
  intro Hinv. unfold step.
  destruct (current s) eqn:Hc; destruct i as [e|o]; try exact Hinv;
    unfold phase_fields in Hinv; rewrite Hc in Hinv; cbv zeta in Hinv.
  - destruct (run_account_setup_facts e (worker s) (output s)) as (Hf & _).
    destruct (setup_as_pipeline e (worker s) (output s)) as ((Hr & Hw) & _).
    exact (Hsetup e _ Hinv Hf Hr Hw).
  - destruct Hinv as (Ha & Hd & Ht & Hcomp & Hp).
    destruct (monitor_loop_resources o (worker s) (output s) Ha)
      as (Hnd & _ & _ & _ & _ & _ & Hrun & Hretry).
    unfold phase_fields. cbn [current worker].
    destruct (result_of (monitor_loop [o] (worker s) (output s))) eqn:Hres.
    + destruct (Hrun eq_refl) as (Ha' & Hd' & Ht' & Hc' & Hp').
      rewrite Ha', Hd', Ht', Hc', Hp'. repeat split; assumption.
    + destruct (Hretry eq_refl) as (Ha' & Hd' & Hc' & Hp' & Hz & _).
      repeat split; assumption.
    + congruence.
  - destruct Hinv as (Ha & _).
    destruct (retry_setup_facts e (worker s) (output s)) as (Hf & _).
    destruct (setup_as_pipeline e (worker s) (output s)) as (_ & (Hr & Hw)).
    exact (Hsetup e _ Ha Hf Hr Hw).
Qed.

Lemma run_phase_fields (inputs : list input) (s : session) :
  phase_fields s -> phase_fields (run s inputs).
Proof.
  unfold run. revert s.
  induction inputs as [|i inputs IH]; intros s Hs; simpl; [exact Hs|].
  apply IH, step_phase_fields, Hs.
Qed.

(** Every retry counted is a retry thread started, and conversely. *)
Lemma step_retry_threads (s : session) (i : input) :
  phase_fields s ->
  retry_threads (started (output (step s i))) + retry_count (worker s)
  = retry_threads (started (output s)) + retry_count (worker (step s i)).
Proof.
  assert (Hsetup : forall r : bool * automation * list event,
    same_policy (worker s) (worker_of r) ->
    started (output_of r)
      = (started (output s) ++ if result_of r
                               then [monitor_extension_health_thread]
                               else [])%list ->
    let s' := if result_of r then enter_monitoring (worker_of r) (output_of r)
              else {| current := Stopped; worker := worker_of r;
                      output := output_of r |} in
    retry_threads (started (output s')) + retry_count (worker s)
    = retry_threads (started (output s)) + retry_count (worker s')).
  { intros r (_ & Hrc & _) Hst. cbv zeta.
    destruct (result_of r).
    - destruct (enter_monitoring_worker (worker_of r) (output_of r))
        as (Hew & _ & Hes).
      rewrite Hew, Hes, Hst, retry_threads_app.
      cbn [retry_count set_health_monitoring_active retry_threads].
      rewrite Hrc. lia.
    - cbn [worker output]. rewrite Hst, app_nil_r, Hrc. lia. }
  intro Hinv. unfold step.
  destruct (current s) eqn:Hc; destruct i as [e|o]; try reflexivity.
  - destruct (run_account_setup_facts e (worker s) (output s))
      as (Hf & _ & Hs).
    exact (Hsetup _ Hf Hs).
  - unfold phase_fields in Hinv. rewrite Hc in Hinv.
    destruct Hinv as (Ha & _).
    destruct (monitor_loop_single o (worker s) (output s))
      as (_ & Hretry & Hno & _).
    destruct (monitor_loop_resources o (worker s) (output s) Ha)
      as (_ & _ & _ & _ & _ & _ & _ & Hres).
    cbn [worker output].
    destruct (result_of (monitor_loop [o] (worker s) (output s))) eqn:Hr.
    + destruct Hno as (Hrc & Hst); [discriminate|]. rewrite Hrc, Hst. lia.
    + destruct (Hretry eq_refl) as (_ & _ & _ & Hrc).
      destruct (Hres eq_refl) as (_ & _ & _ & _ & _ & Hst).
      rewrite Hrc, Hst, retry_threads_app. simpl. lia.
    + destruct Hno as (Hrc & Hst); [discriminate|]. rewrite Hrc, Hst. lia.
  - destruct (retry_setup_facts e (worker s) (output s)) as (Hf & _ & Hs).
    exact (Hsetup _ Hf Hs).
Qed.

(** What no input changes, and what no input takes back. *)
Lemma step_sticky (s : session) (i : input) :
  phase_fields s ->
  (was_good_before (worker s) = true ->
   was_good_before (worker (step s i)) = true)
  /\ max_consecutive_disconnects (worker (step s i))
     = max_consecutive_disconnects (worker s)
  /\ gradient_data (worker (step s i)) = gradient_data (worker s)
  /\ proxy_line (worker (step s i)) = proxy_line (worker s).
Proof.
  assert (Hsetup : forall r : bool * automation * list event,
    same_policy (worker s) (worker_of r) ->
    let s' := if result_of r then enter_monitoring (worker_of r) (output_of r)
              else {| current := Stopped; worker := worker_of r;
                      output := output_of r |} in
    (was_good_before (worker s) = true -> was_good_before (worker s') = true)
    /\ max_consecutive_disconnects (worker s')
       = max_consecutive_disconnects (worker s)
    /\ gradient_data (worker s') = gradient_data (worker s)
    /\ proxy_line (worker s') = proxy_line (worker s)).
  { intros r (Hw & _ & _ & _ & Hm & _ & Hg & Hp). cbv zeta.
    destruct (result_of r).
    - destruct (enter_monitoring_worker (worker_of r) (output_of r))
        as (Hew & _).
      rewrite Hew.
      cbn [was_good_before max_consecutive_disconnects gradient_data
           proxy_line set_health_monitoring_active].
      repeat split; congruence.
    - cbn [worker]. repeat split; congruence. }
  intro Hinv. unfold step.
  destruct (current s) eqn:Hc; destruct i as [e|o];
    try (repeat split; auto; fail).
  - destruct (run_account_setup_facts e (worker s) (output s)) as (Hf & _).
    exact (Hsetup _ Hf).
  - unfold phase_fields in Hinv. rewrite Hc in Hinv.
    destruct Hinv as (Ha & _).
    destruct (monitor_loop_resources o (worker s) (output s) Ha)
      as (_ & Hm & Hg & Hp & _ & Hw & _).
    cbn [worker]. repeat split; assumption.
  - destruct (retry_setup_facts e (worker s) (output s)) as (Hf & _).
    exact (Hsetup _ Hf).
Qed.

(** The poll loop's iteration does not depend on what was printed. *)
Lemma monitor_loop_output_free (o : observation) (w : automation)
    (t t' : list event) :
  result_of (monitor_loop [o] w t) = result_of (monitor_loop [o] w t')
  /\ worker_of (monitor_loop [o] w t) = worker_of (monitor_loop [o] w t').
Proof.
  unfold_monitor.
  destruct (health_monitoring_active w); cbn; [|split; reflexivity].
  destruct o as [|q d]; cbn; [split; reflexivity|].
  destruct (is_good (get_extension_health q)); cbn;
    match goal with
    | |- context [should_retry ?x ?g] => destruct (should_retry x g)
    end; cbn; try (split; reflexivity);
    destruct d as [[] []]; destruct (driver w); cbn; destruct (temp_profile_path w); cbn;
    split; reflexivity.
Qed.

(** Two sessions with the same worker in the same phase stay so under the
    same input. *)
Lemma step_output_free (s1 s2 : session) (i : input) :
  worker s1 = worker s2 -> current s1 = current s2 ->
  worker (step s1 i) = worker (step s2 i)
  /\ current (step s1 i) = current (step s2 i).
Proof.
  intros Hw Hc. unfold step. rewrite <- Hc, <- Hw.
  destruct (current s1) eqn:Hc1; destruct i as [e|o];
    try (split; congruence).
  - destruct (setup_as_pipeline e (worker s1) (output s1)) as ((Hr1 & Hw1) & _).
    destruct (setup_as_pipeline e (worker s1) (output s2)) as ((Hr2 & Hw2) & _).
    rewrite Hr1, Hr2.
    destruct (match gradient_data (worker s1) with
              | Some _ => result_of
                            (run_account_setup_internal e (worker s1) [])
              | None => false
              end).
    + destruct (enter_monitoring_worker
                  (worker_of (run_account_setup e (worker s1) (output s1)))
                  (output_of (run_account_setup e (worker s1) (output s1))))
        as (-> & -> & _).
      destruct (enter_monitoring_worker
                  (worker_of (run_account_setup e (worker s1) (output s2)))
                  (output_of (run_account_setup e (worker s1) (output s2))))
        as (-> & -> & _).
      rewrite Hw1, Hw2. split; reflexivity.
    + cbn [worker current]. rewrite Hw1, Hw2. split; reflexivity.
  - destruct (monitor_loop_output_free o (worker s1) (output s1) (output s2))
      as (Hr & Hw').
    cbn [worker current]. rewrite Hr, Hw'. split; reflexivity.
  - destruct (setup_as_pipeline e (worker s1) (output s1)) as (_ & (Hr1 & Hw1)).
    destruct (setup_as_pipeline e (worker s1) (output s2)) as (_ & (Hr2 & Hw2)).
    rewrite Hr1, Hr2.
    destruct (match gradient_data (worker s1) with
              | Some _ => result_of
                            (run_account_setup_internal e (worker s1) [])
              | None => false
              end).
    + destruct (enter_monitoring_worker
                  (worker_of (retry_setup e (worker s1) (output s1)))
                  (output_of (retry_setup e (worker s1) (output s1))))
        as (-> & -> & _).
      destruct (enter_monitoring_worker
                  (worker_of (retry_setup e (worker s1) (output s2)))
                  (output_of (retry_setup e (worker s1) (output s2))))
        as (-> & -> & _).
      rewrite Hw1, Hw2. split; reflexivity.
    + cbn [worker current]. rewrite Hw1, Hw2. split; reflexivity.
Qed.

(** A poll whose refresh raises changes neither worker nor phase. *)
Lemma step_refresh_error (s : session) (i : input) :
  phase_fields s -> is_refresh_error i = true ->
  worker (step s i) = worker s /\ current (step s i) = current s.
Proof.
  intros Hinv Hi. destruct i as [e|[|q d]]; try discriminate Hi.
  unfold step. destruct (current s) eqn:Hc; try (split; congruence).
  unfold phase_fields in Hinv. rewrite Hc in Hinv. destruct Hinv as (Ha & _).
  unfold_monitor. rewrite Ha. cbn. split; reflexivity.
Qed.

End Life.
End LifeFacts.

Module StreakFacts.
Import Worker Spec SessionFacts.

#[local] Arguments should_retry : simpl never.
#[local] Arguments track_status : simpl never.

(** An unhealthy label below the threshold: the loop goes on with the
    streak one longer. *)
Lemma monitor_loop_unhealthy_step (q : health_query) (d : teardown)
    (rest : list observation) (w : automation) (t : list event) :
  health_monitoring_active w = true ->
  is_good (get_extension_health q) = false ->
  should_retry (track_status false w) false = false ->
  monitor_loop (Polled q d :: rest) w t
  = monitor_loop rest (track_status false w)
      (((t ++ [Sleep 5]) ++ [Print Info "Health"]) ++ [Sleep 60])%list.
Proof.
  intros Ha Hg Hs. cbn [monitor_loop].
  unfold bind at 1. unfold get at 1. rewrite Ha.
  unfold bind at 1. unfold monitor_iteration.
  rewrite Hg. unfold bind, emit, modify, get, ret. cbn [fst snd].
  rewrite Hs. reflexivity.
Qed.

(** An unhealthy label that meets the retry condition: the loop returns,
    whatever observations would follow. *)
Lemma monitor_loop_unhealthy_retry (q : health_query) (d : teardown)
    (rest : list observation) (w : automation) (t : list event) :
  health_monitoring_active w = true ->
  is_good (get_extension_health q) = false ->
  should_retry (track_status false w) false = true ->
  let r := monitor_loop (Polled q d :: rest) w t in
  result_of r = RetryInitiated
  /\ retry_count (worker_of r) = retry_count w + 1
  /\ consecutive_disconnects (worker_of r) = 0
  /\ health_monitoring_active (worker_of r) = false
  /\ was_good_before (worker_of r) = was_good_before w.
Proof.
  intros Ha Hg Hs. cbn [monitor_loop]. unfold_monitor.
  rewrite Ha. cbv beta iota zeta delta [fst snd].
  rewrite Hg, Hs. cbv beta iota zeta delta [fst snd].
  unfold track_status.
  destruct d as [[] []]; destruct (driver _);
    cbv beta iota zeta delta [fst snd andb quit_returns profile_exists];
    destruct (temp_profile_path _);
    cbv beta iota zeta delta [fst snd andb quit_returns profile_exists];
    repeat split.
Qed.

(** The streak of unhealthy labels: the loop goes on while the streak is
    below the threshold and starts the retry with the label that
    completes it. *)
Lemma monitor_loop_streak (obs : list observation) :
  forall (w : automation) (t : list event),
    health_monitoring_active w = true ->
    was_good_before w = true ->
    retry_count w < max_retries w ->
    Forall unhealthy_label obs ->
    consecutive_disconnects w < max_consecutive_disconnects w ->
    consecutive_disconnects w + List.length obs
      <= max_consecutive_disconnects w ->
    let r := monitor_loop obs w t in
    (consecutive_disconnects w + List.length obs
       < max_consecutive_disconnects w ->
     result_of r = Running
     /\ consecutive_disconnects (worker_of r)
        = consecutive_disconnects w + List.length obs
     /\ retry_count (worker_of r) = retry_count w
     /\ health_monitoring_active (worker_of r) = true)
    /\ (consecutive_disconnects w + List.length obs
          = max_consecutive_disconnects w ->
        result_of r = RetryInitiated
        /\ consecutive_disconnects (worker_of r) = 0
        /\ retry_count (worker_of r) = retry_count w + 1
        /\ health_monitoring_active (worker_of r) = false).
Proof.
  induction obs as [|o rest IH]; intros w t Ha Hw Hrc Hall Hlt Hle.
  - cbn. split; [intros _|intro H; lia].
    repeat split; [lia|exact Ha].
  - inversion Hall as [|? ? Ho Hrest]; subst.
    destruct o as [|q d]; [destruct Ho|]. cbn [unhealthy_label] in Ho.
    cbn [List.length] in Hle |- *.
    assert (Hdec : should_retry (track_status false w) false
                   = (max_consecutive_disconnects w
                        <=? consecutive_disconnects w + 1)).
    { unfold should_retry, track_status.
      cbn [was_good_before consecutive_disconnects retry_count max_retries
           max_consecutive_disconnects set_consecutive_disconnects negb].
      rewrite Hw. replace (retry_count w <? max_retries w) with true
        by (symmetry; apply Nat.ltb_lt; exact Hrc).
      rewrite andb_true_r. reflexivity. }
    destruct (max_consecutive_disconnects w
                <=? consecutive_disconnects w + 1) eqn:Hthr.
    + apply Nat.leb_le in Hthr.
      destruct (monitor_loop_unhealthy_retry q d rest w t Ha Ho Hdec)
        as (H1 & H2 & H3 & H4 & _).
      split; [intro; lia|]. intros _. repeat split; assumption.
    + apply Nat.leb_gt in Hthr. cbv zeta.
      rewrite (monitor_loop_unhealthy_step q d rest w t Ha Ho Hdec).
      assert (Hf : health_monitoring_active (track_status false w) = true
                   /\ was_good_before (track_status false w) = true
                   /\ retry_count (track_status false w) = retry_count w
                   /\ max_retries (track_status false w) = max_retries w
                   /\ consecutive_disconnects (track_status false w)
                      = consecutive_disconnects w + 1
                   /\ max_consecutive_disconnects (track_status false w)
                      = max_consecutive_disconnects w)
        by (unfold track_status; cbn; repeat split; assumption).
      destruct Hf as (Ha1 & Hw1 & Hrc1 & Hmx1 & Hc1 & Ht1).
      destruct (IH (track_status false w)
                  (((t ++ [Sleep 5]) ++ [Print Info "Health"])
                     ++ [Sleep 60])%list Ha1 Hw1
                  ltac:(rewrite Hrc1, Hmx1; exact Hrc) Hrest
                  ltac:(rewrite Hc1, Ht1; lia)
                  ltac:(rewrite Hc1, Ht1; lia))
        as (Hrun & Hretry).
      rewrite Hc1, Ht1, Hrc1 in Hrun, Hretry.
      split; intro H.
      * destruct Hrun as (H1 & H2 & H3 & H4); [lia|].
        repeat split; try assumption. lia.
      * destruct Hretry as (H1 & H2 & H3 & H4); [lia|].
        repeat split; assumption.
Qed.

End StreakFacts.

Module RetryFacts.
Import Worker Spec PipelineFacts SessionFacts.

Section WithUrlLib.
Context {U : Url.UrlLib}.

(** The pipeline only adds to the output. *)
Lemma run_account_setup_internal_extends (e : env) (w : automation)
    (t : list event) :
  exists out,
    output_of (run_account_setup_internal e w t) = (t ++ out)%list.
Proof.
  unfold_pipeline.
  pipeline_cases e w; eexists; rewrite <- ?app_assoc; reflexivity.
Qed.

(** What a failed retry prints last. *)
Lemma retry_setup_failure_output (e : env) (w : automation)
    (t : list event) :
  gradient_data w <> None -> mandatory_ok e w = false ->
  exists mid,
    output_of (retry_setup e w t)
    = (t ++ mid
         ++ [Print Error "Retry failed";
             if retry_count w <? max_retries w
             then Print Info "Will attempt retry if disconnected again"
             else Print Error "Max retries reached. Account disabled."])%list.
Proof.
  intros Hg Hfail. unfold retry_setup.
  cbv beta iota zeta delta [bind get emit ret].
  destruct (gradient_data w); [|congruence].
  set (t1 := ((t ++ [Print Warning "RETRY"])
                ++ [Print Info "Attempting full reconnection"])%list).
  pose proof (run_account_setup_internal_frame e w t1) as (_ & Hrc & Hmx & _).
  pose proof (run_account_setup_internal_result e w t1) as Hr.
  destruct (run_account_setup_internal_extends e w t1) as (out & Hout).
  unfold result_of, worker_of, output_of in *.
  destruct (run_account_setup_internal e w t1) as [[b w1] t2].
  cbn [fst snd] in Hrc, Hmx, Hr, Hout. subst b t2. rewrite Hfail.
  rewrite Hrc, Hmx.
  exists ([Print Warning "RETRY"; Print Info "Attempting full reconnection"]
            ++ out)%list.
  destruct (retry_count w <? max_retries w); cbn [fst snd]; subst t1;
    rewrite <- !app_assoc; reflexivity.
Qed.

End WithUrlLib.
End RetryFacts.

Module ShutdownFacts.
Import Worker Shutdown.

(** [cleanup] clears the flag and touches nothing else. *)
Lemma cleanup_worker (d : teardown) (w : automation) (t : list event) :
  worker_of (cleanup d w t) = set_health_monitoring_active false w.
Proof.
  unfold cleanup, bind, emit, modify, get, ret, worker_of.
  cbn [driver temp_profile_path set_health_monitoring_active].
  destruct d as [[] []], (driver w), (temp_profile_path w); reflexivity.
Qed.

(** A poll loop that finds the flag cleared ends without looking at the
    observation. *)
Lemma monitor_loop_deactivated (o : observation) (rest : list observation)
    (w : automation) (t : list event) :
  health_monitoring_active w = false ->
  monitor_loop (o :: rest) w t
  = (Deactivated, set_health_monitoring_active false w, t).
Proof.
  intro Ha. cbn [monitor_loop]. unfold bind, get, modify, ret.
  rewrite Ha. reflexivity.
Qed.

Lemma cleanup_all_flags (roster : list automation) :
  forall answers : nat -> teardown,
    fst (cleanup_all answers roster)
    = map (set_health_monitoring_active false) roster.
Proof.
  induction roster as [|w roster IH]; intro answers; [reflexivity|].
  cbn [cleanup_all]. specialize (IH (fun i => answers (S i))).
  destruct (cleanup_all (fun i => answers (S i)) roster) as [rest out].
  cbn [fst] in IH |- *. rewrite cleanup_worker, IH. reflexivity.
Qed.

Lemma active_count_cleared (roster : list automation) :
  active_count (map (set_health_monitoring_active false) roster) = 0.
Proof.
  unfold active_count. induction roster as [|w roster IH]; [reflexivity|].
  cbn [map filter health_monitoring_active set_health_monitoring_active].
  exact IH.
Qed.

(** The active workers of a roster of sessions are the monitored ones. *)
Lemma active_count_zero (sessions : list session) :
  Forall phase_fields sessions ->
  (active_count (map worker sessions) = 0
   <-> Forall (fun s => current s <> Monitoring) sessions).
Proof.
  unfold active_count.
  induction sessions as [|s sessions IH]; intro Hall.
  - split; [constructor|reflexivity].
  - inversion Hall as [|? ? Hs Hrest]; subst.
    specialize (IH Hrest). cbn [map filter].
    unfold phase_fields in Hs.
    destruct (current s) eqn:Hc.
    + rewrite Hs. rewrite IH.
      split; intro H; [constructor; [congruence|exact H]|].
      inversion H; assumption.
    + destruct Hs as (Ha & _). rewrite Ha. cbn [List.length].
      split; [discriminate|]. intro H. inversion H; congruence.
    + destruct Hs as (Ha & _). rewrite Ha. rewrite IH.
      split; intro H; [constructor; [congruence|exact H]|].
      inversion H; assumption.
    + rewrite Hs. rewrite IH.
      split; intro H; [constructor; [congruence|exact H]|].
      inversion H; assumption.
Qed.

End ShutdownFacts.

(* ================================================================== *)
(** * What the parsers return *)

Module StripFacts.

Lemma rstrip_head (c : ascii) (r : string) :
  PyStr.isspace c = false ->
  PyStr.rstrip (String c r) = String c (PyStr.rstrip r).
Proof.
  intro Hc. simpl. destruct (PyStr.rstrip r); [rewrite Hc|]; reflexivity.
Qed.

Lemma rstrip_idem (s : string) :
  PyStr.rstrip (PyStr.rstrip s) = PyStr.rstrip s.
Proof.
  induction s as [|c r IH]; [reflexivity|].
  simpl. destruct (PyStr.rstrip r) as [|d x] eqn:Hr.
  - destruct (PyStr.isspace c) eqn:Hc; [reflexivity|].
    simpl. rewrite Hc. reflexivity.
  - change (PyStr.rstrip (String c (String d x))) with
      (match PyStr.rstrip (String d x) with
       | EmptyString =>
           if PyStr.isspace c then EmptyString else String c EmptyString
       | r' => String c r'
       end).
    rewrite IH. reflexivity.
Qed.

Lemma lstrip_head (s : string) :
  match PyStr.lstrip s with
  | EmptyString => True
  | String c _ => PyStr.isspace c = false
  end.
Proof.
  induction s as [|c r IH]; simpl; [exact I|].
  destruct (PyStr.isspace c) eqn:Hc; [exact IH|exact Hc].
Qed.

(** Stripping twice is stripping once. *)
Lemma strip_idem (s : string) :
  PyStr.strip (PyStr.strip s) = PyStr.strip s.
Proof.
  unfold PyStr.strip.
  pose proof (lstrip_head s) as Hh.
  destruct (PyStr.lstrip s) as [|c r]; [reflexivity|].
  rewrite (rstrip_head c r Hh).
  simpl PyStr.lstrip. rewrite Hh.
  rewrite <- (rstrip_head c r Hh). apply rstrip_idem.
Qed.

Lemma contains_lstrip (c : ascii) (s : string) :
  PyStr.contains c s = false -> PyStr.contains c (PyStr.lstrip s) = false.
Proof.
  induction s as [|d r IH]; simpl; intro H; [reflexivity|].
  apply orb_false_iff in H. destruct H as [Hd Hr].
  destruct (PyStr.isspace d); [exact (IH Hr)|].
  simpl. rewrite Hd, Hr. reflexivity.
Qed.

Lemma contains_rstrip (c : ascii) (s : string) :
  PyStr.contains c s = false -> PyStr.contains c (PyStr.rstrip s) = false.
Proof.
  induction s as [|d r IH]; simpl; intro H; [reflexivity|].
  apply orb_false_iff in H. destruct H as [Hd Hr].
  specialize (IH Hr).
  destruct (PyStr.rstrip r) as [|x y].
  - destruct (PyStr.isspace d); [reflexivity|].
    simpl. rewrite Hd. reflexivity.
  - change (PyStr.contains c (String d (String x y)))
      with (Ascii.eqb c d || PyStr.contains c (String x y)).
    rewrite Hd, IH. reflexivity.
Qed.

Lemma contains_strip (c : ascii) (s : string) :
  PyStr.contains c s = false -> PyStr.contains c (PyStr.strip s) = false.
Proof.
  intro H. unfold PyStr.strip. apply contains_rstrip, contains_lstrip, H.
Qed.

(** The text before the separator never contains it. *)
Lemma partition_before (c : ascii) (s : string) :
  PyStr.contains c (fst (fst (PyStr.partition c s))) = false.
Proof.
  induction s as [|d r IH]; simpl; [reflexivity|].
  destruct (Ascii.eqb c d) eqn:Hd; [reflexivity|].
  destruct (PyStr.partition c r) as [[a f] b]. simpl in IH |- *.
  rewrite Hd, IH. reflexivity.
Qed.

End StripFacts.

Module ResultFacts.
Import Worker Parsing StripFacts.

Lemma rejected_app (a b : list parse_log) :
  rejected (a ++ b) = rejected a + rejected b.
Proof.
  induction a as [|x a IH]; simpl; [reflexivity|].
  destruct x; simpl; rewrite IH; reflexivity.
Qed.

Lemma accounts_loop_clean (lines : list string) :
  forall i accounts log,
    Forall clean_account accounts ->
    Forall clean_account (fst (accounts_loop i lines accounts log)).
Proof.
  induction lines as [|raw lines IH]; intros i accounts log Hacc; simpl;
    [exact Hacc|].
  destruct (PyStr.truthy (PyStr.strip raw)
            && PyStr.contains ":" (PyStr.strip raw)).
  - pose proof (partition_before ":" (PyStr.strip raw)) as Hp.
    destruct (PyStr.partition ":" (PyStr.strip raw)) as [[em f] pw].
    cbn [fst] in Hp. apply IH. apply Forall_app. split; [exact Hacc|].
    constructor; [|constructor].
    unfold clean_account. cbn [email password].
    rewrite !strip_idem. repeat split. apply contains_strip, Hp.
  - destruct (PyStr.truthy (PyStr.strip raw)); apply IH, Hacc.
Qed.

(** Every non-blank line ends up as an account or as a warning. *)
Lemma accounts_loop_count (lines : list string) :
  forall i accounts log,
    List.length (fst (accounts_loop i lines accounts log))
    + rejected (snd (accounts_loop i lines accounts log))
    = List.length accounts + rejected log + List.length (non_blank lines).
Proof.
  unfold non_blank.
  induction lines as [|raw lines IH]; intros i accounts log; simpl; [lia|].
  destruct (PyStr.truthy (PyStr.strip raw)) eqn:Ht; cbn [andb].
  - destruct (PyStr.contains ":" (PyStr.strip raw)).
    + destruct (PyStr.partition ":" (PyStr.strip raw)) as [[em f] pw].
      rewrite IH, length_app, rejected_app. simpl. lia.
    + rewrite IH, rejected_app. simpl. lia.
  - rewrite IH. lia.
Qed.

Section WithUrlLib.
Context {U : Url.UrlLib}.

Lemma validate_accept (line : string) :
  validate line = Accept ->
  exists parsed h n,
    Url.urlparse line = Some parsed
    /\ Url.hostname parsed = Some h /\ h <> ""
    /\ Url.port parsed = Url.PortInt n /\ n <> 0.
Proof.
  unfold validate.
  destruct (Url.urlparse line) as [parsed|]; [|discriminate].
  destruct (Url.hostname parsed) as [h|] eqn:Hh; cbn; [|discriminate].
  destruct (PyStr.truthy h) eqn:Ht; [|discriminate].
  destruct (Url.port parsed) as [|n|] eqn:Hp; try discriminate.
  destruct (n =? 0) eqn:Hn; [discriminate|]. intros _.
  exists parsed, h, n. repeat split; try reflexivity; try assumption.
  - intros ->. discriminate Ht.
  - apply Nat.eqb_neq, Hn.
Qed.

Lemma proxies_loop_valid (lines : list string) :
  forall i proxies log,
    Forall valid_proxy proxies ->
    Forall valid_proxy (fst (proxies_loop i lines proxies log)).
Proof.
  induction lines as [|raw lines IH]; intros i proxies log Hacc; simpl;
    [exact Hacc|].
  destruct (PyStr.truthy (PyStr.strip raw)) eqn:Ht; [|apply IH, Hacc].
  destruct (validate (PyStr.strip raw)) eqn:Hv; try (apply IH, Hacc).
  apply IH. apply Forall_app. split; [exact Hacc|].
  constructor; [|constructor]. unfold valid_proxy.
  split; [intro H; rewrite H in Ht; discriminate Ht|].
  split; [apply strip_idem|]. apply validate_accept, Hv.
Qed.

Lemma proxies_loop_count (lines : list string) :
  forall i proxies log,
    List.length (fst (proxies_loop i lines proxies log))
    + rejected (snd (proxies_loop i lines proxies log))
    = List.length proxies + rejected log + List.length (non_blank lines).
Proof.
  unfold non_blank.
  induction lines as [|raw lines IH]; intros i proxies log; simpl; [lia|].
  destruct (PyStr.truthy (PyStr.strip raw)) eqn:Ht.
  - destruct (validate (PyStr.strip raw));
      rewrite IH, ?length_app, ?rejected_app; simpl; lia.
  - rewrite IH. lia.
Qed.

End WithUrlLib.
End ResultFacts.

(** Every account returned by [parse_all_accounts] has a stripped e-mail
    without a colon and a stripped secret. *)
Theorem parsed_accounts_clean (file : option (list string)) :
  Forall clean_account (fst (Parsing.parse_all_accounts file)).
Proof.
  destruct file as [lines|]; [|constructor].
  rewrite ParsingFacts.parse_all_accounts_fst.
  apply ResultFacts.accounts_loop_clean. constructor.
Qed.

(** No account line is lost silently: the accounts returned and the
    warnings logged add up to the non-blank lines of the file, and the
    count logged at the end is the number of accounts returned. *)
Theorem parsed_accounts_account_for_lines (lines : list string) :
  let r := Parsing.parse_all_accounts (Some lines) in
  List.length (fst r) + rejected (snd r) = List.length (non_blank lines)
  /\ In (Parsing.ParsedCount (List.length (fst r))) (snd r)
  /\ List.length (fst r) <= List.length lines.
Proof.
  intro r. subst r.
  rewrite ParsingFacts.parse_all_accounts_fst,
    ParsingFacts.parse_all_accounts_snd.
  pose proof (ResultFacts.accounts_loop_count lines 1 [] []) as H.
  cbn [List.length rejected] in H.
  assert (Hnb : List.length (non_blank lines) <= List.length lines)
    by apply filter_length_le.
  rewrite ResultFacts.rejected_app. cbn [rejected].
  split; [lia|]. split; [|lia].
  apply in_or_app. right. left. reflexivity.
Qed.

(** Every proxy returned by [parse_all_proxies] is a stripped, non-empty
    line for which the parser finds a non-empty host name and a port
    other than 0. *)
Theorem parsed_proxies_valid {U : Url.UrlLib} (file : option (list string)) :
  Forall valid_proxy (fst (Parsing.parse_all_proxies file)).
Proof.
  destruct file as [lines|]; [|constructor].
  rewrite ProxyFacts.parse_all_proxies_fst.
  apply ResultFacts.proxies_loop_valid. constructor.
Qed.

(** No proxy line is lost silently: the proxies returned and the warnings
    logged add up to the non-blank lines of the file, and the count
    logged at the end is the number of proxies returned. *)
Theorem parsed_proxies_account_for_lines {U : Url.UrlLib}
    (lines : list string) :
  let r := Parsing.parse_all_proxies (Some lines) in
  List.length (fst r) + rejected (snd r) = List.length (non_blank lines)
  /\ In (Parsing.ParsedCount (List.length (fst r))) (snd r)
  /\ List.length (fst r) <= List.length lines.
Proof.
  intro r. subst r.
  rewrite ProxyFacts.parse_all_proxies_fst, ProxyFacts.parse_all_proxies_snd.
  pose proof (ResultFacts.proxies_loop_count lines 1 [] []) as H.
  cbn [List.length rejected] in H.
  assert (Hnb : List.length (non_blank lines) <= List.length lines)
    by apply filter_length_le.
  rewrite ResultFacts.rejected_app. cbn [rejected].
  split; [lia|]. split; [|lia].
  apply in_or_app. right. left. reflexivity.
Qed.

(* ================================================================== *)
(** * The workers of a fleet *)

Module PairingFacts.
Import Worker Manager.

Section WithUrlLib.
Context {U : Url.UrlLib}.

(** Either nothing is submitted, or one task per account with at least
    as many proxies. *)
Lemma submitted_cases (data proxy : option (list string)) :
  let accounts := fst (Parsing.parse_all_accounts data) in
  let proxies := fst (Parsing.parse_all_proxies proxy) in
  submitted (run_all_accounts data proxy) = []
  \/ (submitted (run_all_accounts data proxy)
        = submit_all 1 accounts proxies
      /\ List.length accounts <= List.length proxies
      /\ accounts <> []).
Proof.
  cbv zeta.
  pose proof (FleetFacts.run_all_accounts_submitted data proxy) as H.
  cbv zeta in H.
  set (A := fst (Parsing.parse_all_accounts data)) in *.
  set (P := fst (Parsing.parse_all_proxies proxy)) in *.
  clearbody A P. destruct H as (Hfail & Hok).
  destruct A as [|a A].
  - left. apply Hfail. left. reflexivity.
  - destruct P as [|p P].
    + left. apply Hfail. right. left. reflexivity.
    + destruct (le_lt_dec (List.length (a :: A)) (List.length (p :: P)))
        as [Hle|Hlt].
      * right. split; [|split; [exact Hle|discriminate]].
        apply Hok; [discriminate|discriminate|exact Hle].
      * left. apply Hfail. right. right. exact Hlt.
Qed.

End WithUrlLib.
End PairingFacts.

(** The fleet pairs by position: the task at position [k] holds a fresh
    worker with id [k + 1], the [k]-th parsed account and the [k]-th
    parsed proxy line, which exists; when any task is submitted there is
    exactly one per account, and proxies beyond the accounts are unused. *)
Theorem fleet_pairs_by_position {U : Url.UrlLib}
    (data proxy : option (list string)) (k : nat) (tk : Manager.task) :
  let accounts := fst (Parsing.parse_all_accounts data) in
  let proxies := fst (Parsing.parse_all_proxies proxy) in
  let tasks := Manager.submitted (Manager.run_all_accounts data proxy) in
  nth_error tasks k = Some tk ->
  List.length tasks = List.length accounts
  /\ Worker.account_id (Manager.automation_of tk) = k + 1
  /\ Worker.gradient_data (Manager.automation_of tk) = nth_error accounts k
  /\ Worker.proxy_line (Manager.automation_of tk) = nth_error proxies k
  /\ nth_error accounts k <> None /\ nth_error proxies k <> None
  /\ Worker.retry_count (Manager.automation_of tk) = 0
  /\ Worker.was_good_before (Manager.automation_of tk) = false.
Proof.
  intros accounts proxies tasks Hk. subst tasks.
  destruct (PairingFacts.submitted_cases data proxy) as [He|(Hs & Hle & _)].
  - rewrite He in Hk. destruct k; discriminate Hk.
  - fold accounts in Hs, Hle. fold proxies in Hs, Hle.
    rewrite Hs in Hk |- *.
    destruct (FleetFacts.submit_all_nth accounts proxies 1 k tk (le_n 1) Hk)
      as (_ & Hid & Hg & Hp).
    assert (Hlt : k < List.length accounts).
    { rewrite <- (FleetFacts.submit_all_length accounts proxies 1).
      apply nth_error_Some. congruence. }
    split; [apply FleetFacts.submit_all_length|].
    split; [lia|]. split; [exact Hg|]. split; [exact Hp|].
    split; [apply nth_error_Some; exact Hlt|].
    split; [apply nth_error_Some; lia|].
    clear - Hk. revert Hk. generalize 1. revert k.
    induction accounts as [|a rest IH]; intros k i Hk;
      [destruct k; discriminate Hk|].
    destruct k as [|k]; simpl in Hk.
    + injection Hk as <-. split; reflexivity.
    + exact (IH k (S i) Hk).
Qed.

(** The scenario of two accounts and three proxies. *)
Lemma fleet_pairs_by_position_witness :
  let data := Some ["a@x.com:p1"; "b@x.com:p2"] in
  let proxy := Some ["http://u1:pw1@h1:1000"; "http://u2:pw2@h2:2000";
                     "http://u3:pw3@h3:3000"] in
  List.length (Manager.submitted (Manager.run_all_accounts data proxy)) = 2
  /\ forall tk,
       nth_error (Manager.submitted (Manager.run_all_accounts data proxy)) 1
       = Some tk ->
       Worker.proxy_line (Manager.automation_of tk)
       = Some "http://u2:pw2@h2:2000".
Proof.
  intros data proxy. split; [vm_compute; reflexivity|].
  intros tk Hk.
  destruct (fleet_pairs_by_position data proxy 1 tk Hk)
    as (_ & _ & _ & Hp & _).
  rewrite Hp. vm_compute. reflexivity.
Defined.

(** Every worker of the fleet has account data and a validated proxy
    line, so the first stage of its pipeline succeeds and the result of
    its initial setup is decided by the profile, the browser start and
    the extension login alone. *)
Theorem fleet_workers_bind_proxy {U : Url.UrlLib}
    (data proxy : option (list string)) (tk : Manager.task) (e : env)
    (t : list event) :
  In tk (Manager.submitted (Manager.run_all_accounts data proxy)) ->
  let w := Manager.automation_of tk in
  Worker.gradient_data w <> None
  /\ (exists line, Worker.proxy_line w = Some line /\ valid_proxy line)
  /\ Spec.bind_proxy_ok w = true
  /\ Worker.result_of (Worker.run_account_setup e w t)
     = create_temp_profile_ok e && start_chrome_ok e
       && setup_gradient_extension_ok e.
Proof.
  intros Hin w. subst w.
  apply In_nth_error in Hin. destruct Hin as (k & Hk).
  destruct (fleet_pairs_by_position data proxy k tk Hk)
    as (_ & _ & Hg & Hp & Hga & Hpa & _).
  cbv zeta in Hg, Hp, Hga, Hpa.
  destruct (nth_error (fst (Parsing.parse_all_proxies proxy)) k)
    as [line|] eqn:Hline; [|congruence].
  assert (Hvalid : valid_proxy line).
  { pose proof (parsed_proxies_valid proxy) as Hall.
    rewrite Forall_forall in Hall. apply Hall.
    apply nth_error_In with k. exact Hline. }
  assert (Hbind : Spec.bind_proxy_ok (Manager.automation_of tk) = true).
  { unfold Spec.bind_proxy_ok. rewrite Hp.
    destruct Hvalid as (Hne & _ & parsed & h & n & Hu & _ & _ & Hport & _).
    rewrite Hu, Hport. destruct line; [congruence|reflexivity]. }
  split; [congruence|]. split; [exists line; split; [exact Hp|exact Hvalid]|].
  split; [exact Hbind|].
  destruct (SessionFacts.run_account_setup_facts e
              (Manager.automation_of tk) t) as (_ & Hres & _).
  rewrite Hres.
  destruct (Worker.gradient_data (Manager.automation_of tk)); [|congruence].
  unfold Spec.mandatory_ok, Spec.all_stages, Spec.stage_ok, Spec.mandatory.
  cbn [forallb negb orb]. rewrite Hbind.
  cbn [andb]. rewrite andb_true_r, andb_assoc. reflexivity.
Qed.

(** The second worker of a fleet of two, whose browser does not start. *)
Lemma fleet_workers_bind_proxy_witness :
  let data := Some ["a@x.com:p1"; "b@x.com:p2"] in
  let proxy := Some ["http://u1:pw1@h1:1000"; "http://u2:pw2@h2:2000"] in
  let w2 := Worker.init 2 (Some {| Worker.email := "b@x.com";
                                   Worker.password := "p2" |})
                        (Some "http://u2:pw2@h2:2000") in
  let e := {| create_temp_profile_ok := true;
              profile_path_assigned := true; start_chrome_ok := false;
              setup_proxy_ok := true; connect_to_proxy_ok := true;
              setup_gradient_extension_ok := true |} in
  Spec.bind_proxy_ok w2 = true
  /\ Worker.result_of (Worker.run_account_setup e w2 []) = false.
Proof.
  intros data proxy w2 e.
  assert (Hin : In {| Manager.automation_of := w2;
                      Manager.account_index := 1 |}
                   (Manager.submitted (Manager.run_all_accounts data proxy)))
    by (vm_compute; right; left; reflexivity).
  destruct (fleet_workers_bind_proxy data proxy _ e [] Hin)
    as (_ & _ & Hb & Hr).
  split; [exact Hb|exact Hr].
Defined.

(* ================================================================== *)
(** * A worker's life, as its fields show it *)

(** At every point of a worker's life the monitoring flag is set exactly
    while its poll loop runs; a monitored worker holds a browser, a
    profile and a parsed proxy and is marked complete; a worker between
    [initiate_retry] and its retry pipeline has no browser handle and no
    parsed proxy, is not marked complete and has its streak back at 0.
    Its profile path is dropped exactly when [cleanup_for_retry] found
    the directory on disk: a path whose directory is gone stays in the
    field. *)
Theorem worker_phase_invariant {U : Url.UrlLib} (account_id : nat)
    (account_data : option Worker.account) (proxy_line : option string)
    (inputs : list Worker.input) :
  let s := Worker.run
             (Worker.start (Worker.init account_id account_data proxy_line))
             inputs in
  phase_fields s
  /\ (Worker.health_monitoring_active (Worker.worker s) = true
      <-> Worker.current s = Worker.Monitoring)
  /\ (forall (q : health_query) (d : teardown),
        let s' := Worker.step s (Worker.Poll (Polled q d)) in
        Worker.current s = Worker.Monitoring ->
        Worker.current s' = Worker.Retrying ->
        Worker.temp_profile_path (Worker.worker s')
        = negb (profile_exists d)).
Proof.
  intro s.
  assert (H : phase_fields s)
    by (apply LifeFacts.run_phase_fields; reflexivity).
  split; [exact H|]. split.
  - unfold phase_fields in H.
    destruct (Worker.current s) eqn:Hc; cbv beta iota zeta in H;
      split; intro Hx;
      first [discriminate Hx | reflexivity | tauto | congruence
            | destruct H as (H & _); congruence].
  - intros q d s' Hc Hc'. subst s'.
    unfold phase_fields in H. rewrite Hc in H. cbv beta iota zeta in H.
    destruct H as (Ha & _ & Ht & _).
    unfold Worker.step in Hc' |- *. rewrite Hc in Hc' |- *.
    cbn [Worker.current Worker.worker] in Hc' |- *.
    pose proof (LifeFacts.monitor_loop_profile_path q d (Worker.worker s)
                  (Worker.output s) Ha) as Hp.
    cbv zeta in Hp.
    destruct (Worker.result_of
                (Worker.monitor_loop [Polled q d] (Worker.worker s)
                   (Worker.output s)));
      try discriminate Hc'.
    rewrite (Hp eq_refl), Ht. reflexivity.
Qed.

(** A retry started while the profile directory is no longer on disk
    keeps the path; one that finds the directory drops it. *)
Lemma worker_phase_invariant_witness :
  let ok := {| create_temp_profile_ok := true;
               profile_path_assigned := true; start_chrome_ok := true;
               setup_proxy_ok := true; connect_to_proxy_ok := true;
               setup_gradient_extension_ok := true |} in
  let good := Worker.Poll (Polled (ElementText "Good") orderly) in
  let bad := Worker.Poll (Polled (ElementText "Bad") orderly) in
  let gone := {| quit_returns := true; profile_exists := false |} in
  let s := Worker.run
             (Worker.start
                (Worker.init 1 (Some {| Worker.email := "a@x.com";
                                        Worker.password := "p1" |})
                             (Some "http://u1:pw1@h1:1000")))
             [Worker.Setup ok; good; bad; bad] in
  Worker.temp_profile_path
    (Worker.worker
       (Worker.step s (Worker.Poll (Polled (ElementText "Bad") gone))))
  = true
  /\ Worker.temp_profile_path
       (Worker.worker
          (Worker.step s (Worker.Poll (Polled (ElementText "Bad") orderly))))
     = false.
Proof.
  intros ok good bad gone s.
  destruct (worker_phase_invariant (U := cpython) 1
              (Some {| Worker.email := "a@x.com"; Worker.password := "p1" |})
              (Some "http://u1:pw1@h1:1000")
              [Worker.Setup ok; good; bad; bad]) as (_ & _ & Hp).
  split.
  - exact (Hp (ElementText "Bad") gone
              ltac:(vm_compute; reflexivity) ltac:(vm_compute; reflexivity)).
  - exact (Hp (ElementText "Bad") orderly
              ltac:(vm_compute; reflexivity) ltac:(vm_compute; reflexivity)).
Defined.

(** The retry count of a worker is the number of retry threads it has
    started. *)
Theorem retry_count_counts_threads {U : Url.UrlLib} (account_id : nat)
    (account_data : option Worker.account) (proxy_line : option string)
    (inputs : list Worker.input) :
  let s := Worker.run
             (Worker.start (Worker.init account_id account_data proxy_line))
             inputs in
  retry_threads (Spec.started (Worker.output s))
  = Worker.retry_count (Worker.worker s).
Proof.
  intro s. subst s.
  assert (H : forall inputs s0,
    phase_fields s0 ->
    retry_threads (Spec.started (Worker.output (Worker.run s0 inputs)))
    + Worker.retry_count (Worker.worker s0)
    = retry_threads (Spec.started (Worker.output s0))
      + Worker.retry_count (Worker.worker (Worker.run s0 inputs))).
  { clear inputs. unfold Worker.run.
    induction inputs as [|i inputs IH]; intros s0 Hs; simpl; [lia|].
    pose proof (LifeFacts.step_retry_threads s0 i Hs) as H1.
    pose proof (IH _ (LifeFacts.step_phase_fields s0 i Hs)) as H2. lia. }
  specialize (H inputs
                (Worker.start (Worker.init account_id account_data proxy_line))
                eq_refl).
  simpl in H. lia.
Qed.

(** Over a worker's life the two limits stay 3, the account and the proxy
    line stay the ones it was constructed with, and [was_good_before],
    once set, is never cleared, not even by a retry. *)
Theorem worker_constants_and_sticky_flag {U : Url.UrlLib} (account_id : nat)
    (account_data : option Worker.account) (proxy_line : option string)
    (inputs more : list Worker.input) :
  let s := Worker.run
             (Worker.start (Worker.init account_id account_data proxy_line))
             inputs in
  Worker.max_retries (Worker.worker s) = 3
  /\ Worker.max_consecutive_disconnects (Worker.worker s) = 3
  /\ Worker.gradient_data (Worker.worker s) = account_data
  /\ Worker.proxy_line (Worker.worker s) = proxy_line
  /\ (Worker.was_good_before (Worker.worker s) = true ->
      Worker.was_good_before (Worker.worker (Worker.run s more)) = true).
Proof.
  assert (H : forall inputs s0,
    phase_fields s0 ->
    Worker.max_consecutive_disconnects (Worker.worker (Worker.run s0 inputs))
    = Worker.max_consecutive_disconnects (Worker.worker s0)
    /\ Worker.gradient_data (Worker.worker (Worker.run s0 inputs))
       = Worker.gradient_data (Worker.worker s0)
    /\ Worker.proxy_line (Worker.worker (Worker.run s0 inputs))
       = Worker.proxy_line (Worker.worker s0)
    /\ (Worker.was_good_before (Worker.worker s0) = true ->
        Worker.was_good_before (Worker.worker (Worker.run s0 inputs)) = true)).
  { clear. unfold Worker.run.
    induction inputs as [|i inputs IH]; intros s0 Hs; simpl;
      [repeat split; auto|].
    destruct (LifeFacts.step_sticky s0 i Hs) as (Hw & Hm & Hg & Hp).
    destruct (IH _ (LifeFacts.step_phase_fields s0 i Hs))
      as (Hm' & Hg' & Hp' & Hw').
    repeat split; try congruence. auto. }
  intro s.
  destruct (H inputs
              (Worker.start (Worker.init account_id account_data proxy_line))
              eq_refl) as (Hm & Hg & Hp & _).
  fold s in Hm, Hg, Hp.
  destruct (SessionFacts.run_budget inputs
              (Worker.start (Worker.init account_id account_data proxy_line))
              ltac:(simpl; lia)) as (Hmx & _).
  fold s in Hmx.
  split; [exact Hmx|]. split; [exact Hm|]. split; [exact Hg|].
  split; [exact Hp|].
  assert (Hs : phase_fields s)
    by (apply LifeFacts.run_phase_fields; reflexivity).
  exact (proj2 (proj2 (proj2 (H more s Hs)))).
Qed.

(** A retried worker that was healthy once. *)
Lemma worker_constants_and_sticky_flag_witness :
  let ok := Worker.Setup
              {| create_temp_profile_ok := true;
                 profile_path_assigned := true; start_chrome_ok := true;
                 setup_proxy_ok := true; connect_to_proxy_ok := true;
                 setup_gradient_extension_ok := true |} in
  let good := Worker.Poll (Polled (ElementText "Good") orderly) in
  let bad := Worker.Poll (Polled (ElementText "Bad") orderly) in
  let fresh := Worker.init 1 (Some {| Worker.email := "a@x.com";
                                      Worker.password := "p1" |})
                           (Some "http://u1:pw1@h1:1000") in
  Worker.was_good_before
    (Worker.worker
       (Worker.run (Worker.run (Worker.start fresh) [ok; good])
                   [bad; bad; bad; ok; bad])) = true.
Proof.
  intros ok good bad fresh.
  exact (proj2 (proj2 (proj2 (proj2
           (worker_constants_and_sticky_flag
              1 (Some {| Worker.email := "a@x.com"; Worker.password := "p1" |})
              (Some "http://u1:pw1@h1:1000") [ok; good]
              [bad; bad; bad; ok; bad])))) eq_refl).
Defined.

(** Polls whose page refresh raises leave no trace in the worker: with or
    without them a sequence of inputs ends with the same fields in the
    same phase, so they neither break nor lengthen a streak. *)
Theorem refresh_errors_leave_no_trace {U : Url.UrlLib} (account_id : nat)
    (account_data : option Worker.account) (proxy_line : option string)
    (inputs : list Worker.input) :
  let s0 := Worker.start (Worker.init account_id account_data proxy_line) in
  let kept := filter (fun i => negb (is_refresh_error i)) inputs in
  Worker.worker (Worker.run s0 inputs) = Worker.worker (Worker.run s0 kept)
  /\ Worker.current (Worker.run s0 inputs)
     = Worker.current (Worker.run s0 kept).
Proof.
  intros s0 kept. subst kept.
  assert (H : forall inputs s1 s2,
    phase_fields s1 ->
    Worker.worker s1 = Worker.worker s2 ->
    Worker.current s1 = Worker.current s2 ->
    Worker.worker (Worker.run s1 inputs)
    = Worker.worker
        (Worker.run s2 (filter (fun i => negb (is_refresh_error i)) inputs))
    /\ Worker.current (Worker.run s1 inputs)
       = Worker.current
           (Worker.run s2 (filter (fun i => negb (is_refresh_error i))
                                  inputs))).
  { clear. unfold Worker.run.
    induction inputs as [|i inputs IH]; intros s1 s2 Hs Hw Hc; simpl;
      [split; assumption|].
    pose proof (LifeFacts.step_phase_fields s1 i Hs) as Hs'.
    destruct (is_refresh_error i) eqn:Hi; cbn [negb].
    - destruct (LifeFacts.step_refresh_error s1 i Hs Hi) as (Hw1 & Hc1).
      apply IH; [exact Hs'|congruence|congruence].
    - simpl. destruct (LifeFacts.step_output_free s1 s2 i Hw Hc)
        as (Hw1 & Hc1).
      apply IH; assumption. }
  apply H; reflexivity.
Qed.

(** For a monitored worker that was healthy before and has budget left,
    with a streak below the threshold: a run of unhealthy labels keeps
    the poll loop going, one more in the streak each, as long as the
    streak stays below the threshold; the label that brings it to the
    threshold makes the loop return with a retry started, the count one
    up, the streak at 0 and the flag cleared. *)
Theorem retry_starts_when_streak_reaches_threshold
    (obs : list observation) (w : Worker.automation) (t : list event) :
  Worker.health_monitoring_active w = true ->
  Worker.was_good_before w = true ->
  Worker.retry_count w < Worker.max_retries w ->
  Forall unhealthy_label obs ->
  Worker.consecutive_disconnects w < Worker.max_consecutive_disconnects w ->
  Worker.consecutive_disconnects w + List.length obs
    <= Worker.max_consecutive_disconnects w ->
  let r := Worker.monitor_loop obs w t in
  (Worker.consecutive_disconnects w + List.length obs
     < Worker.max_consecutive_disconnects w ->
   Worker.result_of r = Worker.Running
   /\ Worker.consecutive_disconnects (Worker.worker_of r)
      = Worker.consecutive_disconnects w + List.length obs
   /\ Worker.retry_count (Worker.worker_of r) = Worker.retry_count w
   /\ Worker.health_monitoring_active (Worker.worker_of r) = true)
  /\ (Worker.consecutive_disconnects w + List.length obs
        = Worker.max_consecutive_disconnects w ->
      Worker.result_of r = Worker.RetryInitiated
      /\ Worker.consecutive_disconnects (Worker.worker_of r) = 0
      /\ Worker.retry_count (Worker.worker_of r) = Worker.retry_count w + 1
      /\ Worker.health_monitoring_active (Worker.worker_of r) = false).
Proof. intros. now apply StreakFacts.monitor_loop_streak. Qed.

(** After a healthy label, two unhealthy ones are watched and the third
    starts the retry. *)
Lemma retry_starts_when_streak_reaches_threshold_witness :
  let w := Worker.worker_of
             (Worker.monitor_extension_health
                [Polled (ElementText "Good") orderly] (Worker.init 1 None None) []) in
  let bad := Polled (ElementText "Bad") orderly in
  Worker.result_of (Worker.monitor_loop [bad; bad] w []) = Worker.Running
  /\ Worker.result_of (Worker.monitor_loop [bad; bad; Polled NoSuchElement orderly]
                                           w [])
     = Worker.RetryInitiated.
Proof.
  intros w bad. split.
  - refine (proj1 (proj1 (retry_starts_when_streak_reaches_threshold
                            [bad; bad] w [] eq_refl eq_refl _ _ _ _) _));
      try (vm_compute; lia).
    repeat constructor.
  - refine (proj1 (proj2 (retry_starts_when_streak_reaches_threshold
                            [bad; bad; Polled NoSuchElement orderly] w []
                            eq_refl eq_refl _ _ _ _) _));
      try (vm_compute; lia); try reflexivity.
    repeat constructor.
Defined.

(** A retry whose pipeline fails on a mandatory stage leaves the worker
    without any thread for good, with its retry count as it was: the
    last message promises a further retry when budget remains, and
    announces the end of the budget otherwise, but in both cases nothing
    that follows changes the worker. *)
Theorem failed_retry_leaves_worker_inert {U : Url.UrlLib}
    (s : Worker.session) (e : env) :
  Worker.current s = Worker.Retrying ->
  Worker.gradient_data (Worker.worker s) <> None ->
  Spec.mandatory_ok e (Worker.worker s) = false ->
  let s' := Worker.step s (Worker.Setup e) in
  Worker.current s' = Worker.Stopped
  /\ Worker.retry_count (Worker.worker s') = Worker.retry_count (Worker.worker s)
  /\ Spec.started (Worker.output s') = Spec.started (Worker.output s)
  /\ (forall inputs, Worker.run s' inputs = s')
  /\ exists mid,
       Worker.output s'
       = (Worker.output s ++ mid
            ++ [Print Error "Retry failed";
                if Worker.retry_count (Worker.worker s)
                   <? Worker.max_retries (Worker.worker s)
                then Print Info "Will attempt retry if disconnected again"
                else Print Error "Max retries reached. Account disabled."])%list.
Proof.
  intros Hc Hg Hfail s'.
  destruct (SessionFacts.retry_setup_facts e (Worker.worker s)
              (Worker.output s)) as ((_ & Hrc & _) & Hres & Hst).
  assert (Hfalse : Worker.result_of
                     (Worker.retry_setup e (Worker.worker s)
                        (Worker.output s)) = false).
  { rewrite Hres. destruct (Worker.gradient_data (Worker.worker s));
      [exact Hfail|reflexivity]. }
  assert (Hs : s' = {| Worker.current := Worker.Stopped;
                       Worker.worker :=
                         Worker.worker_of
                           (Worker.retry_setup e (Worker.worker s)
                              (Worker.output s));
                       Worker.output :=
                         Worker.output_of
                           (Worker.retry_setup e (Worker.worker s)
                              (Worker.output s)) |}).
  { subst s'. unfold Worker.step. rewrite Hc, Hfalse. reflexivity. }
  rewrite Hs. cbn [Worker.current Worker.worker Worker.output].
  split; [reflexivity|]. split; [exact Hrc|].
  split; [rewrite Hst, Hfalse; apply app_nil_r|].
  split; [intro; apply SessionFacts.run_stopped; reflexivity|].
  apply RetryFacts.retry_setup_failure_output; assumption.
Qed.

(** The first retry of a worker meets a browser that does not start. *)
Lemma failed_retry_leaves_worker_inert_witness :
  let ok := {| create_temp_profile_ok := true;
               profile_path_assigned := true; start_chrome_ok := true;
               setup_proxy_ok := true; connect_to_proxy_ok := true;
               setup_gradient_extension_ok := true |} in
  let e := {| create_temp_profile_ok := true;
              profile_path_assigned := true; start_chrome_ok := false;
              setup_proxy_ok := true; connect_to_proxy_ok := true;
              setup_gradient_extension_ok := true |} in
  let good := Worker.Poll (Polled (ElementText "Good") orderly) in
  let bad := Worker.Poll (Polled (ElementText "Bad") orderly) in
  let s := Worker.run
             (Worker.start
                (Worker.init 1 (Some {| Worker.email := "a@x.com";
                                        Worker.password := "p1" |})
                             (Some "http://u1:pw1@h1:1000")))
             [Worker.Setup ok; good; bad; bad; bad] in
  Worker.current s = Worker.Retrying
  /\ Worker.retry_count (Worker.worker (Worker.step s (Worker.Setup e))) = 1
  /\ Worker.run (Worker.step s (Worker.Setup e))
                [Worker.Setup ok; bad; bad; bad]
     = Worker.step s (Worker.Setup e).
Proof.
  intros ok e good bad s.
  assert (Hc : Worker.current s = Worker.Retrying)
    by (vm_compute; reflexivity).
  assert (Hg : Worker.gradient_data (Worker.worker s) <> None)
    by (vm_compute; discriminate).
  assert (Hf : Spec.mandatory_ok e (Worker.worker s) = false)
    by (vm_compute; reflexivity).
  assert (Hrc : Worker.retry_count (Worker.worker s) = 1)
    by (vm_compute; reflexivity).
  destruct (failed_retry_leaves_worker_inert s e Hc Hg Hf)
    as (_ & Hr & _ & Hrun & _).
  split; [exact Hc|]. split; [exact (eq_trans Hr Hrc)|]. apply Hrun.
Defined.

(** A pipeline run that fails at the extension login after the browser
    has started returns failure with the browser and the profile still
    held: the initial setup releases nothing, and the worker stays so,
    without a thread, whatever follows. *)
Theorem late_setup_failure_keeps_browser {U : Url.UrlLib} (account_id : nat)
    (account_data : Worker.account) (proxy_line : option string) (e : env) :
  let w := Worker.init account_id (Some account_data) proxy_line in
  Spec.bind_proxy_ok w = true -> create_temp_profile_ok e = true ->
  start_chrome_ok e = true -> setup_gradient_extension_ok e = false ->
  let s := Worker.step (Worker.start w) (Worker.Setup e) in
  Worker.current s = Worker.Stopped
  /\ Worker.driver (Worker.worker s) = true
  /\ Worker.temp_profile_path (Worker.worker s) = true
  /\ Worker.setup_complete (Worker.worker s) = false
  /\ Worker.health_monitoring_active (Worker.worker s) = false
  /\ (forall inputs, Worker.run s inputs = s).
Proof.
  intros w H1 H2 H3 H6 s.
  destruct (LifeFacts.pipeline_late_failure_fields e w [] H1 H2 H3 H6)
    as (Hres & Hd & Ht & Hc).
  destruct (LifeFacts.setup_as_pipeline e w []) as ((Hr & Hw) & _).
  cbn [Worker.gradient_data Worker.init w] in Hr, Hw.
  destruct (SessionFacts.run_account_setup_facts e w [])
    as ((_ & _ & _ & _ & _ & Hact & _) & _).
  assert (Hs : s = {| Worker.current := Worker.Stopped;
                      Worker.worker :=
                        Worker.worker_of (Worker.run_account_setup e w []);
                      Worker.output :=
                        Worker.output_of (Worker.run_account_setup e w []) |}).
  { subst s. unfold Worker.step, Worker.start.
    cbn [Worker.current Worker.worker Worker.output].
    rewrite Hr, Hres. reflexivity. }
  rewrite Hs. cbn [Worker.current Worker.worker Worker.output].
  rewrite Hw.
  split; [reflexivity|]. split; [exact Hd|]. split; [exact Ht|].
  split; [rewrite Hc; reflexivity|].
  split; [rewrite <- Hw, Hact; reflexivity|].
  intro. apply SessionFacts.run_stopped. reflexivity.
Qed.

Lemma late_setup_failure_keeps_browser_witness :
  let e := {| create_temp_profile_ok := true;
              profile_path_assigned := true; start_chrome_ok := true;
              setup_proxy_ok := false; connect_to_proxy_ok := true;
              setup_gradient_extension_ok := false |} in
  Worker.driver
    (Worker.worker
       (Worker.step
          (Worker.start
             (Worker.init 1 (Some {| Worker.email := "a@x.com";
                                     Worker.password := "p1" |})
                          (Some "http://u1:pw1@h1:1000")))
          (Worker.Setup e))) = true.
Proof.
  intros e.
  exact (proj1 (proj2 (late_setup_failure_keeps_browser (U := cpython)
                         1 {| Worker.email := "a@x.com";
                              Worker.password := "p1" |}
                         (Some "http://u1:pw1@h1:1000") e
                         ltac:(vm_compute; reflexivity)
                         eq_refl eq_refl eq_refl))).
Defined.

(** The proxy record a successful pipeline run leaves is parsed from the
    bound proxy line alone: two runs of workers bound to the same line
    leave equal records, whatever record either worker held before, so a
    retry binds the proxy of the initial setup again. *)
Theorem pipeline_parses_proxy_afresh {U : Url.UrlLib} (e1 e2 : env)
    (w1 w2 : Worker.automation) (t1 t2 : list event) :
  Worker.proxy_line w1 = Worker.proxy_line w2 ->
  let r1 := Worker.run_account_setup_internal e1 w1 t1 in
  let r2 := Worker.run_account_setup_internal e2 w2 t2 in
  Worker.result_of r1 = true -> Worker.result_of r2 = true ->
  Worker.proxy_data (Worker.worker_of r1)
  = Worker.proxy_data (Worker.worker_of r2)
  /\ Worker.proxy_data (Worker.worker_of r1) <> None.
Proof.
  intros Hline r1 r2 H1 H2.
  destruct (LifeFacts.pipeline_success_fields e1 w1 t1 H1)
    as (_ & _ & _ & l1 & p1 & Hl1 & Hu1 & Hd1).
  destruct (LifeFacts.pipeline_success_fields e2 w2 t2 H2)
    as (_ & _ & _ & l2 & p2 & Hl2 & Hu2 & Hd2).
  fold r1 in Hd1. fold r2 in Hd2.
  assert (l1 = l2) by congruence. subst l2.
  assert (p1 = p2) by congruence. subst p2.
  rewrite Hd1, Hd2. split; [reflexivity|discriminate].
Qed.

(** A worker holding a stale record and a fresh one, same line. *)
Lemma pipeline_parses_proxy_afresh_witness :
  let ok := {| create_temp_profile_ok := true;
               profile_path_assigned := true; start_chrome_ok := true;
               setup_proxy_ok := true; connect_to_proxy_ok := true;
               setup_gradient_extension_ok := true |} in
  let w := Worker.init 1 None (Some "http://u1:pw1@h1:1000") in
  let stale := Worker.set_proxy_data
                 (Some {| Worker.host := Some "old"; Worker.port := Some 1;
                          Worker.username := None;
                          Worker.proxy_password := None |}) w in
  Worker.proxy_data
    (Worker.worker_of (Worker.run_account_setup_internal ok stale []))
  = Worker.proxy_data
      (Worker.worker_of (Worker.run_account_setup_internal ok w [])).
Proof.
  intros ok w stale.
  exact (proj1 (pipeline_parses_proxy_afresh (U := cpython)
                  ok ok stale w [] [] eq_refl
                  ltac:(vm_compute; reflexivity)
                  ltac:(vm_compute; reflexivity))).
Defined.

(** The liveness watch of [keep_alive] ends at the first check at which
    no worker of the roster is in its poll loop, which includes workers
    between [initiate_retry] and the poll loop of their retry; while some
    worker is monitored the watch sleeps another minute. *)
Theorem keep_alive_exits_when_none_monitored
    (sessions : list Worker.session)
    (later : list (list Worker.automation)) :
  Forall phase_fields sessions ->
  let roster := map Worker.worker sessions in
  (Forall (fun s => Worker.current s <> Worker.Monitoring) sessions ->
   Shutdown.keep_alive (roster :: later)
   = (Shutdown.Exited,
      [Sleep 60; Print Info "All health monitoring stopped. Exiting..."]))
  /\ (Exists (fun s => Worker.current s = Worker.Monitoring) sessions ->
      Shutdown.keep_alive (roster :: later)
      = (fst (Shutdown.keep_alive later),
         Sleep 60 :: snd (Shutdown.keep_alive later))).
Proof.
  intros Hall roster. subst roster.
  pose proof (ShutdownFacts.active_count_zero sessions Hall) as Hz.
  cbn [Shutdown.keep_alive]. split.
  - intro Hnone. apply Hz in Hnone. rewrite Hnone. reflexivity.
  - intro Hsome.
    destruct (Shutdown.active_count (map Worker.worker sessions) =? 0)
      eqn:Hc.
    + apply Nat.eqb_eq in Hc. apply Hz in Hc.
      apply Exists_exists in Hsome. destruct Hsome as (s & Hin & Hm).
      rewrite Forall_forall in Hc. destruct (Hc s Hin Hm).
    + destruct (Shutdown.keep_alive later). reflexivity.
Qed.

(** A fleet of one worker that has just started its first retry: the
    watch ends. *)
Lemma keep_alive_exits_when_none_monitored_witness :
  let ok := Worker.Setup
              {| create_temp_profile_ok := true;
                 profile_path_assigned := true; start_chrome_ok := true;
                 setup_proxy_ok := true; connect_to_proxy_ok := true;
                 setup_gradient_extension_ok := true |} in
  let good := Worker.Poll (Polled (ElementText "Good") orderly) in
  let bad := Worker.Poll (Polled (ElementText "Bad") orderly) in
  let s := Worker.run
             (Worker.start
                (Worker.init 1 (Some {| Worker.email := "a@x.com";
                                        Worker.password := "p1" |})
                             (Some "http://u1:pw1@h1:1000")))
             [ok; good; bad; bad; bad] in
  Worker.current s = Worker.Retrying
  /\ fst (Shutdown.keep_alive [[Worker.worker s]]) = Shutdown.Exited.
Proof.
  intros ok good bad s.
  assert (Hc : Worker.current s = Worker.Retrying)
    by (vm_compute; reflexivity).
  split; [exact Hc|].
  assert (Hall : Forall phase_fields [s]).
  { constructor; [|constructor]. vm_compute. repeat split. }
  destruct (keep_alive_exits_when_none_monitored [s] [] Hall) as (Hexit & _).
  cbn [map] in Hexit. rewrite Hexit; [reflexivity|].
  constructor; [|constructor]. rewrite Hc. discriminate.
Defined.

(** [cleanup] clears the monitoring flag and leaves every other field,
    the browser and profile fields included, as it was; a poll loop that
    then comes to its next iteration ends there, without reading the
    label, printing or starting a retry; and after [cleanup_all] no
    worker of the roster counts as active. *)
Theorem cleanup_ends_polling (w : Worker.automation) (t t' : list event)
    (o : observation) (rest : list observation)
    (roster : list Worker.automation)
    (d : teardown) (answers : nat -> teardown) :
  let w' := Worker.worker_of (Shutdown.cleanup d w t) in
  w' = Worker.set_health_monitoring_active false w
  /\ Worker.monitor_loop (o :: rest) w' t' = (Worker.Deactivated, w', t')
  /\ fst (Shutdown.cleanup_all answers roster)
     = map (Worker.set_health_monitoring_active false) roster
  /\ Shutdown.active_count (fst (Shutdown.cleanup_all answers roster)) = 0.
Proof.
  intro w'. subst w'. rewrite ShutdownFacts.cleanup_worker.
  split; [reflexivity|]. split.
  - rewrite ShutdownFacts.monitor_loop_deactivated; reflexivity.
  - rewrite ShutdownFacts.cleanup_all_flags.
    split; [reflexivity|apply ShutdownFacts.active_count_cleared].
Qed.

(* ================================================================== *)
(** * The poll loop and the polls of a session *)

Module LoopFacts.
Import Worker Spec SessionFacts.

(** The loop over a list is its first iteration and, if that goes on, the
    loop over the rest. *)
Lemma monitor_loop_cons (o : observation) (rest : list observation)
    (w : automation) (t : list event) :
  monitor_loop (o :: rest) w t
  = match result_of (monitor_loop [o] w t) with
    | Running =>
        monitor_loop rest (worker_of (monitor_loop [o] w t))
                     (output_of (monitor_loop [o] w t))
    | _ => monitor_loop [o] w t
    end.
Proof.
  cbn [monitor_loop]. unfold bind, get, modify, ret, result_of, worker_of,
    output_of.
  destruct (health_monitoring_active w); [|reflexivity].
  destruct (monitor_iteration o w t) as [[b w'] t'].
  destruct b; reflexivity.
Qed.

Section WithUrlLib.
Context {U : Url.UrlLib}.

(** Feeding a monitored worker its polls one by one is running the poll
    loop over them. *)
Lemma run_polls (obs : list observation) :
  forall s,
    current s = Monitoring ->
    obs <> [] ->
    run s (map Poll obs)
    = session_after_loop (monitor_loop obs (worker s) (output s)).
Proof.
  unfold run.
  induction obs as [|o rest IH]; intros s Hc Hne; [congruence|].
  cbn [map fold_left].
  assert (Hstep : step s (Poll o)
                  = session_after_loop
                      (monitor_loop [o] (worker s) (output s))).
  { unfold step. rewrite Hc. reflexivity. }
  rewrite Hstep, (monitor_loop_cons o rest).
  destruct (result_of (monitor_loop [o] (worker s) (output s))) eqn:Hr.
  - destruct rest as [|o' rest'].
    + cbn [map fold_left]. unfold session_after_loop.
      rewrite Hr. reflexivity.
    + rewrite IH; [|unfold session_after_loop; rewrite Hr; reflexivity
                   |discriminate].
      unfold session_after_loop at 2 3. cbn [worker output]. reflexivity.
  - assert (Hstop : forall l s0, current s0 = Retrying ->
              fold_left step (map Poll l) s0 = s0).
    { clear. induction l as [|x l IHl]; intros s0 H0; [reflexivity|].
      cbn [map fold_left].
      replace (step s0 (Poll x)) with s0; [apply IHl, H0|].
      unfold step. rewrite H0. reflexivity. }
    apply Hstop. unfold session_after_loop. rewrite Hr. reflexivity.
  - change (fold_left step (map Poll rest)
              (session_after_loop (monitor_loop [o] (worker s) (output s))))
      with (run (session_after_loop (monitor_loop [o] (worker s) (output s)))
                (map Poll rest)).
    apply run_stopped. unfold session_after_loop. rewrite Hr. reflexivity.
Qed.

End WithUrlLib.
End LoopFacts.

(** Feeding a monitored worker a non-empty list of polls one by one is
    running the poll loop over the list: same phase, fields and output;
    once the loop has returned for a retry, or ended, the polls left in
    the list are not looked at. *)
Theorem polls_run_the_loop {U : Url.UrlLib} (s : Worker.session)
    (obs : list observation) :
  Worker.current s = Worker.Monitoring -> obs <> [] ->
  Worker.run s (map Worker.Poll obs)
  = session_after_loop
      (Worker.monitor_loop obs (Worker.worker s) (Worker.output s))
  /\ (forall more,
        Worker.result_of
          (Worker.monitor_loop obs (Worker.worker s) (Worker.output s))
        <> Worker.Running ->
        Worker.monitor_loop (obs ++ more) (Worker.worker s) (Worker.output s)
        = Worker.monitor_loop obs (Worker.worker s) (Worker.output s)).
Proof.
  intros Hc Hne. split; [apply LoopFacts.run_polls; assumption|].
  intros more. generalize (Worker.worker s) (Worker.output s). clear Hc.
  induction obs as [|o rest IH]; intros w t Hr; [congruence|].
  change ((o :: rest) ++ more)%list with (o :: (rest ++ more))%list.
  rewrite (LoopFacts.monitor_loop_cons o rest) in Hr |- *.
  rewrite (LoopFacts.monitor_loop_cons o (rest ++ more)).
  destruct (Worker.result_of (Worker.monitor_loop [o] w t)) eqn:H1;
    try reflexivity.
  destruct rest as [|o' rest']; [exfalso; apply Hr; reflexivity|].
  apply IH; [discriminate|exact Hr].
Qed.

(** One healthy poll, then four unhealthy ones: the fourth is not read. *)
Lemma polls_run_the_loop_witness :
  let s := Worker.step
             (Worker.start
                (Worker.init 1 (Some {| Worker.email := "a@x.com";
                                        Worker.password := "p1" |})
                             (Some "http://u1:pw1@h1:1000")))
             (Worker.Setup
                {| create_temp_profile_ok := true;
                   profile_path_assigned := true; start_chrome_ok := true;
                   setup_proxy_ok := true; connect_to_proxy_ok := true;
                   setup_gradient_extension_ok := true |}) in
  let good := Polled (ElementText "Good") orderly in
  let bad := Polled (ElementText "Bad") orderly in
  Worker.current (Worker.run s (map Worker.Poll [good; bad; bad; bad; bad]))
  = Worker.Retrying
  /\ Worker.monitor_loop ([good; bad; bad; bad] ++ [bad])
                         (Worker.worker s) (Worker.output s)
     = Worker.monitor_loop [good; bad; bad; bad]
                           (Worker.worker s) (Worker.output s).
Proof.
  intros s good bad.
  assert (Hc : Worker.current s = Worker.Monitoring)
    by (vm_compute; reflexivity).
  split.
  - rewrite (proj1 (polls_run_the_loop s [good; bad; bad; bad; bad] Hc
                      ltac:(discriminate))).
    vm_compute. reflexivity.
  - apply (proj2 (polls_run_the_loop s [good; bad; bad; bad] Hc
                    ltac:(discriminate))).
    vm_compute. discriminate.
Defined.

(** A worker whose retry pipeline succeeds is retried again as soon as
    its new session shows as many unhealthy labels in a row as the
    threshold, without any healthy label in between: [was_good_before]
    is still set from before the retry, so the budget can be used up by
    a session that never becomes healthy again. *)
Theorem retried_worker_retries_again {U : Url.UrlLib} (s : Worker.session)
    (e : env) (obs : list observation) :
  phase_fields s ->
  Worker.current s = Worker.Retrying ->
  Worker.was_good_before (Worker.worker s) = true ->
  Worker.retry_count (Worker.worker s) < Worker.max_retries (Worker.worker s) ->
  Worker.gradient_data (Worker.worker s) <> None ->
  Spec.mandatory_ok e (Worker.worker s) = true ->
  Forall unhealthy_label obs -> obs <> [] ->
  List.length obs = Worker.max_consecutive_disconnects (Worker.worker s) ->
  let s' := Worker.run s (Worker.Setup e :: map Worker.Poll obs) in
  Worker.current s' = Worker.Retrying
  /\ Worker.retry_count (Worker.worker s')
     = Worker.retry_count (Worker.worker s) + 1.
Proof.
  intros Hinv Hc Hw Hrc Hg Hok Hall Hne Hlen s'.
  unfold phase_fields in Hinv. rewrite Hc in Hinv.
  destruct Hinv as (_ & _ & _ & _ & Hzero).
  destruct (SessionFacts.retry_setup_facts e (Worker.worker s)
              (Worker.output s))
    as ((Hw1 & Hrc1 & Hmx1 & Hc1 & Ht1 & _) & Hres & _).
  assert (Htrue : Worker.result_of
                    (Worker.retry_setup e (Worker.worker s) (Worker.output s))
                  = true).
  { rewrite Hres. destruct (Worker.gradient_data (Worker.worker s));
      [exact Hok|congruence]. }
  set (r := Worker.retry_setup e (Worker.worker s) (Worker.output s)) in *.
  assert (Hs1 : Worker.step s (Worker.Setup e)
                = Worker.enter_monitoring (Worker.worker_of r)
                                          (Worker.output_of r)).
  { unfold Worker.step. rewrite Hc. fold r. rewrite Htrue. reflexivity. }
  destruct (SessionFacts.enter_monitoring_worker (Worker.worker_of r)
              (Worker.output_of r)) as (Hew & Hec & _).
  subst s'. unfold Worker.run. cbn [fold_left]. rewrite Hs1.
  change (fold_left Worker.step (map Worker.Poll obs)
            (Worker.enter_monitoring (Worker.worker_of r)
                                     (Worker.output_of r)))
    with (Worker.run (Worker.enter_monitoring (Worker.worker_of r)
                                              (Worker.output_of r))
                     (map Worker.Poll obs)).
  rewrite (LoopFacts.run_polls obs _ Hec Hne). rewrite Hew.
  set (w1 := Worker.set_health_monitoring_active true (Worker.worker_of r)).
  assert (Hf : Worker.health_monitoring_active w1 = true
               /\ Worker.was_good_before w1 = true
               /\ Worker.retry_count w1 = Worker.retry_count (Worker.worker s)
               /\ Worker.max_retries w1 = Worker.max_retries (Worker.worker s)
               /\ Worker.consecutive_disconnects w1 = 0
               /\ Worker.max_consecutive_disconnects w1
                  = Worker.max_consecutive_disconnects (Worker.worker s)).
  { subst w1.
    cbn [Worker.health_monitoring_active Worker.was_good_before
         Worker.retry_count Worker.max_retries
         Worker.consecutive_disconnects Worker.max_consecutive_disconnects
         Worker.set_health_monitoring_active].
    repeat split; congruence. }
  destruct Hf as (Ha & Hwg & Hr & Hm & Hz & Ht).
  assert (Hpos : 0 < List.length obs)
    by (destruct obs; [congruence|simpl; lia]).
  destruct (StreakFacts.monitor_loop_streak obs w1
              (Worker.output
                 (Worker.enter_monitoring (Worker.worker_of r)
                                          (Worker.output_of r)))
              Ha Hwg ltac:(lia) Hall ltac:(lia) ltac:(lia))
    as (_ & Hretry).
  destruct Hretry as (H1 & _ & H3 & _); [lia|].
  unfold session_after_loop. cbn [Worker.current Worker.worker].
  rewrite H1, H3, Hr. split; reflexivity.
Qed.

(** After the first retry, three unhealthy labels start the second. *)
Lemma retried_worker_retries_again_witness :
  let ok := {| create_temp_profile_ok := true;
               profile_path_assigned := true; start_chrome_ok := true;
               setup_proxy_ok := true; connect_to_proxy_ok := true;
               setup_gradient_extension_ok := true |} in
  let good := Worker.Poll (Polled (ElementText "Good") orderly) in
  let bad := Worker.Poll (Polled (ElementText "Bad") orderly) in
  let s := Worker.run
             (Worker.start
                (Worker.init 1 (Some {| Worker.email := "a@x.com";
                                        Worker.password := "p1" |})
                             (Some "http://u1:pw1@h1:1000")))
             [Worker.Setup ok; good; bad; bad; bad] in
  Worker.retry_count (Worker.worker s) = 1
  /\ Worker.retry_count
       (Worker.worker
          (Worker.run s (Worker.Setup ok
                           :: map Worker.Poll
                                [Polled (ElementText "Bad") orderly;
                                 Polled NoSuchElement orderly;
                                 Polled QueryRaises orderly])))
     = 2.
Proof.
  intros ok good bad s.
  assert (H1 : Worker.retry_count (Worker.worker s) = 1)
    by (vm_compute; reflexivity).
  split; [exact H1|].
  assert (Hinv : phase_fields s) by (vm_compute; repeat split).
  destruct (retried_worker_retries_again s ok
              [Polled (ElementText "Bad") orderly; Polled NoSuchElement orderly;
               Polled QueryRaises orderly]
              Hinv
              ltac:(vm_compute; reflexivity) ltac:(vm_compute; reflexivity)
              ltac:(vm_compute; lia) ltac:(vm_compute; discriminate)
              ltac:(vm_compute; reflexivity)
              ltac:(repeat constructor) ltac:(discriminate)
              ltac:(vm_compute; reflexivity)) as (_ & Hrc).
  rewrite Hrc, H1. reflexivity.
Defined.

(* ================================================================== *)
(** * The retry decision of the poll loop *)

Module DecisionFacts.
Import Worker.

(** What an iteration that reads a label returns is the retry condition,
    read after the bookkeeping. *)
Lemma monitor_iteration_decision (q : health_query) (d : teardown)
    (w : automation) (t : list event) :
  result_of (monitor_iteration (Polled q d) w t)
  = should_retry (track_status (is_good (get_extension_health q)) w)
                 (is_good (get_extension_health q)).
Proof.
  unfold monitor_iteration, initiate_retry, cleanup_for_retry.
  cbv beta iota zeta delta [bind emit modify get ret result_of fst snd].
  destruct (should_retry
              (track_status (is_good (get_extension_health q)) w)
              (is_good (get_extension_health q))); [|reflexivity].
  cbn [driver temp_profile_path set_retry_count
       set_health_monitoring_active set_driver].
  destruct d as [[] []]; destruct (driver _);
    cbv beta iota zeta delta [quit_returns profile_exists andb];
    cbn [driver temp_profile_path set_retry_count
         set_health_monitoring_active set_driver];
    destruct (temp_profile_path _); reflexivity.
Qed.

(** The condition against the three-condition formula, on the fields
    left by the bookkeeping. *)
Lemma should_retry_after_bookkeeping (w : automation) (good : bool) :
  good = false \/ 1 <= max_consecutive_disconnects w ->
  let w' := track_status good w in
  should_retry w' good
  = Spec.shouldRetry (was_good_before w') (consecutive_disconnects w')
      (max_consecutive_disconnects w') (retry_count w') (max_retries w').
Proof.
  intros H. unfold should_retry, Spec.shouldRetry.
  destruct good; simpl.
  - destruct H as [H|H]; [discriminate H|].
    replace (max_consecutive_disconnects w <=? 0) with false
      by (symmetry; apply Nat.leb_gt; lia).
    reflexivity.
  - rewrite andb_true_r. reflexivity.
Qed.

Lemma shouldRetry_true_iff (h : bool) (c thr rc mr : nat) :
  Spec.shouldRetry h c thr rc mr = true
  <-> h = true /\ thr <= c /\ rc < mr.
Proof.
  unfold Spec.shouldRetry.
  rewrite !andb_true_iff, Nat.leb_le, Nat.ltb_lt. tauto.
Qed.

Section WithUrlLib.
Context {U : Url.UrlLib}.

(** No input changes the threshold. *)
Lemma run_threshold (inputs : list input) :
  forall s : session,
    phase_fields s ->
    max_consecutive_disconnects (worker (run s inputs))
    = max_consecutive_disconnects (worker s).
Proof.
  induction inputs as [|i inputs IH]; intros s Hs; [reflexivity|].
  unfold run. cbn [fold_left].
  change (fold_left step inputs (step s i)) with (run (step s i) inputs).
  rewrite (IH _ (LifeFacts.step_phase_fields s i Hs)).
  exact (proj1 (proj2 (LifeFacts.step_sticky s i Hs))).
Qed.

End WithUrlLib.
End DecisionFacts.

(** C1.  The retry decision the poll loop consults -- whether the
    iteration that has read a label takes the [return] after
    [initiate_retry] -- is [shouldRetry] of the worker's fields as the
    iteration's bookkeeping leaves them: it is true exactly when the
    worker was ever healthy, the streak of unhealthy checks has reached
    the threshold and the retry count is below the maximum.  This holds
    for every valuation of the worker's fields when the label read is
    unhealthy, for every valuation with a threshold of at least 1
    whatever the label, and so at every state that a worker built by the
    constructor reaches, whose threshold is 3. *)
Theorem C1_retry_decision {U : Url.UrlLib} (w : Worker.automation)
    (q : health_query) (d : teardown) (t : list event) :
  let good := Worker.is_good (Worker.get_extension_health q) in
  let w' := Worker.track_status good w in
  let wasEverHealthy := Worker.was_good_before w' in
  let consecutiveUnhealthyChecks := Worker.consecutive_disconnects w' in
  let unhealthyThreshold := Worker.max_consecutive_disconnects w' in
  let retryCount := Worker.retry_count w' in
  let maxRetries := Worker.max_retries w' in
  let decision :=
    Worker.result_of (Worker.monitor_iteration (Polled q d) w t) in
  (good = false
   \/ 1 <= Worker.max_consecutive_disconnects w
   \/ exists account_id account_data proxy_line inputs,
        w = Worker.worker
              (Worker.run
                 (Worker.start
                    (Worker.init account_id account_data proxy_line))
                 inputs)) ->
  decision = Spec.shouldRetry wasEverHealthy consecutiveUnhealthyChecks
                              unhealthyThreshold retryCount maxRetries
  /\ (decision = true <->
      wasEverHealthy = true
      /\ unhealthyThreshold <= consecutiveUnhealthyChecks
      /\ retryCount < maxRetries).
Proof.
  intros good w' wasEverHealthy consecutiveUnhealthyChecks
    unhealthyThreshold retryCount maxRetries decision H.
  assert (H' : good = false \/ 1 <= Worker.max_consecutive_disconnects w).
  { destruct H as [H|[H|(account_id & account_data & proxy_line & inputs
                          & H)]];
      [left; exact H|right; exact H|right].
    assert (Hs : phase_fields
                   (Worker.start
                      (Worker.init account_id account_data proxy_line)))
      by reflexivity.
    rewrite H, (DecisionFacts.run_threshold inputs _ Hs).
    cbn [Worker.worker Worker.start Worker.init
         Worker.max_consecutive_disconnects]. lia. }
  assert (Hd : decision
               = Spec.shouldRetry wasEverHealthy consecutiveUnhealthyChecks
                   unhealthyThreshold retryCount maxRetries).
  { subst decision. rewrite DecisionFacts.monitor_iteration_decision.
    exact (DecisionFacts.should_retry_after_bookkeeping w good H'). }
  split; [exact Hd|].
  rewrite Hd. apply DecisionFacts.shouldRetry_true_iff.
Qed.

(** A worker that has been healthy and has then shown two unhealthy
    labels meets a third one: the loop decides to retry. *)
Lemma C1_retry_decision_witness :
  let ok := {| create_temp_profile_ok := true;
               profile_path_assigned := true; start_chrome_ok := true;
               setup_proxy_ok := true; connect_to_proxy_ok := true;
               setup_gradient_extension_ok := true |} in
  let good := Worker.Poll (Polled (ElementText "Good") orderly) in
  let bad := Worker.Poll (Polled (ElementText "Bad") orderly) in
  let start := Worker.start
                 (Worker.init 1 (Some {| Worker.email := "a@x.com";
                                         Worker.password := "p1" |})
                              (Some "http://u1:pw1@h1:1000")) in
  let w := Worker.worker (Worker.run start [Worker.Setup ok; good; bad; bad])
  in
  Worker.result_of
    (Worker.monitor_iteration (Polled (ElementText "Bad") orderly) w [])
  = Spec.shouldRetry true 3 3 0 3
  /\ Worker.result_of
       (Worker.monitor_iteration (Polled (ElementText "Bad") orderly) w [])
     = true.
Proof.
  intros ok good bad start w.
  destruct (C1_retry_decision (U := cpython) w (ElementText "Bad") orderly []
              ltac:(right; right;
                    exists 1, (Some {| Worker.email := "a@x.com";
                                       Worker.password := "p1" |}),
                           (Some "http://u1:pw1@h1:1000"),
                           [Worker.Setup ok; good; bad; bad];
                    reflexivity))
    as (Heq & Hiff).
  split; [exact Heq|].
  apply Hiff. vm_compute. repeat split; lia.
Defined.

(* ================================================================== *)
(** * The staggered launch *)

Module LaunchFacts.
Import Worker Manager.







Section WithUrlLib.
Context {U : Url.UrlLib}.




End WithUrlLib.
End LaunchFacts.


